(** * OMR-Evaluator: a shallow embedding of the FastAPI backend

    The development follows the layout of [server/app]:
    - [Json], [QuestionPaper], [Result]  : models.py (rows and the JSON column)
    - the exception type and the handler monad
    - [Session]                           : the SQLAlchemy session the handlers use
    - [Schemas]                           : schemas.py (pydantic validation)
    - [OmrService]                        : services/omr_service.py
    - [Questions], [Evaluate]             : routes/questions.py, routes/evaluate.py
    - [Main]                              : main.py (exception handlers, dispatch)

    Library behaviour the handlers rely on (SQLite, SQLAlchemy, FastAPI,
    the [random] module, the file system) is written out as explicit
    definitions; everything that can go wrong outside the program is an
    input, the record [Env]. *)

From Stdlib Require Import ZArith NArith List String Ascii DecimalString Lia.
From stdpp Require Import gmap strings list fin_maps.

Open Scope string_scope.
Open Scope Z_scope.

(** ** JSON values, as Python sees them after decoding *)

Module Json.

#[warnings="-register-all"]
Inductive json :=
| JNull
| JBool (b : bool)
| JNum (z : Z)
| JStr (s : string)
| JArr (l : list json)
| JObj (m : gmap string json).

(** [type(v).__name__] *)
Definition type_name (v : json) : string :=
  match v with
  | JNull => "NoneType"
  | JBool _ => "bool"
  | JNum _ => "int"
  | JStr _ => "str"
  | JArr _ => "list"
  | JObj _ => "dict"
  end.

(** A [str] is kept as its UTF-8 encoding.  Its length in Python is the
    number of code points: the bytes that are not continuation bytes
    (those of the form 10xxxxxx). *)
Definition is_continuation (c : ascii) : bool :=
  match c with
  | Ascii _ _ _ _ _ _ b6 b7 => b7 && negb b6
  end.

Fixpoint code_points (s : string) : nat :=
  match s with
  | EmptyString => O
  | String c rest =>
      if is_continuation c then code_points rest else S (code_points rest)
  end.

(** [len(v)]: lists, strings and dicts have a length, the rest raise
    [TypeError]; the error carries the text Python prints. *)
Definition len (v : json) : string + Z :=
  match v with
  | JArr l => inr (Z.of_nat (List.length l))
  | JStr s => inr (Z.of_nat (code_points s))
  | JObj m => inr (Z.of_nat (size m))
  | _ => inl ("object of type '" +:+ type_name v +:+ "' has no len()")
  end.

End Json.
Import Json.

(** ** models.py *)

Module QuestionPaper.
Record t := mk { id : string; details : json }.
End QuestionPaper.

Module Result.
Record t := mk
  { id : Z; roll_number : string; question_paper_id : string; marks : Z }.
End Result.

(** The two tables, each in storage (rowid) order. *)
Record Database := mkDatabase
  { question_papers : list QuestionPaper.t;
    results : list Result.t }.

Definition empty_db : Database := mkDatabase [] [].

(** ** Exceptions *)

Inductive exn_class :=
| ValueError | TypeError | JSONDecodeError | AttributeError
| IntegrityError | OperationalError | StaleDataError | InvalidRequestError
| OSError | OverflowError.

(** [HTTPException] is a subclass of [Exception]: [except Exception]
    catches both constructors. *)
Inductive exn :=
| HTTPException (status_code : Z) (detail : string)
| Exception (cls : exn_class) (msg : string).

Definition show_Z (z : Z) : string := NilZero.string_of_int (Z.to_int z).

(** [str(e)] *)
Definition str_exn (e : exn) : string :=
  match e with
  | HTTPException c d => show_Z c +:+ ": " +:+ d
  | Exception _ m => m
  end.

Definition HTTP_200_OK : Z := 200.
Definition HTTP_201_CREATED : Z := 201.
Definition HTTP_400_BAD_REQUEST : Z := 400.
Definition HTTP_404_NOT_FOUND : Z := 404.
Definition HTTP_422_UNPROCESSABLE_ENTITY : Z := 422.
Definition HTTP_500_INTERNAL_SERVER_ERROR : Z := 500.

(** ** Integers as SQLite holds them *)

(** An INTEGER column, a rowid and a bound parameter are signed 64-bit
    numbers; a Python [int] has no bound. *)
Definition INT64_MIN : Z := - 2 ^ 63.
Definition INT64_MAX : Z := 2 ^ 63 - 1.

Definition fits64 (z : Z) : bool := (INT64_MIN <=? z) && (z <=? INT64_MAX).

(** What [sqlite3] raises when it is handed an [int] outside that range. *)
Definition overflow : exn :=
  Exception OverflowError "Python int too large to convert to SQLite INTEGER".

(** ** The world outside the program *)

(** The module-level generator of [random]: a tape of raw outputs. *)
Definition Rng := nat -> N.

Definition rng_next (g : Rng) : N * Rng := (g O, fun n => g (S n)).

(** [getrandbits(k)] *)
Definition getrandbits (k : N) (g : Rng) : N * Rng :=
  let (r, g') := rng_next g in (r mod 2 ^ k, g')%N.

(** [random.randint(a, b)] is [a + _randbelow(b - a + 1)].  The library
    draws until the raw value is below the bound; here one raw value is
    reduced into the range, so that every value of the range can come out. *)
Definition randint (a b : Z) (g : Rng) : Z * Rng :=
  let (r, g') := rng_next g in (a + Z.of_N r mod (b - a + 1), g').

Definition hex_digit (n : N) : ascii :=
  match String.get (N.to_nat n) "0123456789abcdef" with
  | Some c => c
  | None => "0"%char
  end.

Definition hex_byte (b : N) : string :=
  String (hex_digit (b / 16)) (String (hex_digit (b mod 16)) "").

Fixpoint to_bytes_little (n : nat) (v : N) : list N :=
  match n with
  | O => []
  | S n' => (v mod 256)%N :: to_bytes_little n' (v / 256)
  end.

(** [bytes.hex()] *)
Definition hex (bs : list N) : string :=
  fold_right (fun b acc => hex_byte b +:+ acc) "" bs.

(** [random.randbytes(n)] *)
Definition randbytes (n : nat) (g : Rng) : list N * Rng :=
  let (r, g') := getrandbits (8 * N.of_nat n) g in (to_bytes_little n r, g').

Inductive SaveFault :=
| OpenFails (msg : string)    (* the file could not be created *)
| WriteFails (msg : string).  (* created, then reading or writing failed *)

(** What one request meets: the fresh uuid, and the faults of the file
    system and of the database engine. [flush_fault = Some (n, msg)] makes
    statement number [n] of the flush raise, or the final COMMIT when the
    flush has fewer statements; [refresh_fault = Some msg] makes the SELECT
    of [db.refresh] raise.  [orm_text] is what [str()] gives for an
    exception SQLAlchemy raises on its own account (the driver's message
    wrapped with the statement and its parameters). *)
Record Env := mkEnv
  { uuid4 : string;
    save_fault : option SaveFault;
    flush_fault : option (nat * string);
    refresh_fault : option string;
    remove_fault : option string;
    orm_text : exn_class -> string }.

(** ** State threaded through a request *)

(** What the session has been told and has not flushed yet. *)
Inductive Pending :=
| PNewPaper (p : QuestionPaper.t)
| PDirtyPaper (id : string) (details : json)
| PDeletedPaper (id : string)
| PNewResult (roll_number question_paper_id : string) (marks : Z).

Inductive Event :=
| EvCommit
| EvCommitFailed (e : exn)
| EvRollback.

Record St := mkSt
  { durable : Database;          (* what is committed in omr_evaluation.db *)
    txn : Database;              (* the session's open transaction *)
    pending : list Pending;
    lastrowid : Z;
    events : list Event;         (* what the session did, oldest first *)
    uploads : gmap string (list Byte.byte);   (* the uploads/ directory *)
    stdout : list string;
    rng : Rng }.

Definition set_session (d t : Database) (p : list Pending) (r : Z)
    (ev : list Event) (s : St) : St :=
  mkSt d t p r ev (uploads s) (stdout s) (rng s).

Definition set_uploads (u : gmap string (list Byte.byte)) (s : St) : St :=
  mkSt (durable s) (txn s) (pending s) (lastrowid s) (events s) u
       (stdout s) (rng s).

Definition set_stdout (o : list string) (s : St) : St :=
  mkSt (durable s) (txn s) (pending s) (lastrowid s) (events s) (uploads s)
       o (rng s).

Definition set_rng (g : Rng) (s : St) : St :=
  mkSt (durable s) (txn s) (pending s) (lastrowid s) (events s) (uploads s)
       (stdout s) g.

Definition init : St :=
  mkSt empty_db empty_db [] 0 [] ∅ [] (fun _ => 0%N).

(** ** The handler monad: state and exceptions *)

Definition M (A : Type) : Type := St -> (exn + A) * St.

Definition ret {A} (a : A) : M A := fun s => (inr a, s).

Definition bind {A B} (m : M A) (k : A -> M B) : M B :=
  fun s => match m s with
           | (inl e, s') => (inl e, s')
           | (inr a, s') => k a s'
           end.

Definition raise {A} (e : exn) : M A := fun s => (inl e, s).

Notation "x <- m ;; k" := (bind m (fun x => k))
  (at level 200, m at level 99, right associativity).
Notation "m ;;; k" := (bind m (fun _ => k))
  (at level 200, right associativity).

(** [try: body  except Exception as e: handler e] *)
Definition try_except {A} (body : M A) (handler : exn -> M A) : M A :=
  fun s => match body s with
           | (inl e, s') => handler e s'
           | (inr a, s') => (inr a, s')
           end.

(** [try: body  finally: fin]; an exception of [fin] replaces the outcome. *)
Definition try_finally {A} (body : M A) (fin : M unit) : M A :=
  fun s => let (r, s1) := body s in
           match fin s1 with
           | (inl e, s2) => (inl e, s2)
           | (inr _, s2) => (r, s2)
           end.

(** The outcome of a call that does not touch the state. *)
Definition lift {A} (r : exn + A) : M A := fun s => (r, s).

Definition get_state : M St := fun s => (inr s, s).
Definition modify (f : St -> St) : M unit := fun s => (inr tt, f s).

(** ** The SQLAlchemy session over SQLite *)

Module Session.

(** The statements a flush sends to the engine. *)
Inductive Stmt :=
| INSERT_paper (p : QuestionPaper.t)
| UPDATE_paper (id : string) (details : json)
| DELETE_paper (id : string)
| INSERT_result (roll_number question_paper_id : string) (marks : Z)
| DELETE_result (id : Z).

(** [query(QuestionPaper).filter(QuestionPaper.id == i).first()] *)
Definition first_paper (i : string) (d : Database) : option QuestionPaper.t :=
  List.find (fun p => bool_decide (QuestionPaper.id p = i)) (question_papers d).

(** [query(Result).filter(Result.id == i).first()] *)
Definition first_result (i : Z) (d : Database) : option Result.t :=
  List.find (fun r => bool_decide (Result.id r = i)) (results d).

(** The rows of [results] that belong to paper [i]: the collection
    [QuestionPaper.results] of models.py. *)
Definition results_of (i : string) (d : Database) : list Result.t :=
  List.filter (fun r => bool_decide (Result.question_paper_id r = i))
              (results d).

(** An INTEGER PRIMARY KEY without AUTOINCREMENT: one more than the
    largest rowid in use, 1 in an empty table. *)
Definition next_rowid (rs : list Result.t) : Z :=
  fold_right Z.max 0 (map Result.id rs) + 1.

(** The unit of work of one pending change.  Deleting a paper first
    deletes the rows of its [results] collection
    ([cascade="all, delete-orphan"]), then the paper. *)
Definition unit_of_work (d : Database) (p : Pending) : list Stmt :=
  match p with
  | PNewPaper qp => [INSERT_paper qp]
  | PDirtyPaper i det => [UPDATE_paper i det]
  | PDeletedPaper i =>
      map (fun r => DELETE_result (Result.id r)) (results_of i d)
      ++ [DELETE_paper i]
  | PNewResult roll qp m => [INSERT_result roll qp m]
  end.

(** One statement on the open transaction; the second component is the
    rowid an INSERT into [results] was given.  Foreign keys are not
    enforced (no PRAGMA in database.py); the primary key of
    [question_papers] is.  An INSERT into [results] fails when the next
    rowid would not fit (with the largest rowid in use SQLite looks for a
    free one at random and gives up with SQLITE_FULL; the model takes the
    failure).  [text] is [orm_text] of the request. *)
Definition exec_stmt (text : exn_class -> string) (s : Stmt) (d : Database)
    : exn + (Database * option Z) :=
  match s with
  | INSERT_paper p =>
      match first_paper (QuestionPaper.id p) d with
      | Some _ => inl (Exception IntegrityError (text IntegrityError))
      | None =>
          inr (mkDatabase (question_papers d ++ [p]) (results d), None)
      end
  | UPDATE_paper i det =>
      match first_paper i d with
      | None => inl (Exception StaleDataError (text StaleDataError))
      | Some _ =>
          inr (mkDatabase
                 (map (fun p => if bool_decide (QuestionPaper.id p = i)
                                then QuestionPaper.mk i det else p)
                      (question_papers d))
                 (results d), None)
      end
  | DELETE_paper i =>
      inr (mkDatabase
             (List.filter (fun p => negb (bool_decide (QuestionPaper.id p = i)))
                          (question_papers d))
             (results d), None)
  | INSERT_result roll qp m =>
      let i := next_rowid (results d) in
      if fits64 i
      then inr (mkDatabase (question_papers d)
                           (results d ++ [Result.mk i roll qp m]), Some i)
      else inl (Exception OperationalError (text OperationalError))
  | DELETE_result i =>
      inr (mkDatabase (question_papers d)
             (List.filter (fun r => negb (bool_decide (Result.id r = i)))
                          (results d)), None)
  end.

(** Does the injected fault hit statement number [k]? *)
Definition fault_at (fault : option (nat * string)) (k : nat) : option string :=
  match fault with
  | Some (n, msg) => if Nat.eqb n k then Some msg else None
  | None => None
  end.

(** The statements of a flush, one after the other, from number [k] on.
    A failing statement leaves the earlier ones applied to the open
    transaction. *)
Fixpoint run_stmts (text : exn_class -> string)
    (fault : option (nat * string)) (k : nat)
    (ss : list Stmt) (d : Database) (rowid : Z) : option exn * Database * Z :=
  match ss with
  | [] => (None, d, rowid)
  | s :: ss' =>
      match fault_at fault k with
      | Some msg => (Some (Exception OperationalError msg), d, rowid)
      | None =>
          match exec_stmt text s d with
          | inl e => (Some e, d, rowid)
          | inr (d', r) => run_stmts text fault (S k) ss' d' (default rowid r)
          end
      end
  end.

(** [db.add(obj)], [db.delete(obj)], and an attribute assignment on a
    loaded object: the session only takes note. *)
Definition note (p : Pending) : M unit :=
  modify (fun s => set_session (durable s) (txn s) (pending s ++ [p])
                               (lastrowid s) (events s) s).

(** The flush of everything pending, then COMMIT: the exception if one
    was raised, the open transaction and the last rowid afterwards. *)
Definition flush (e : Env) (s : St) : option exn * Database * Z :=
  let stmts := flat_map (unit_of_work (txn s)) (pending s) in
  match run_stmts (orm_text e) (flush_fault e) 0 stmts (txn s) (lastrowid s)
  with
  | (Some ex, d', rid) => (Some ex, d', rid)
  | (None, d', rid) =>
      match flush_fault e with
      | Some (_, msg) => (Some (Exception OperationalError msg), d', rid)
      | None => (None, d', rid)
      end
  end.

(** [db.commit()].  On an exception the open transaction keeps what the
    flush had applied, until [rollback]. *)
Definition commit (e : Env) : M unit :=
  fun s =>
    match flush e s with
    | (Some ex, d', rid) =>
        (inl ex, set_session (durable s) d' (pending s) rid
                   (events s ++ [EvCommitFailed ex]) s)
    | (None, d', rid) =>
        (inr tt, set_session d' d' [] rid (events s ++ [EvCommit]) s)
    end.

(** [db.rollback()] *)
Definition rollback : M unit :=
  modify (fun s => set_session (durable s) (durable s) [] (lastrowid s)
                               (events s ++ [EvRollback]) s).

(** [db.refresh(obj)] re-reads the row of [obj] by primary key, in a new
    transaction when it follows a commit; the SELECT can fail like any
    other statement, and a row that is gone is an error of its own. *)
Definition refresh_paper (e : Env) (i : string) : M QuestionPaper.t :=
  fun s => match refresh_fault e with
           | Some msg => (inl (Exception OperationalError msg), s)
           | None =>
               match first_paper i (txn s) with
               | Some p => (inr p, s)
               | None => (inl (Exception InvalidRequestError
                                 (orm_text e InvalidRequestError)), s)
               end
           end.

Definition refresh_result (e : Env) (i : Z) : M Result.t :=
  fun s => match refresh_fault e with
           | Some msg => (inl (Exception OperationalError msg), s)
           | None =>
               match first_result i (txn s) with
               | Some r => (inr r, s)
               | None => (inl (Exception InvalidRequestError
                                 (orm_text e InvalidRequestError)), s)
               end
           end.

(** A Python [int] bound as a parameter of a statement. *)
Definition bind_int (z : Z) : exn + Z :=
  if fits64 z then inr z else inl overflow.

(** [.offset(k)]: a negative OFFSET counts as zero. *)
Definition offset {A} (k : Z) (rows : list A) : exn + list A :=
  match bind_int k with
  | inl ex => inl ex
  | inr k' => inr (skipn (Z.to_nat k') rows)
  end.

(** [.limit(n)]: a negative LIMIT is no limit at all in SQLite. *)
Definition limit {A} (n : Z) (rows : list A) : exn + list A :=
  match bind_int n with
  | inl ex => inl ex
  | inr n' => inr (if (n' <? 0)%Z then rows else firstn (Z.to_nat n') rows)
  end.

(** database.py, [get_db]: a fresh session before the handler,
    [db.close()] after it, whatever the handler did. *)
Definition open (s : St) : St :=
  set_session (durable s) (durable s) [] (lastrowid s) [] s.

Definition close (s : St) : St :=
  set_session (durable s) (durable s) [] (lastrowid s) (events s) s.

End Session.

(** ** schemas.py *)

Module Schemas.

Section Validation.

(** [json.loads]: the decoder of the standard library; [None] is
    [json.JSONDecodeError]. *)
Variable json_loads : string -> option json.

(** [field in v] *)
Definition contains (field : string) (v : json) : exn + bool :=
  match v with
  | JObj m => inr (bool_decide (is_Some (m !! field)))
  | JArr l =>
      inr (existsb (fun x => match x with
                             | JStr s => bool_decide (s = field)
                             | _ => false
                             end) l)
  | JStr s =>
      inr (match String.index 0 field s with Some _ => true | None => false end)
  | _ =>
      inl (Exception TypeError
             ("argument of type '" +:+ type_name v +:+ "' is not iterable"))
  end.

Definition required_fields : list string := ["questions"; "answers"].

(** The loop [for field in required_fields: if field not in v: raise]. *)
Fixpoint check_fields (fields : list string) (v : json) : exn + json :=
  match fields with
  | [] => inr v
  | field :: rest =>
      match contains field v with
      | inl e => inl e
      | inr false =>
          inl (Exception ValueError ("Missing required field: " +:+ field))
      | inr true => check_fields rest v
      end
  end.

(** [QuestionPaperBase.validate_details] *)
Definition validate_details (v : json) : exn + json :=
  match v with
  | JObj _ => check_fields required_fields v
  | JStr s =>
      match json_loads s with
      | None => inl (Exception ValueError "Invalid JSON format for details")
      | Some v' => check_fields required_fields v'
      end
  | _ =>
      inl (Exception TypeError
             ("the JSON object must be str, bytes or bytearray, not "
              +:+ type_name v))
  end.

(** The model [QuestionPaperCreate] applied to the [details] of a request
    body: the annotation [details: Dict] is checked first and lets only a
    mapping through, then the validator runs on it and its return value
    becomes the field. *)
Definition QuestionPaperCreate (raw : json) : exn + json :=
  match raw with
  | JObj _ => validate_details raw
  | _ => inl (Exception ValueError "Input should be a valid dictionary")
  end.

End Validation.

End Schemas.

(** ** services/omr_service.py *)

Module OmrService.

Record UploadFile := mkUploadFile
  { filename : string;
    content_type : option string;
    file_content : list Byte.byte }.

Definition UPLOAD_DIR : string := "uploads".

Definition random_randbytes (n : nat) : M (list N) :=
  fun s => let (bs, g) := randbytes n (rng s) in (inr bs, set_rng g s).

Definition random_randint (a b : Z) : M Z :=
  fun s => let (m, g) := randint a b (rng s) in (inr m, set_rng g s).

Definition print (line : string) : M unit :=
  modify (fun s => set_stdout (stdout s ++ [line]) s).

(** [aiofiles.open(file_path, 'wb')], [read], [write] *)
Definition write_file (e : Env) (file_path : string)
    (bytes : list Byte.byte) : M unit :=
  match save_fault e with
  | Some (OpenFails msg) => raise (Exception OSError msg)
  | Some (WriteFails msg) =>
      modify (fun s => set_uploads (<[file_path := []]> (uploads s)) s) ;;;
      raise (Exception OSError msg)
  | None =>
      modify (fun s => set_uploads (<[file_path := bytes]> (uploads s)) s)
  end.

Definition save_upload_file (e : Env) (upload_file : UploadFile) : M string :=
  try_except
    (token <- random_randbytes 8 ;;
     let file_path :=
       UPLOAD_DIR +:+ "/" +:+ hex token +:+ "_" +:+ filename upload_file in
     write_file e file_path (file_content upload_file) ;;;
     ret file_path)
    (fun ex =>
       raise (HTTPException 500 ("Error saving file: " +:+ str_exn ex))).

(** [os.remove] *)
Definition os_remove (e : Env) (file_path : string) : M unit :=
  match remove_fault e with
  | Some msg => raise (Exception OSError msg)
  | None => modify (fun s => set_uploads (delete file_path (uploads s)) s)
  end.

Definition cleanup_file (e : Env) (file_path : string) : M unit :=
  try_except
    (s <- get_state ;;
     if bool_decide (is_Some (uploads s !! file_path))
     then os_remove e file_path
     else ret tt)
    (fun ex =>
       print ("Error cleaning up file " +:+ file_path +:+ ": " +:+ str_exn ex)).

(** [question_paper.details.get("questions", [])] *)
Definition details_get (details : json) (key : string) (dflt : json) : M json :=
  match details with
  | JObj m => ret (default dflt (m !! key))
  | _ =>
      raise (Exception AttributeError
               ("'" +:+ type_name details +:+ "' object has no attribute 'get'"))
  end.

Definition py_len (v : json) : M Z :=
  match len v with
  | inl msg => raise (Exception TypeError msg)
  | inr n => ret n
  end.

Definition not_found (what i : string) : exn :=
  HTTPException HTTP_404_NOT_FOUND
                (what +:+ " with id " +:+ i +:+ " not found").

Definition evaluate_omr (e : Env) (file_path question_paper_id : string)
    : M Z :=
  try_finally
    (try_except
       (s <- get_state ;;
        match Session.first_paper question_paper_id (txn s) with
        | None => raise (not_found "Question paper" question_paper_id)
        | Some question_paper =>
            questions <-
              details_get (QuestionPaper.details question_paper)
                          "questions" (JArr []) ;;
            total_questions <- py_len questions ;;
            marks <- random_randint 0 total_questions ;;
            ret marks
        end)
       (fun ex =>
          match ex with
          | HTTPException _ _ => raise ex
          | Exception _ _ =>
              raise (HTTPException 500
                       ("Error processing OMR sheet: " +:+ str_exn ex))
          end))
    (cleanup_file e file_path).

End OmrService.

(** ** routes/questions.py *)

Module Questions.

Import OmrService.

Definition create_question_paper (e : Env) (details : json)
    : M QuestionPaper.t :=
  try_except
    (let db_question_paper := QuestionPaper.mk (uuid4 e) details in
     Session.note (PNewPaper db_question_paper) ;;;
     Session.commit e ;;;
     Session.refresh_paper e (QuestionPaper.id db_question_paper))
    (fun ex =>
       Session.rollback ;;;
       raise (HTTPException HTTP_400_BAD_REQUEST
                ("Error creating question paper: " +:+ str_exn ex))).

Definition get_question_papers (skip limit : Z) : M (list QuestionPaper.t) :=
  s <- get_state ;;
  rows <- lift (Session.offset skip (question_papers (txn s))) ;;
  lift (Session.limit limit rows).

Definition get_question_paper (question_paper_id : string)
    : M QuestionPaper.t :=
  s <- get_state ;;
  match Session.first_paper question_paper_id (txn s) with
  | None => raise (not_found "Question paper" question_paper_id)
  | Some question_paper => ret question_paper
  end.

Definition update_question_paper (e : Env) (question_paper_id : string)
    (details : json) : M QuestionPaper.t :=
  s <- get_state ;;
  match Session.first_paper question_paper_id (txn s) with
  | None => raise (not_found "Question paper" question_paper_id)
  | Some db_question_paper =>
      try_except
        (Session.note
           (PDirtyPaper (QuestionPaper.id db_question_paper) details) ;;;
         Session.commit e ;;;
         Session.refresh_paper e (QuestionPaper.id db_question_paper))
        (fun ex =>
           Session.rollback ;;;
           raise (HTTPException HTTP_400_BAD_REQUEST
                    ("Error updating question paper: " +:+ str_exn ex)))
  end.

Definition delete_question_paper (e : Env) (question_paper_id : string)
    : M string :=
  s <- get_state ;;
  match Session.first_paper question_paper_id (txn s) with
  | None => raise (not_found "Question paper" question_paper_id)
  | Some db_question_paper =>
      try_except
        (Session.note (PDeletedPaper (QuestionPaper.id db_question_paper)) ;;;
         Session.commit e ;;;
         ret ("Question paper " +:+ question_paper_id
              +:+ " deleted successfully"))
        (fun ex =>
           Session.rollback ;;;
           raise (HTTPException HTTP_400_BAD_REQUEST
                    ("Error deleting question paper: " +:+ str_exn ex)))
  end.

End Questions.

(** ** routes/evaluate.py *)

Module Evaluate.

Import OmrService.

(** [omr_sheet.content_type.startswith('image/')]; a part without a
    declared type has [content_type = None]. *)
Definition is_image (omr_sheet : UploadFile) : M bool :=
  match content_type omr_sheet with
  | None =>
      raise (Exception AttributeError
               "'NoneType' object has no attribute 'startswith'")
  | Some ct => ret (String.prefix "image/" ct)
  end.

Definition evaluate_omr_sheet (e : Env) (roll_number question_paper_id : string)
    (omr_sheet : UploadFile) : M Result.t :=
  image <- is_image omr_sheet ;;
  if negb image
  then raise (HTTPException HTTP_400_BAD_REQUEST "File must be an image")
  else
    try_except
      (file_path <- save_upload_file e omr_sheet ;;
       marks <- evaluate_omr e file_path question_paper_id ;;
       Session.note (PNewResult roll_number question_paper_id marks) ;;;
       Session.commit e ;;;
       s <- get_state ;;
       Session.refresh_result e (lastrowid s))
      (fun ex =>
         match ex with
         | HTTPException _ _ => raise ex
         | Exception _ _ =>
             Session.rollback ;;;
             raise (HTTPException HTTP_500_INTERNAL_SERVER_ERROR
                      ("Error processing evaluation: " +:+ str_exn ex))
         end).

(** The truth value of an optional query parameter: [None] and the empty
    string do not filter. *)
Definition truthy (o : option string) : option string :=
  match o with
  | Some "" => None
  | _ => o
  end.

Definition filter_by {A} (field : A -> string) (o : option string)
    (rows : list A) : list A :=
  match truthy o with
  | Some v => List.filter (fun r => bool_decide (field r = v)) rows
  | None => rows
  end.

(** The rows the query of [get_results] ranges over before paging. *)
Definition filtered_results (roll_number question_paper_id : option string)
    (d : Database) : list Result.t :=
  filter_by Result.question_paper_id question_paper_id
    (filter_by Result.roll_number roll_number (results d)).

Definition get_results (roll_number question_paper_id : option string)
    (skip limit : Z) : M (list Result.t) :=
  s <- get_state ;;
  let query := filtered_results roll_number question_paper_id (txn s) in
  rows <- lift (Session.offset skip query) ;;
  lift (Session.limit limit rows).

Definition get_result (result_id : Z) : M Result.t :=
  i <- lift (Session.bind_int result_id) ;;
  s <- get_state ;;
  match Session.first_result i (txn s) with
  | None => raise (not_found "Result" (show_Z result_id))
  | Some result => ret result
  end.

End Evaluate.

(** ** main.py: the application *)

Module Main.

Import OmrService.

Inductive Content :=
| Detail (detail : string)
| Paper (p : QuestionPaper.t)
| Papers (ps : list QuestionPaper.t)
| Message (message : string)
| OneResult (r : Result.t)
| Results (rs : list Result.t).

Record Response := mkResponse { status : Z; content : Content }.

(** The requests, as the router hands them to the endpoints: a path
    parameter is the text between two slashes. *)
Inductive Request :=
| POST_questions (details : json)
| GET_questions (skip limit : option Z)
| GET_question (question_paper_id : string)
| PUT_question (question_paper_id : string) (details : json)
| DELETE_question (question_paper_id : string)
| POST_evaluate (roll_number question_paper_id : string)
                (omr_sheet : UploadFile)
| GET_results (roll_number question_paper_id : option string)
              (skip limit : option Z)
| GET_result (result_id : Z).

(** [http_exception_handler] and [general_exception_handler] *)
Definition exception_response (ex : exn) : Response :=
  match ex with
  | HTTPException c d => mkResponse c (Detail d)
  | Exception _ _ => mkResponse 500 (Detail "Internal server error")
  end.

(** Turn what an endpoint returned or raised into the response. *)
Definition respond {A} (ok : Z) (wrap : A -> Content) (m : M A)
    : St -> Response * St :=
  fun s => match m s with
           | (inr a, s') => (mkResponse ok (wrap a), s')
           | (inl ex, s') => (exception_response ex, s')
           end.

(** The message of a request validation error: pydantic reports a
    [ValueError] of a validator as "Value error, ..." and a value of the
    wrong type with its own text. *)
Definition validation_msg (raw : json) (msg : string) : string :=
  match raw with
  | JObj _ => "Value error, " +:+ msg
  | _ => msg
  end.

(** The body of a request is validated before the endpoint is called; a
    [ValueError] of the validator is FastAPI's request validation error,
    answered with 422 without calling the endpoint.  (The detail of a 422
    is a list of error records; the model keeps the message of the one
    error there is.) *)
Definition with_body (json_loads : string -> option json) (raw : json)
    (endpoint : json -> St -> Response * St) : St -> Response * St :=
  fun s => match Schemas.QuestionPaperCreate json_loads raw with
           | inr details => endpoint details s
           | inl (Exception ValueError msg) =>
               (mkResponse HTTP_422_UNPROCESSABLE_ENTITY
                           (Detail (validation_msg raw msg)), s)
           | inl ex => (exception_response ex, s)
           end.

(** A parameter declared [Form(...)] is required, and an empty value
    counts as missing: the request is answered with 422 without calling
    the endpoint. *)
Definition with_form (fields : list string)
    (endpoint : St -> Response * St) : St -> Response * St :=
  fun s => if existsb (fun v => bool_decide (v = "")) fields
           then (mkResponse HTTP_422_UNPROCESSABLE_ENTITY
                            (Detail "Field required"), s)
           else endpoint s.

(** Query parameters [skip: int = 0] and [limit: int = 10]. *)
Definition skip_or_default (skip : option Z) : Z := default 0 skip.
Definition limit_or_default (limit : option Z) : Z := default 10 limit.

Definition dispatch (json_loads : string -> option json) (e : Env)
    (req : Request) : St -> Response * St :=
  match req with
  | POST_questions raw =>
      with_body json_loads raw (fun details =>
        respond HTTP_201_CREATED Paper
                (Questions.create_question_paper e details))
  | GET_questions skip limit =>
      respond HTTP_200_OK Papers
        (Questions.get_question_papers (skip_or_default skip)
                                       (limit_or_default limit))
  | GET_question i =>
      respond HTTP_200_OK Paper (Questions.get_question_paper i)
  | PUT_question i raw =>
      with_body json_loads raw (fun details =>
        respond HTTP_200_OK Paper
                (Questions.update_question_paper e i details))
  | DELETE_question i =>
      respond HTTP_200_OK Message (Questions.delete_question_paper e i)
  | POST_evaluate roll qp sheet =>
      with_form [roll; qp]
        (respond HTTP_200_OK OneResult
                 (Evaluate.evaluate_omr_sheet e roll qp sheet))
  | GET_results roll qp skip limit =>
      respond HTTP_200_OK Results
        (Evaluate.get_results roll qp (skip_or_default skip)
                              (limit_or_default limit))
  | GET_result i =>
      respond HTTP_200_OK OneResult (Evaluate.get_result i)
  end.

(** One request from start to end, with the session of [get_db]. *)
Definition serve (json_loads : string -> option json) (e : Env)
    (req : Request) (s : St) : Response * St :=
  let (resp, s') := dispatch json_loads e req (Session.open s) in
  (resp, Session.close s').

(** The states the service can be in: after any number of requests, from
    an empty store and any state of the generator. *)
Inductive reachable (json_loads : string -> option json) : St -> Prop :=
| reach_init g : reachable json_loads (set_rng g init)
| reach_serve e req s :
    reachable json_loads s ->
    reachable json_loads (snd (serve json_loads e req s)).

End Main.

(** ** Notions the properties are stated with *)

Import OmrService Main.

(** The name [save_upload_file] gives the upload of a request that starts
    in state [s]. *)
Definition saved_path (s : St) (omr_sheet : UploadFile) : string :=
  UPLOAD_DIR +:+ "/" +:+ hex (fst (randbytes 8 (rng s))) +:+ "_"
  +:+ filename omr_sheet.

(** [.offset(k).limit(n).all()] on the rows a query ranges over. *)
Definition paged {A} (k n : Z) (rows : list A) : exn + list A :=
  match Session.offset k rows with
  | inl ex => inl ex
  | inr rest => Session.limit n rest
  end.

(** The exception with which the commit of one new result ends, if it
    fails, and the last rowid afterwards: the injected fault, or the
    engine's own failure when no rowid is left. *)
Definition new_result_failure (e : Env) (rs : list Result.t) (rid : Z)
    : option (exn * Z) :=
  let i := Session.next_rowid rs in
  let full := Exception OperationalError (orm_text e OperationalError) in
  match flush_fault e with
  | Some (O, msg) => Some (Exception OperationalError msg, rid)
  | Some (S _, msg) =>
      if fits64 i then Some (Exception OperationalError msg, i)
      else Some (full, rid)
  | None => if fits64 i then None else Some (full, rid)
  end.

(** The mapping a details document stands for: itself, or what its text
    decodes to. *)
Definition as_mapping (json_loads : string -> option json) (raw : json)
    : option (gmap string json) :=
  match raw with
  | JObj m => Some m
  | JStr text =>
      match json_loads text with
      | Some (JObj m) => Some m
      | _ => None
      end
  | _ => None
  end.

(** "a mapping containing both the key questions and the key answers" *)
Definition has_required_fields (json_loads : string -> option json)
    (raw : json) : Prop :=
  exists m, as_mapping json_loads raw = Some m
            /\ is_Some (m !! "questions") /\ is_Some (m !! "answers").

(** Every result belongs to a stored paper. *)
Definition references_ok (d : Database) : Prop :=
  forall r, In r (results d) ->
    exists p, In p (question_papers d)
              /\ QuestionPaper.id p = Result.question_paper_id r.

(** The status and the text with which each endpoint answers an
    exception of its commit. *)
Definition commit_error_status (req : Request) : Z :=
  match req with
  | POST_evaluate _ _ _ => HTTP_500_INTERNAL_SERVER_ERROR
  | _ => HTTP_400_BAD_REQUEST
  end.

Definition commit_error_text (req : Request) : string :=
  match req with
  | POST_questions _ => "Error creating question paper: "
  | PUT_question _ _ => "Error updating question paper: "
  | DELETE_question _ => "Error deleting question paper: "
  | _ => "Error processing evaluation: "
  end.

Definition with_content (bytes : list Byte.byte) (f : UploadFile)
    : UploadFile :=
  mkUploadFile (filename f) (content_type f) bytes.

Definition without_remove_fault (e : Env) : Env :=
  mkEnv (uuid4 e) (save_fault e) (flush_fault e) (refresh_fault e) None
        (orm_text e).

(** ** Concrete inputs used to run the model *)

Module Sample.

Definition loads : string -> option json := fun _ => None.

(** The texts of the ORM's own exceptions, shortened to the driver's
    message. *)
Definition texts (c : exn_class) : string :=
  match c with
  | IntegrityError =>
      "(sqlite3.IntegrityError) UNIQUE constraint failed: question_papers.id"
  | OperationalError => "(sqlite3.OperationalError) database or disk is full"
  | StaleDataError =>
      "UPDATE statement on table 'question_papers' expected to update 1 row(s); 0 were matched."
  | _ => "Could not refresh instance"
  end.

Definition env : Env := mkEnv "P1" None None None None texts.

Definition env_commit_fails : Env :=
  mkEnv "P1" None (Some (O, "database is locked")) None None texts.

Definition env_refresh_fails : Env :=
  mkEnv "P1" None None (Some "database is locked") None texts.

Definition env_remove_fails : Env :=
  mkEnv "P1" None None None (Some "Permission denied") texts.

Definition details : json :=
  JObj (<["questions" := JArr [JNum 1; JNum 2; JNum 3]]>
          (<["answers" := JArr [JNum 1; JNum 2; JNum 1]]> ∅)).

Definition details_number : json :=
  JObj (<["questions" := JNum 5]> (<["answers" := JArr []]> ∅)).

Definition png : UploadFile := mkUploadFile "sheet.png" (Some "image/png") [].

Definition txt : UploadFile := mkUploadFile "notes.txt" (Some "text/plain") [].

Definition tape : Rng :=
  fun n => match n with O => 5%N | 1%nat => 6%N | _ => 7%N end.

Definition s0 : St := set_rng tape init.

(** After POST /questions. *)
Definition s1 : St := snd (serve loads env (POST_questions details) s0).

(** After POST /evaluate for R1, then again for R2. *)
Definition s2 : St := snd (serve loads env (POST_evaluate "R1" "P1" png) s1).
Definition s3 : St := snd (serve loads env (POST_evaluate "R2" "P1" png) s2).

(** A store whose only paper has a number for [questions]. *)
Definition s_number : St :=
  snd (serve loads env (POST_questions details_number) s0).




End Sample.

(** ** Further notions: what the stored rows always satisfy *)

(** Primary keys: no two papers and no two results share an id. *)
Definition unique_ids (d : Database) : Prop :=
  NoDup (map QuestionPaper.id (question_papers d))
  /\ NoDup (map Result.id (results d)).

(** Every stored paper holds a mapping with the two required keys. *)
Definition details_ok (d : Database) : Prop :=
  forall p, In p (question_papers d) ->
    exists m, QuestionPaper.details p = JObj m
              /\ is_Some (m !! "questions") /\ is_Some (m !! "answers").

(** [marks] is never negative. *)
Definition marks_ok (d : Database) : Prop :=
  forall r, In r (results d) -> 0 <= Result.marks r.


(** The requests that only read. *)
Definition is_read (req : Request) : bool :=
  match req with
  | GET_questions _ _ | GET_question _ | GET_results _ _ _ _ | GET_result _ =>
      true
  | _ => false
  end.

Definition is_evaluate (req : Request) : bool :=
  match req with
  | POST_evaluate _ _ _ => true
  | _ => false
  end.

(** The statuses the application answers with. *)
Definition known_status (c : Z) : bool :=
  (c =? 200) || (c =? 201) || (c =? 400) || (c =? 404) || (c =? 422)
  || (c =? 500).

(** The page [skip=k, limit=n] of a list of rows, for parameters SQLite
    can hold. *)
Definition page {A} (k n : Z) (rows : list A) : list A :=
  let rest := skipn (Z.to_nat k) rows in
  if n <? 0 then rest else firstn (Z.to_nat n) rest.

(** Every stored result id is a rowid SQLite can hold. *)
Definition ids_fit (d : Database) : Prop :=
  forall r, In r (results d) -> fits64 (Result.id r) = true.

(** [s'] differs from [s] in the session only: the uploads directory,
    the standard output and the generator are those of [s]. *)
Definition session_only (s s' : St) : Prop :=
  uploads s' = uploads s /\ stdout s' = stdout s /\ rng s' = rng s.

(** The rows of [results] left by the cascade for paper [i]: those whose
    id is not the id of a result of [i]. *)
Definition results_after_delete (i : string) (d : Database) : list Result.t :=
  List.filter
    (fun r => negb (existsb (fun r' => bool_decide (Result.id r = Result.id r'))
                            (Session.results_of i d)))
    (results d).

Definition papers_after_delete (i : string) (d : Database)
    : list QuestionPaper.t :=
  List.filter (fun p => negb (bool_decide (QuestionPaper.id p = i)))
              (question_papers d).

Definition papers_after_update (i : string) (details : json) (d : Database)
    : list QuestionPaper.t :=
  map (fun p => if bool_decide (QuestionPaper.id p = i)
                then QuestionPaper.mk i details else p)
      (question_papers d).

(** What one request can do to the committed rows. *)
Inductive db_step (json_loads : string -> option json)
    : Database -> Database -> Prop :=
| step_none d : db_step json_loads d d
| step_create d raw details i :
    Schemas.QuestionPaperCreate json_loads raw = inr details ->
    Session.first_paper i d = None ->
    db_step json_loads d
      (mkDatabase (question_papers d ++ [QuestionPaper.mk i details])
                  (results d))
| step_update d raw details i p0 :
    Schemas.QuestionPaperCreate json_loads raw = inr details ->
    Session.first_paper i d = Some p0 ->
    db_step json_loads d
      (mkDatabase (papers_after_update i details d) (results d))
| step_delete d i p0 :
    Session.first_paper i d = Some p0 ->
    db_step json_loads d
      (mkDatabase (papers_after_delete i d) (results_after_delete i d))
| step_evaluate d roll qp marks p :
    Session.first_paper qp d = Some p ->
    0 <= marks ->
    fits64 (Session.next_rowid (results d)) = true ->
    db_step json_loads d
      (mkDatabase (question_papers d)
         (results d
          ++ [Result.mk (Session.next_rowid (results d)) roll qp marks])).

(** A decoder for running the validator on text: it maps one text to the
    list of the two field names and rejects every other text. *)
Definition sample_loads_names (text : string) : option json :=
  if bool_decide (text = "names.json")
  then Some (JArr [JStr "questions"; JStr "answers"])
  else None.
(** * Properties *)

(** ** Integers bound as parameters *)

Lemma fits64_spec (z : Z) :
  fits64 z = true <-> INT64_MIN <= z <= INT64_MAX.
Proof.
  unfold fits64. rewrite andb_true_iff, !Z.leb_le. tauto.
Qed.

Lemma bind_int_fits (z : Z) : fits64 z = true -> Session.bind_int z = inr z.
Proof. intros H. unfold Session.bind_int. rewrite H. reflexivity. Qed.


(** ** Paging of the two list endpoints *)

Lemma offset_fits {A} (k : Z) (rows : list A) :
  fits64 k = true -> Session.offset k rows = inr (skipn (Z.to_nat k) rows).
Proof. intros H. unfold Session.offset. rewrite bind_int_fits; auto. Qed.

Lemma limit_fits {A} (n : Z) (rows : list A) :
  fits64 n = true ->
  Session.limit n rows
  = inr (if n <? 0 then rows else firstn (Z.to_nat n) rows).
Proof. intros H. unfold Session.limit. rewrite bind_int_fits; auto. Qed.

Lemma limit_nonneg {A} (n : Z) (rows : list A) :
  0 <= n -> fits64 n = true ->
  Session.limit n rows = inr (firstn (Z.to_nat n) rows).
Proof.
  intros Hn Hf. rewrite limit_fits by assumption.
  destruct (n <? 0) eqn:E; [apply Z.ltb_lt in E; lia | reflexivity].
Qed.

Lemma limit_negative {A} (n : Z) (rows : list A) :
  n < 0 -> fits64 n = true -> Session.limit n rows = inr rows.
Proof.
  intros Hn Hf. rewrite limit_fits by assumption.
  destruct (n <? 0) eqn:E; [reflexivity | apply Z.ltb_ge in E; lia].
Qed.

Lemma get_question_papers_run (k n : Z) (s : St) :
  Questions.get_question_papers k n s
  = (paged k n (question_papers (txn s)), s).
Proof.
  unfold Questions.get_question_papers, paged, bind, get_state, lift.
  destruct (Session.offset k (question_papers (txn s))); reflexivity.
Qed.

Lemma get_results_run (roll qp : option string) (k n : Z) (s : St) :
  Evaluate.get_results roll qp k n s
  = (paged k n (Evaluate.filtered_results roll qp (txn s)), s).
Proof.
  unfold Evaluate.get_results, paged, bind, get_state, lift.
  destruct (Session.offset k _); reflexivity.
Qed.

Lemma get_result_run (i : Z) (s : St) :
  Evaluate.get_result i s
  = (match Session.bind_int i with
     | inl ex => inl ex
     | inr i' =>
         match Session.first_result i' (txn s) with
         | None => inl (not_found "Result" (show_Z i))
         | Some r => inr r
         end
     end, s).
Proof.
  unfold Evaluate.get_result, bind, get_state, lift, raise, ret.
  destruct (Session.bind_int i) as [ex|i']; [reflexivity |].
  destruct (Session.first_result i' (txn s)); reflexivity.
Qed.

Lemma get_question_paper_run (i : string) (s : St) :
  Questions.get_question_paper i s
  = (match Session.first_paper i (txn s) with
     | None => inl (not_found "Question paper" i)
     | Some p => inr p
     end, s).
Proof.
  unfold Questions.get_question_paper, bind, get_state, raise, ret.
  destruct (Session.first_paper i (txn s)); reflexivity.
Qed.

Lemma paged_fits {A} (k n : Z) (rows : list A) :
  fits64 k = true -> fits64 n = true ->
  paged k n rows
  = inr (if n <? 0 then skipn (Z.to_nat k) rows
         else firstn (Z.to_nat n) (skipn (Z.to_nat k) rows)).
Proof.
  intros Hk Hn. unfold paged. rewrite offset_fits by assumption.
  apply limit_fits. assumption.
Qed.

Lemma paged_overflow {A} (k n : Z) (rows : list A) :
  fits64 k && fits64 n = false -> paged k n rows = inl overflow.
Proof.
  intros H. unfold paged, Session.offset, Session.limit, Session.bind_int.
  destruct (fits64 k); [destruct (fits64 n); [discriminate | reflexivity]
                       | reflexivity].
Qed.

Lemma paged_cases {A} (k n : Z) (rows : list A) :
  paged k n rows = inl overflow \/ exists page, paged k n rows = inr page.
Proof.
  destruct (fits64 k && fits64 n) eqn:E.
  - apply andb_true_iff in E. destruct E as [Hk Hn].
    right. rewrite paged_fits by assumption. eauto.
  - left. apply paged_overflow. exact E.
Qed.

Lemma bind_int_cases (z : Z) :
  Session.bind_int z = inl overflow \/ Session.bind_int z = inr z.
Proof.
  unfold Session.bind_int. destruct (fits64 z); auto.
Qed.

(** C8, as stated, fails on both sides of the range of [limit], and
    outside the range of [skip]: [limit=-1] lifts the limit, and the page
    of a store with one paper has one record, which is more than -1; a
    [limit] or a [skip] that SQLite cannot hold (2^63 and more, or less
    than -2^63) is answered with 500 and no page at all. *)
Lemma list_negative_limit_counterexample :
  (exists page,
     fst (serve Sample.loads Sample.env (GET_questions None (Some (-1)))
                Sample.s1)
       = mkResponse 200 (Papers page)
     /\ ~ (Z.of_nat (List.length page) <= -1))
  /\ fst (serve Sample.loads Sample.env
                (GET_questions None (Some (2 ^ 63))) Sample.s1)
     = mkResponse 500 (Detail "Internal server error")
  /\ fst (serve Sample.loads Sample.env
                (GET_questions (Some (2 ^ 63)) None) Sample.s1)
     = mkResponse 500 (Detail "Internal server error")
  /\ fst (serve Sample.loads Sample.env
                (GET_results None None (Some (- 2 ^ 63 - 1)) None) Sample.s1)
     = mkResponse 500 (Detail "Internal server error").
Proof.
  split; [| repeat split; vm_compute; reflexivity].
  eexists. split; [vm_compute; reflexivity | simpl; lia].
Qed.

(** C8 (amended): for a limit [n] with [0 <= n < 2^63] and a skip [k]
    with [-2^63 <= k < 2^63], GET /questions and GET /evaluate/results
    answer with the stored rows (for results: the rows passing the
    filters) in storage order, the first [k] dropped (none when [k] is
    negative) and the rest cut to [n]; the page has at most [n] records;
    omitted parameters mean [k = 0] and [n = 10]. *)
Theorem list_page_is_offset_limit
    (json_loads : string -> option json) (e : Env)
    (roll qp : option string) (skip limit : option Z) (s : St) :
  let k := skip_or_default skip in
  let n := limit_or_default limit in
  let page {A} (rows : list A) :=
    firstn (Z.to_nat n) (skipn (Z.to_nat k) rows) in
  0 <= n <= INT64_MAX ->
  INT64_MIN <= k <= INT64_MAX ->
  (fst (serve json_loads e (GET_questions skip limit) s)
     = mkResponse 200 (Papers (page (question_papers (durable s))))
   /\ Z.of_nat (List.length (page (question_papers (durable s)))) <= n)
  /\ (fst (serve json_loads e (GET_results roll qp skip limit) s)
        = mkResponse 200
            (Results (page (Evaluate.filtered_results roll qp (durable s))))
      /\ Z.of_nat (List.length
                     (page (Evaluate.filtered_results roll qp (durable s))))
         <= n)
  /\ skip_or_default None = 0 /\ limit_or_default None = 10.
Proof.
  intros k n page Hn Hk. subst page. cbv beta.
  assert (Hfk : fits64 k = true) by (apply fits64_spec; assumption).
  assert (Hfn : fits64 n = true).
  { apply fits64_spec. unfold INT64_MIN in *.
    change (2 ^ 63) with 9223372036854775808. lia. }
  assert (Hpage : forall A (rows : list A),
             paged k n rows
             = inr (firstn (Z.to_nat n) (skipn (Z.to_nat k) rows))).
  { intros A rows. rewrite paged_fits by assumption.
    destruct (n <? 0) eqn:E; [apply Z.ltb_lt in E; lia | reflexivity]. }
  repeat split.
  - unfold serve, dispatch, respond. fold k n.
    rewrite get_question_papers_run, Hpage. reflexivity.
  - rewrite length_firstn. lia.
  - unfold serve, dispatch, respond. fold k n.
    rewrite get_results_run, Hpage. reflexivity.
  - rewrite length_firstn. lia.
Qed.

Lemma list_page_is_offset_limit_witness :
  (0 <= limit_or_default None <= INT64_MAX
   /\ INT64_MIN <= skip_or_default None <= INT64_MAX)
  /\ fst (serve Sample.loads Sample.env (GET_questions None None) Sample.s1)
     = mkResponse 200
         (Papers (firstn 10 (skipn 0 (question_papers (durable Sample.s1))))).
Proof.
  assert (H : 0 <= limit_or_default None <= INT64_MAX
              /\ INT64_MIN <= skip_or_default None <= INT64_MAX).
  { unfold limit_or_default, skip_or_default, INT64_MIN, INT64_MAX.
    simpl. lia. }
  split; [exact H |].
  apply (list_page_is_offset_limit Sample.loads Sample.env None None
           None None Sample.s1); apply H.
Defined.


(** ** The scoring stub and its cleanup *)

Ltac unfold_monad :=
  unfold try_finally, try_except, bind, ret, raise, get_state, modify in *.

(** What [cleanup_file] leaves behind; it never raises. *)
Lemma cleanup_file_run (e : Env) (path : string) (s : St) :
  cleanup_file e path s =
  (inr tt,
   match uploads s !! path, remove_fault e with
   | None, _ => s
   | Some _, None => set_uploads (delete path (uploads s)) s
   | Some _, Some msg =>
       set_stdout (stdout s ++ ["Error cleaning up file " +:+ path +:+ ": "
                                +:+ msg]) s
   end).
Proof.
  unfold cleanup_file, os_remove, print. unfold_monad.
  destruct (uploads s !! path) eqn:E; simpl;
    [destruct (remove_fault e) |]; reflexivity.
Qed.


(** [evaluate_omr] in one piece: the outcome of the body, then the
    cleanup of the [finally] clause. *)
Lemma evaluate_omr_run (e : Env) (path qp : string) (s : St) :
  evaluate_omr e path qp s =
  let '(r, s1) :=
    match Session.first_paper qp (txn s) with
    | None => (inl (not_found "Question paper" qp), s)
    | Some p =>
        match QuestionPaper.details p with
        | JObj m =>
            match len (default (JArr []) (m !! "questions")) with
            | inl msg =>
                (inl (HTTPException 500
                        ("Error processing OMR sheet: " +:+ msg)), s)
            | inr n =>
                let (marks, g) := randint 0 n (rng s) in
                (inr marks, set_rng g s)
            end
        | v =>
            (inl (HTTPException 500
                    ("Error processing OMR sheet: '" +:+ type_name v
                     +:+ "' object has no attribute 'get'")), s)
        end
    end in
  (r, snd (cleanup_file e path s1)).
Proof.
  unfold evaluate_omr, try_finally, try_except.
  unfold bind at 1. unfold get_state at 1.
  destruct (Session.first_paper qp (txn s)) as [p|]; cbn.
  2:{ rewrite cleanup_file_run. reflexivity. }
  unfold details_get, py_len, random_randint.
  destruct (QuestionPaper.details p) as [| | | | |m]; cbn;
    try (rewrite cleanup_file_run; reflexivity).
  unfold bind, ret, raise.
  destruct (len (default (JArr []) (m !! "questions"))) as [msg|n]; cbn.
  - rewrite cleanup_file_run. reflexivity.
  - destruct (randint 0 n (rng s)) as [marks g]; cbn.
    rewrite cleanup_file_run. reflexivity.
Qed.

Lemma len_nonneg (v : json) (n : Z) : len v = inr n -> 0 <= n.
Proof. destruct v; simpl; intros H; inversion H; lia. Qed.

Lemma randint_range (n : Z) (g : Rng) :
  0 <= n -> 0 <= fst (randint 0 n g) <= n.
Proof.
  intros Hn. unfold randint, rng_next. simpl.
  pose proof (Z.mod_pos_bound (Z.of_N (g O)) (n - 0 + 1)). lia.
Qed.


(** [save_upload_file] in one piece. *)
Lemma save_upload_file_run (e : Env) (f : UploadFile) (s : St) :
  save_upload_file e f s =
  let path := saved_path s f in
  let s0 := set_rng (snd (randbytes 8 (rng s))) s in
  match save_fault e with
  | None => (inr path, set_uploads (<[path := file_content f]> (uploads s)) s0)
  | Some (OpenFails msg) =>
      (inl (HTTPException 500 ("Error saving file: " +:+ msg)), s0)
  | Some (WriteFails msg) =>
      (inl (HTTPException 500 ("Error saving file: " +:+ msg)),
       set_uploads (<[path := []]> (uploads s)) s0)
  end.
Proof.
  unfold save_upload_file, write_file, random_randbytes, saved_path.
  unfold_monad.
  destruct (randbytes 8 (rng s)) as [bs g] eqn:E. cbn.
  destruct (save_fault e) as [[msg|msg]|]; reflexivity.
Qed.

(** ** The session: commit guarded by rollback *)

(** The session after it has noted [p]. *)
Local Abbreviation noted p s :=
  (set_session (durable s) (txn s) (pending s ++ [p]) (lastrowid s)
               (events s) s).

(** The pattern of every writing endpoint:
    [try: note; commit; rest  except Exception as ex: rollback; raise
    HTTPException(code, text + str(ex))]. *)
Lemma guarded_commit {A} (e : Env) (p : Pending) (rest : M A)
    (code : Z) (text : string) (s : St) :
  let handler := fun ex : exn =>
    Session.rollback ;;;
    raise (HTTPException code (text +:+ str_exn ex)) in
  try_except (Session.note p ;;; Session.commit e ;;; rest) handler s =
  match Session.flush e (noted p s) with
  | (Some ex, d', rid) =>
      (inl (HTTPException code (text +:+ str_exn ex)),
       set_session (durable s) (durable s) [] rid
                   (events s ++ [EvCommitFailed ex; EvRollback]) s)
  | (None, d', rid) =>
      try_except rest handler
        (set_session d' d' [] rid (events s ++ [EvCommit]) s)
  end.
Proof.
  intros handler. subst handler.
  unfold try_except at 1. unfold bind at 1. unfold Session.note, modify.
  unfold bind at 1. unfold Session.commit.
  destruct (Session.flush e (noted p s)) as [[[ex|] d'] rid] eqn:E; cbn.
  - unfold Session.rollback. unfold_monad. cbn.
    rewrite <- app_assoc. reflexivity.
  - reflexivity.
Qed.

Lemma find_app_cases {A} (f : A -> bool) (l1 l2 : list A) :
  find f (l1 ++ l2) =
  match find f l1 with Some x => Some x | None => find f l2 end.
Proof.
  induction l1 as [|x l1 IH]; cbn; [reflexivity |].
  destruct (f x); [reflexivity | exact IH].
Qed.

Lemma first_paper_app_fresh (p : QuestionPaper.t) (d : Database) :
  Session.first_paper (QuestionPaper.id p) d = None ->
  Session.first_paper (QuestionPaper.id p)
    (mkDatabase (question_papers d ++ [p]) (results d)) = Some p.
Proof.
  unfold Session.first_paper. cbn. intros H.
  rewrite find_app_cases, H. cbn.
  rewrite bool_decide_eq_true_2; reflexivity.
Qed.

Lemma fold_max_ge (l : list Z) (x : Z) :
  In x l -> x <= fold_right Z.max 0 l.
Proof.
  induction l as [|y l IH]; cbn; [tauto |].
  intros [->|H]; [lia | specialize (IH H); lia].
Qed.

Lemma next_rowid_fresh (rs : list Result.t) (r : Result.t) :
  In r rs -> Result.id r < Session.next_rowid rs.
Proof.
  intros H. unfold Session.next_rowid.
  pose proof (fold_max_ge (map Result.id rs) (Result.id r)
                (in_map _ _ _ H)). lia.
Qed.

Lemma first_result_app_fresh (row : Result.t) (d : Database) :
  Result.id row = Session.next_rowid (results d) ->
  Session.first_result (Result.id row)
    (mkDatabase (question_papers d) (results d ++ [row])) = Some row.
Proof.
  unfold Session.first_result. cbn. intros H.
  rewrite find_app_cases.
  destruct (find _ (results d)) as [r|] eqn:E.
  - apply find_some in E. destruct E as [Hin Heq].
    apply bool_decide_eq_true_1 in Heq.
    pose proof (next_rowid_fresh _ _ Hin). lia.
  - cbn. rewrite bool_decide_eq_true_2; reflexivity.
Qed.

(** The flush of one new result. *)
Lemma flush_new_result (e : Env) (roll qp : string) (m : Z) (s : St) :
  pending s = [PNewResult roll qp m] ->
  let row := Result.mk (Session.next_rowid (results (txn s))) roll qp m in
  let d' := mkDatabase (question_papers (txn s)) (results (txn s) ++ [row]) in
  Session.flush e s =
  match flush_fault e with
  | Some (O, msg) =>
      (Some (Exception OperationalError msg), txn s, lastrowid s)
  | Some (S _, msg) =>
      if fits64 (Result.id row)
      then (Some (Exception OperationalError msg), d', Result.id row)
      else (Some (Exception OperationalError (orm_text e OperationalError)),
            txn s, lastrowid s)
  | None =>
      if fits64 (Result.id row)
      then (None, d', Result.id row)
      else (Some (Exception OperationalError (orm_text e OperationalError)),
            txn s, lastrowid s)
  end.
Proof.
  intros Hp row d'. unfold Session.flush. rewrite Hp. cbn.
  destruct (flush_fault e) as [[[|n] msg]|]; cbn; try reflexivity;
    destruct (fits64 (Session.next_rowid (results (txn s)))); reflexivity.
Qed.


(** ** POST /evaluate in one piece *)

Lemma save_upload_file_session (e : Env) (f : UploadFile) (s : St) :
  let s1 := snd (save_upload_file e f s) in
  durable s1 = durable s /\ txn s1 = txn s /\ pending s1 = pending s
  /\ lastrowid s1 = lastrowid s /\ events s1 = events s
  /\ stdout s1 = stdout s.
Proof.
  rewrite save_upload_file_run.
  destruct (save_fault e) as [[msg|msg]|]; cbn; repeat split; reflexivity.
Qed.

Lemma evaluate_omr_session (e : Env) (path qp : string) (s : St) :
  let s1 := snd (evaluate_omr e path qp s) in
  durable s1 = durable s /\ txn s1 = txn s /\ pending s1 = pending s
  /\ lastrowid s1 = lastrowid s /\ events s1 = events s.
Proof.
  rewrite evaluate_omr_run.
  assert (H : forall s0, let s1 := snd (cleanup_file e path s0) in
             durable s1 = durable s0 /\ txn s1 = txn s0
             /\ pending s1 = pending s0 /\ lastrowid s1 = lastrowid s0
             /\ events s1 = events s0).
  { intros s0. rewrite cleanup_file_run. cbn.
    destruct (uploads s0 !! path); [destruct (remove_fault e) |];
      cbn; repeat split; reflexivity. }
  destruct (Session.first_paper qp (txn s)) as [p|]; [| apply H].
  destruct (QuestionPaper.details p); try apply H.
  destruct (len _); [apply H |].
  destruct (randint 0 z (rng s)) as [marks g]. cbn.
  apply (H (set_rng g s)).
Qed.

Lemma evaluate_omr_raises_http (e : Env) (path qp : string) (s : St)
    (ex : exn) :
  fst (evaluate_omr e path qp s) = inl ex ->
  exists code detail, ex = HTTPException code detail.
Proof.
  rewrite evaluate_omr_run.
  destruct (Session.first_paper qp (txn s)) as [p|]; cbn.
  2:{ intros H; inversion H. unfold not_found. eauto. }
  destruct (QuestionPaper.details p); cbn;
    try (intros H; inversion H; eauto).
  revert H.
  destruct (len _); cbn; [intros H; inversion H; eauto |].
  destruct (randint 0 z (rng s)); cbn. discriminate.
Qed.

Lemma new_result_failure_none (e : Env) (rs : list Result.t) (rid : Z) :
  new_result_failure e rs rid = None <->
  flush_fault e = None /\ fits64 (Session.next_rowid rs) = true.
Proof.
  unfold new_result_failure.
  destruct (flush_fault e) as [[[|n] msg]|];
    destruct (fits64 (Session.next_rowid rs));
    split; intros H; try discriminate; try (destruct H; discriminate); auto.
Qed.

Lemma evaluate_omr_sheet_run (e : Env) (roll qp : string)
    (sheet : UploadFile) (ct : string) (s : St) :
  content_type sheet = Some ct ->
  String.prefix "image/" ct = true ->
  pending s = [] ->
  Evaluate.evaluate_omr_sheet e roll qp sheet s =
  match save_upload_file e sheet s with
  | (inl ex, s1) => (inl ex, s1)
  | (inr path, s1) =>
      match evaluate_omr e path qp s1 with
      | (inl ex, s2) => (inl ex, s2)
      | (inr m, s2) =>
          let row :=
            Result.mk (Session.next_rowid (results (txn s2))) roll qp m in
          let d' := mkDatabase (question_papers (txn s2))
                               (results (txn s2) ++ [row]) in
          match new_result_failure e (results (txn s2)) (lastrowid s2) with
          | Some (ex, rid) =>
              (inl (HTTPException 500
                      ("Error processing evaluation: " +:+ str_exn ex)),
               set_session (durable s2) (durable s2) [] rid
                 (events s2 ++ [EvCommitFailed ex; EvRollback]) s2)
          | None =>
              match refresh_fault e with
              | None =>
                  (inr row,
                   set_session d' d' [] (Result.id row)
                               (events s2 ++ [EvCommit]) s2)
              | Some msg =>
                  (inl (HTTPException 500
                          ("Error processing evaluation: " +:+ msg)),
                   set_session d' d' [] (Result.id row)
                               (events s2 ++ [EvCommit; EvRollback]) s2)
              end
          end
      end
  end.
Proof.
  intros Hct Himg Hp.
  unfold Evaluate.evaluate_omr_sheet, Evaluate.is_image. rewrite Hct.
  unfold bind at 1. unfold ret at 1. rewrite Himg. cbn [negb].
  unfold try_except. unfold bind at 1.
  pose proof (save_upload_file_session e sheet s) as Hs. cbn in Hs.
  destruct (save_upload_file e sheet s) as [[ex|path] s1] eqn:Es.
  { rewrite save_upload_file_run in Es.
    destruct (save_fault e) as [[msg|msg]|]; inversion Es; reflexivity. }
  cbn in Hs. destruct Hs as (_ & _ & Hp1 & _).
  unfold bind at 1.
  pose proof (evaluate_omr_session e path qp s1) as Hv. cbn in Hv.
  pose proof (evaluate_omr_raises_http e path qp s1) as Hr.
  destruct (evaluate_omr e path qp s1) as [[ex|m] s2] eqn:Ev.
  { destruct (Hr ex eq_refl) as (c & d & ->). reflexivity. }
  cbn in Hv. destruct Hv as (_ & _ & Hp2 & _).
  unfold bind at 1. unfold Session.note, modify.
  unfold bind at 1. unfold Session.commit.
  rewrite (flush_new_result e roll qp m)
    by (cbn; rewrite Hp2, Hp1, Hp; reflexivity).
  cbn. unfold new_result_failure.
  destruct (flush_fault e) as [[[|n] msg]|]; cbn.
  - unfold Session.rollback. unfold_monad. cbn. rewrite <- app_assoc.
    rewrite Hp2, Hp1, Hp. reflexivity.
  - destruct (fits64 (Session.next_rowid (results (txn s2)))); cbn;
      unfold Session.rollback; unfold_monad; cbn; rewrite <- app_assoc;
      reflexivity.
  - destruct (fits64 (Session.next_rowid (results (txn s2)))); cbn.
    2:{ unfold Session.rollback. unfold_monad. cbn. rewrite <- app_assoc.
        reflexivity. }
    unfold bind, get_state, Session.refresh_result. cbn.
    destruct (refresh_fault e) as [msg|]; cbn.
    { unfold Session.rollback. unfold_monad. cbn. rewrite <- app_assoc.
      reflexivity. }
    pose proof (first_result_app_fresh
               (Result.mk (Session.next_rowid (results (txn s2))) roll qp m)
               (txn s2) eq_refl) as Hf.
    unfold Session.first_result in Hf. cbn in Hf.
    rewrite Hf. reflexivity.
Qed.

(** The required form fields of POST /evaluate. *)
Lemma with_form_filled (roll qp : string)
    (endpoint : St -> Response * St) (s : St) :
  roll <> "" -> qp <> "" -> with_form [roll; qp] endpoint s = endpoint s.
Proof.
  intros Hr Hq. unfold with_form. cbn.
  rewrite !bool_decide_eq_false_2 by assumption. reflexivity.
Qed.

Lemma with_form_empty (roll qp : string)
    (endpoint : St -> Response * St) (s : St) :
  roll = "" \/ qp = "" ->
  with_form [roll; qp] endpoint s
  = (mkResponse 422 (Detail "Field required"), s).
Proof.
  intros H. unfold with_form. cbn.
  destruct H as [-> | ->]; [reflexivity |].
  rewrite orb_true_r. reflexivity.
Qed.

Lemma with_form_cases (roll qp : string)
    (endpoint : St -> Response * St) (s : St) :
  (roll <> "" /\ qp <> "" /\ with_form [roll; qp] endpoint s = endpoint s)
  \/ ((roll = "" \/ qp = "")
      /\ with_form [roll; qp] endpoint s
         = (mkResponse 422 (Detail "Field required"), s)).
Proof.
  destruct (decide (roll = "")) as [Hr|Hr];
    [right; split; [auto | apply with_form_empty; auto] |].
  destruct (decide (qp = "")) as [Hq|Hq];
    [right; split; [auto | apply with_form_empty; auto] |].
  left. split; [assumption |]. split; [assumption |].
  apply with_form_filled; assumption.
Qed.


(** ** The scoring step and the bytes of the upload *)

Lemma cleanup_file_rng (e : Env) (path : string) (s : St) :
  rng (snd (cleanup_file e path s)) = rng s.
Proof.
  rewrite cleanup_file_run. cbn.
  destruct (uploads s !! path); [destruct (remove_fault e) |]; reflexivity.
Qed.

Lemma evaluate_omr_same (e e' : Env) (path path' qp : string) (s s' : St) :
  txn s = txn s' -> rng s = rng s' ->
  fst (evaluate_omr e path qp s) = fst (evaluate_omr e' path' qp s')
  /\ rng (snd (evaluate_omr e path qp s))
     = rng (snd (evaluate_omr e' path' qp s')).
Proof.
  intros Ht Hg. rewrite !evaluate_omr_run. rewrite <- Ht, <- Hg.
  destruct (Session.first_paper qp (txn s)) as [p|]; cbn;
    [| rewrite !cleanup_file_rng; auto].
  destruct (QuestionPaper.details p); cbn;
    try (rewrite !cleanup_file_rng; auto).
  destruct (len _); cbn; [rewrite !cleanup_file_rng; auto |].
  destruct (randint 0 z (rng s)) as [marks g]. cbn.
  rewrite !cleanup_file_rng. auto.
Qed.

(** C9: the outcome of the scoring step is a function of the paper id,
    the rows the session sees and the generator state.  Two calls that
    agree on these return the same marks (or raise the same exception)
    whatever file they are given, whatever the uploads directory holds
    and whether or not the cleanup fails; so do two evaluation requests
    that differ only in the bytes of the uploaded file, which also leave
    the same rows and the same generator state behind. *)
Theorem scoring_ignores_file_content :
  (forall (e e' : Env) (path path' qp : string) (s s' : St),
      txn s = txn s' -> rng s = rng s' ->
      fst (evaluate_omr e path qp s) = fst (evaluate_omr e' path' qp s'))
  /\ (forall (json_loads : string -> option json) (e : Env)
        (roll qp : string) (sheet : UploadFile) (bytes : list Byte.byte)
        (s : St),
      let r1 := serve json_loads e (POST_evaluate roll qp sheet) s in
      let r2 := serve json_loads e
                  (POST_evaluate roll qp (with_content bytes sheet)) s in
      fst r1 = fst r2
      /\ durable (snd r1) = durable (snd r2)
      /\ rng (snd r1) = rng (snd r2)).
Proof.
  split.
  { intros. apply evaluate_omr_same; assumption. }
  intros json_loads e roll qp sheet bytes s.
  unfold serve, dispatch.
  destruct (with_form_cases roll qp
              (respond HTTP_200_OK OneResult
                 (Evaluate.evaluate_omr_sheet e roll qp sheet))
              (Session.open s)) as [(Hr & Hq & E1) | (Hemp & E1)];
    rewrite E1; clear E1.
  2:{ rewrite with_form_empty by assumption. cbn. auto. }
  rewrite with_form_filled by assumption.
  unfold respond.
  destruct (content_type sheet) as [ct|] eqn:Hct.
  2:{ unfold Evaluate.evaluate_omr_sheet, Evaluate.is_image, with_content.
      cbn. rewrite Hct. cbn. auto. }
  destruct (String.prefix "image/" ct) eqn:Himg.
  2:{ unfold Evaluate.evaluate_omr_sheet, Evaluate.is_image, with_content.
      cbn. rewrite Hct. unfold_monad. rewrite Himg. cbn. auto. }
  rewrite (evaluate_omr_sheet_run e roll qp sheet ct) by auto.
  rewrite (evaluate_omr_sheet_run e roll qp (with_content bytes sheet) ct)
    by auto.
  rewrite !save_upload_file_run.
  replace (saved_path (Session.open s) (with_content bytes sheet))
    with (saved_path (Session.open s) sheet) by reflexivity.
  set (path := saved_path (Session.open s) sheet).
  set (s0 := set_rng (snd (randbytes 8 (rng (Session.open s))))
                     (Session.open s)).
  cbv zeta.
  replace (file_content (with_content bytes sheet)) with bytes
    by reflexivity.
  set (sa := set_uploads (<[path := file_content sheet]> _) s0).
  set (sb := set_uploads (<[path := bytes]> _) s0).
  destruct (save_fault e) as [[msg|msg]|]; [cbn; auto | cbn; auto |].
  destruct (evaluate_omr_same e e path path qp sa sb eq_refl eq_refl)
    as [Hfst Hrng].
  pose proof (evaluate_omr_session e path qp sa) as Ha.
  pose proof (evaluate_omr_session e path qp sb) as Hb.
  cbn in Ha, Hb.
  destruct (evaluate_omr e path qp sa) as [ra sa'].
  destruct (evaluate_omr e path qp sb) as [rb sb'].
  cbn in Hfst, Hrng, Ha, Hb. subst rb.
  destruct Ha as (Ha1 & Ha2 & Ha3 & Ha4 & Ha5).
  destruct Hb as (Hb1 & Hb2 & Hb3 & Hb4 & Hb5).
  destruct ra as [ex|m]; cbn.
  { rewrite Ha1, Hb1. auto. }
  rewrite Ha2, Hb2, Ha4, Hb4.
  destruct (new_result_failure e (results (durable s)) (lastrowid s))
    as [[ex rid]|]; cbn.
  - rewrite Ha1, Hb1. auto.
  - destruct (refresh_fault e); cbn; auto.
Qed.

Lemma scoring_ignores_file_content_witness :
  fst (evaluate_omr Sample.env "uploads/a" "P1" Sample.s1)
  = fst (evaluate_omr Sample.env_remove_fails "uploads/b" "P1"
           (set_uploads {["uploads/b" := []]} Sample.s1)).
Proof.
  apply (proj1 scoring_ignores_file_content); reflexivity.
Defined.

(** ** The content-type check of POST /evaluate *)

(** C6, as stated, fails for a request that leaves [roll_number] (or
    [question_paper_id]) empty: the form is refused with 422 before the
    endpoint and its content-type check run, whatever the file declares. *)
Lemma non_image_empty_field_counterexample :
  content_type Sample.txt = Some "text/plain"
  /\ String.prefix "image/" "text/plain" = false
  /\ status (fst (serve Sample.loads Sample.env
                        (POST_evaluate "" "P1" Sample.txt) Sample.s1))
     = 422
  /\ status (fst (serve Sample.loads Sample.env
                        (POST_evaluate "R1" "" Sample.txt) Sample.s1))
     = 422
  /\ status (fst (serve Sample.loads Sample.env
                        (POST_evaluate "" "P1" Sample.txt) Sample.s1))
     <> 400.
Proof.
  repeat split; try reflexivity. vm_compute. discriminate.
Qed.

(** C6 (amended): a request with a roll number and a paper id that are
    not empty, whose file declares a content type that does not start
    with "image/", is answered with 400 by the first statement of the
    endpoint: the endpoint leaves the whole state as it found it (nothing
    was written to the uploads directory, no random name was drawn, the
    session did nothing), and after the request the committed rows and
    the uploads directory are what they were. *)
Theorem non_image_rejected_before_save
    (json_loads : string -> option json) (e : Env) (roll qp : string)
    (sheet : UploadFile) (ct : string) (s : St) :
  roll <> "" -> qp <> "" ->
  content_type sheet = Some ct ->
  String.prefix "image/" ct = false ->
  Evaluate.evaluate_omr_sheet e roll qp sheet s
    = (inl (HTTPException 400 "File must be an image"), s)
  /\ fst (serve json_loads e (POST_evaluate roll qp sheet) s)
     = mkResponse 400 (Detail "File must be an image")
  /\ durable (snd (serve json_loads e (POST_evaluate roll qp sheet) s))
     = durable s
  /\ uploads (snd (serve json_loads e (POST_evaluate roll qp sheet) s))
     = uploads s
  /\ rng (snd (serve json_loads e (POST_evaluate roll qp sheet) s))
     = rng s.
Proof.
  intros Hroll Hqp Hct Himg.
  assert (H : forall s0, Evaluate.evaluate_omr_sheet e roll qp sheet s0
                = (inl (HTTPException 400 "File must be an image"), s0)).
  { intros s0. unfold Evaluate.evaluate_omr_sheet, Evaluate.is_image.
    rewrite Hct. unfold_monad. rewrite Himg. reflexivity. }
  split; [apply H |].
  unfold serve, dispatch. rewrite with_form_filled by assumption.
  unfold respond. rewrite H. cbn. auto.
Qed.

Lemma non_image_rejected_before_save_witness :
  fst (serve Sample.loads Sample.env (POST_evaluate "R1" "P1" Sample.txt)
             Sample.s1)
  = mkResponse 400 (Detail "File must be an image").
Proof.
  apply (non_image_rejected_before_save Sample.loads Sample.env "R1" "P1"
           Sample.txt "text/plain" Sample.s1);
    [discriminate | discriminate | reflexivity | reflexivity].
Defined.


(** ** POST /evaluate for a paper that is not stored *)

(** C5, as stated, fails where another check comes first: the paper "P9"
    is unknown; with a text/plain file the answer is 400, with an empty
    roll number it is 422, and when the image cannot be saved it is 500. *)
Lemma unknown_paper_non_image_counterexample :
  Session.first_paper "P9" (durable Sample.s1) = None
  /\ fst (serve Sample.loads Sample.env
                (POST_evaluate "R1" "P9" Sample.txt) Sample.s1)
     = mkResponse 400 (Detail "File must be an image")
  /\ status (fst (serve Sample.loads Sample.env
                        (POST_evaluate "" "P9" Sample.png) Sample.s1))
     = 422
  /\ fst (serve Sample.loads
                (mkEnv "P2" (Some (OpenFails "No space left on device"))
                       None None None Sample.texts)
                (POST_evaluate "R1" "P9" Sample.png) Sample.s1)
     = mkResponse 500 (Detail "Error saving file: No space left on device")
  /\ status (fst (serve Sample.loads Sample.env
                        (POST_evaluate "R1" "P9" Sample.txt) Sample.s1))
     <> 404.
Proof.
  repeat split; try reflexivity. vm_compute. discriminate.
Qed.

Lemma evaluate_unknown_paper (e : Env) (path qp : string) (s : St) :
  Session.first_paper qp (txn s) = None ->
  evaluate_omr e path qp s
  = (inl (not_found "Question paper" qp), snd (cleanup_file e path s)).
Proof. intros H. rewrite evaluate_omr_run, H. reflexivity. Qed.

(** C5 (amended): an evaluation request for a paper id that is not stored
    never creates a Result: the committed rows are unchanged whatever
    else happens.  The scoring step, whenever it is called for such an
    id, raises the 404 that names it; so when the roll number and the
    paper id are not empty, the file is declared an image and is saved,
    the answer is 404 and names the missing identifier. *)
Theorem unknown_paper_not_found
    (json_loads : string -> option json) (e : Env) (roll qp : string)
    (sheet : UploadFile) (s : St) :
  Session.first_paper qp (durable s) = None ->
  durable (snd (serve json_loads e (POST_evaluate roll qp sheet) s))
    = durable s
  /\ (forall path,
        fst (evaluate_omr e path qp (Session.open s))
        = inl (HTTPException 404
                 ("Question paper with id " +:+ qp +:+ " not found")))
  /\ (forall ct,
        roll <> "" -> qp <> "" ->
        content_type sheet = Some ct ->
        String.prefix "image/" ct = true ->
        save_fault e = None ->
        fst (serve json_loads e (POST_evaluate roll qp sheet) s)
        = mkResponse 404
            (Detail ("Question paper with id " +:+ qp +:+ " not found"))).
Proof.
  intros Hnone.
  assert (Hscore : forall path,
             fst (evaluate_omr e path qp (Session.open s))
             = inl (HTTPException 404
                      ("Question paper with id " +:+ qp +:+ " not found"))).
  { intros path. rewrite evaluate_unknown_paper by exact Hnone.
    reflexivity. }
  enough (H : durable (snd (serve json_loads e
                                  (POST_evaluate roll qp sheet) s))
              = durable s
              /\ (forall ct,
                    roll <> "" -> qp <> "" ->
                    content_type sheet = Some ct ->
                    String.prefix "image/" ct = true ->
                    save_fault e = None ->
                    fst (serve json_loads e (POST_evaluate roll qp sheet) s)
                    = mkResponse 404
                        (Detail ("Question paper with id " +:+ qp
                                 +:+ " not found")))) by tauto.
  clear Hscore. unfold serve, dispatch.
  destruct (with_form_cases roll qp
              (respond HTTP_200_OK OneResult
                 (Evaluate.evaluate_omr_sheet e roll qp sheet))
              (Session.open s)) as [(Hr & Hq & E1) | (Hemp & E1)];
    rewrite E1; clear E1.
  2:{ split; [reflexivity |]. intros ct Hr Hq. exfalso. tauto. }
  unfold respond.
  destruct (content_type sheet) as [ct|] eqn:Hct.
  2:{ split; [| discriminate].
      unfold Evaluate.evaluate_omr_sheet, Evaluate.is_image.
      rewrite Hct. reflexivity. }
  destruct (String.prefix "image/" ct) eqn:Himg.
  2:{ split; [| intros ct' _ _ H; inversion H; subst; congruence].
      unfold Evaluate.evaluate_omr_sheet, Evaluate.is_image.
      rewrite Hct. unfold_monad. rewrite Himg. reflexivity. }
  rewrite (evaluate_omr_sheet_run e roll qp sheet ct) by auto.
  rewrite save_upload_file_run. cbv zeta.
  set (path := saved_path (Session.open s) sheet).
  set (s0 := set_rng _ (Session.open s)).
  destruct (save_fault e) as [[msg|msg]|] eqn:Hsave;
    [split; [reflexivity | discriminate]
    |split; [reflexivity | discriminate] |].
  rewrite evaluate_unknown_paper by exact Hnone.
  rewrite cleanup_file_run.
  split.
  - cbn. destruct (_ !! path); [destruct (remove_fault e) |]; reflexivity.
  - intros _ _ _ _ _ _. reflexivity.
Qed.

Lemma unknown_paper_not_found_witness :
  fst (serve Sample.loads Sample.env
             (POST_evaluate "R1" "P9" Sample.png) Sample.s1)
  = mkResponse 404 (Detail "Question paper with id P9 not found").
Proof.
  apply (proj2 (proj2 (unknown_paper_not_found Sample.loads Sample.env
                         "R1" "P9" Sample.png Sample.s1 eq_refl))
           "image/png");
    [discriminate | discriminate | reflexivity | reflexivity | reflexivity].
Defined.


(** ** Cleanup of the saved upload *)

Lemma evaluate_omr_exits (e : Env) (path qp : string) (s : St) :
  (exists m, fst (evaluate_omr e path qp s) = inr m)
  \/ fst (evaluate_omr e path qp s) = inl (not_found "Question paper" qp)
  \/ (exists detail,
        fst (evaluate_omr e path qp s) = inl (HTTPException 500 detail)).
Proof.
  rewrite evaluate_omr_run.
  destruct (Session.first_paper qp (txn s)) as [p|]; cbn; [| auto].
  destruct (QuestionPaper.details p) as [| | | | |m]; cbn; eauto.
  destruct (len _); cbn; eauto.
Qed.

Lemma evaluate_omr_files (e : Env) (path qp : string) (s : St) :
  uploads (snd (evaluate_omr e path qp s))
    = uploads (snd (cleanup_file e path s))
  /\ stdout (snd (evaluate_omr e path qp s))
     = stdout (snd (cleanup_file e path s)).
Proof.
  rewrite evaluate_omr_run.
  assert (H : forall g,
             uploads (snd (cleanup_file e path (set_rng g s)))
               = uploads (snd (cleanup_file e path s))
             /\ stdout (snd (cleanup_file e path (set_rng g s)))
                = stdout (snd (cleanup_file e path s))).
  { intros g. rewrite !cleanup_file_run. cbn.
    destruct (uploads s !! path); [destruct (remove_fault e) |]; auto. }
  destruct (Session.first_paper qp (txn s)) as [p|]; cbn; [| auto].
  destruct (QuestionPaper.details p); cbn; auto.
  destruct (len _); cbn; auto.
Qed.

(** C7: [evaluate_omr] ends in one of three ways (marks, the 404 for a
    missing paper, a 500 made from any other exception), and in each of
    them the [finally] clause has run [cleanup_file]: when the removal
    works the file is gone from the uploads directory and nothing else
    in it changed; when the removal raises, one line is printed, the
    directory is left as it was, and the outcome of the call is the one
    it has without the failure.  For a request whose image was saved
    (the form fields filled in, the file declared an image and written)
    this means: the saved file is gone after the request when the
    removal works, and the response never depends on the removal. *)
Theorem saved_file_removed_on_every_exit :
  (forall (e : Env) (path qp : string) (s : St),
      let r := fst (evaluate_omr e path qp s) in
      let s' := snd (evaluate_omr e path qp s) in
      ((exists m, r = inr m)
       \/ r = inl (not_found "Question paper" qp)
       \/ (exists detail, r = inl (HTTPException 500 detail)))
      /\ (remove_fault e = None ->
          uploads s' = delete path (uploads s) /\ stdout s' = stdout s)
      /\ (forall msg,
            remove_fault e = Some msg -> is_Some (uploads s !! path) ->
            uploads s' = uploads s
            /\ stdout s' = (stdout s ++ ["Error cleaning up file " +:+ path
                                         +:+ ": " +:+ msg])%list)
      /\ r = fst (evaluate_omr (without_remove_fault e) path qp s))
  /\ (forall (json_loads : string -> option json) (e : Env)
        (roll qp : string) (sheet : UploadFile) (ct : string) (s : St),
      roll <> "" -> qp <> "" ->
      content_type sheet = Some ct ->
      String.prefix "image/" ct = true ->
      save_fault e = None ->
      let r := serve json_loads e (POST_evaluate roll qp sheet) s in
      (remove_fault e = None ->
       uploads (snd r) = delete (saved_path s sheet) (uploads s))
      /\ fst r = fst (serve json_loads (without_remove_fault e)
                            (POST_evaluate roll qp sheet) s)).
Proof.
  split.
  - intros e path qp s r s'. subst r s'.
    destruct (evaluate_omr_files e path qp s) as [Hu Ho].
    rewrite Hu, Ho, cleanup_file_run. cbn.
    split; [apply evaluate_omr_exits |].
    split; [| split].
    + intros ->. destruct (uploads s !! path) eqn:E; cbn; [auto |].
      split; [| reflexivity]. symmetry. apply delete_id. exact E.
    + intros msg -> [x ->]. cbn. auto.
    + apply evaluate_omr_same; reflexivity.
  - intros json_loads e roll qp sheet ct s Hroll Hqp Hct Himg Hsave r.
    subst r. unfold serve, dispatch.
    rewrite !with_form_filled by assumption. unfold respond.
    rewrite (evaluate_omr_sheet_run e roll qp sheet ct) by auto.
    rewrite (evaluate_omr_sheet_run (without_remove_fault e) roll qp sheet ct)
      by auto.
    rewrite !save_upload_file_run. cbv zeta.
    replace (new_result_failure (without_remove_fault e))
      with (new_result_failure e) by reflexivity.
    cbn [without_remove_fault save_fault flush_fault refresh_fault].
    rewrite Hsave.
    replace (saved_path (Session.open s) sheet) with (saved_path s sheet)
      by reflexivity.
    set (path := saved_path s sheet).
    set (s1 := set_uploads _ _).
    destruct (evaluate_omr_files e path qp s1) as [Hu _].
    destruct (evaluate_omr_same e (without_remove_fault e) path path qp
                s1 s1 eq_refl eq_refl) as [Hr _].
    pose proof (evaluate_omr_session e path qp s1) as Ha.
    pose proof (evaluate_omr_session (without_remove_fault e) path qp s1)
      as Hb.
    cbn zeta in Ha, Hb.
    rewrite cleanup_file_run in Hu.
    destruct (evaluate_omr e path qp s1) as [ra sa].
    destruct (evaluate_omr (without_remove_fault e) path qp s1) as [rb sb].
    cbn [fst snd] in *. subst rb.
    destruct Ha as (Ha1 & Ha2 & Ha3 & Ha4 & Ha5).
    destruct Hb as (Hb1 & Hb2 & Hb3 & Hb4 & Hb5).
    assert (Hclean : remove_fault e = None ->
                     uploads sa = delete path (uploads s)).
    { intros Hrm. rewrite Hu, Hrm. subst s1. cbn.
      rewrite lookup_insert_eq. cbn. apply delete_insert_eq. }
    destruct ra as [ex|m].
    { split; [intros H; cbn; auto | reflexivity]. }
    rewrite Ha2, Hb2, Ha4, Hb4.
    destruct (new_result_failure e (results (txn s1)) (lastrowid s1))
      as [[ex rid]|].
    + split; [intros H; cbn; auto | reflexivity].
    + destruct (refresh_fault e);
        (split; [intros H; cbn; auto | reflexivity]).
Qed.

Lemma saved_file_removed_on_every_exit_witness :
  uploads (snd (serve Sample.loads Sample.env
                      (POST_evaluate "R1" "P1" Sample.png) Sample.s1))
  = delete (saved_path Sample.s1 Sample.png) (uploads Sample.s1).
Proof.
  refine (proj1 (proj2 saved_file_removed_on_every_exit
                   Sample.loads Sample.env "R1" "P1" Sample.png "image/png"
                   Sample.s1 _ _ eq_refl eq_refl eq_refl) eq_refl);
    discriminate.
Defined.

(** ** Marks of a successful evaluation *)






(** ** Validation looks at keys only *)

Lemma validate_details_mapping (json_loads : string -> option json)
    (m : gmap string json) :
  Schemas.validate_details json_loads (JObj m) =
  match m !! "questions", m !! "answers" with
  | None, _ => inl (Exception ValueError "Missing required field: questions")
  | Some _, None =>
      inl (Exception ValueError "Missing required field: answers")
  | Some _, Some _ => inr (JObj m)
  end.
Proof.
  unfold Schemas.validate_details, Schemas.required_fields. cbn.
  destruct (m !! "questions"); cbn; [| reflexivity].
  destruct (m !! "answers"); reflexivity.
Qed.

Lemma create_question_paper_fresh (e : Env) (details : json) (s : St) :
  pending s = [] ->
  flush_fault e = None ->
  refresh_fault e = None ->
  Session.first_paper (uuid4 e) (txn s) = None ->
  let p := QuestionPaper.mk (uuid4 e) details in
  let d' := mkDatabase (question_papers (txn s) ++ [p]) (results (txn s)) in
  Questions.create_question_paper e details s
  = (inr p, set_session d' d' [] (lastrowid s) (events s ++ [EvCommit]) s).
Proof.
  intros Hp Hf Hrf Hnone p d'. subst p d'.
  unfold Questions.create_question_paper.
  cbv zeta. cbn [QuestionPaper.id].
  rewrite guarded_commit.
  unfold Session.flush. cbn [pending txn lastrowid set_session].
  rewrite Hp, Hf. cbn. rewrite Hnone. cbn.
  unfold try_except, Session.refresh_paper. rewrite Hrf. cbn.
  pose proof (first_paper_app_fresh (QuestionPaper.mk (uuid4 e) details)
                (txn s) Hnone) as Hfind.
  unfold Session.first_paper in Hfind. cbn in Hfind. rewrite Hfind.
  reflexivity.
Qed.

Lemma evaluate_omr_no_len (e : Env) (path qp : string) (s : St)
    (p : QuestionPaper.t) (m : gmap string json) (v : json) (msg : string) :
  Session.first_paper qp (txn s) = Some p ->
  QuestionPaper.details p = JObj m ->
  m !! "questions" = Some v ->
  len v = inl msg ->
  evaluate_omr e path qp s
  = (inl (HTTPException 500 ("Error processing OMR sheet: " +:+ msg)),
     snd (cleanup_file e path s)).
Proof.
  intros Hp Hd Hq Hlen. rewrite evaluate_omr_run, Hp, Hd, Hq.
  change (default (JArr []) (Some v)) with v. rewrite Hlen. reflexivity.
Qed.

(** C10, as stated, fails for the evaluation requests that are stopped
    before the scoring step, and for the cleanup when the file system
    fails: the paper "P1" holds a number under [questions]; with a
    text/plain file the answer is 400, with an empty roll number it is
    422; when writing the upload fails the file that was created stays,
    and so does the saved file when its removal fails. *)
Lemma untyped_questions_not_500_counterexample :
  (Session.first_paper "P1" (durable Sample.s_number)
     = Some (QuestionPaper.mk "P1" Sample.details_number)
   /\ len (JNum 5) = inl "object of type 'int' has no len()")
  /\ fst (serve Sample.loads Sample.env
                (POST_evaluate "R1" "P1" Sample.txt) Sample.s_number)
     = mkResponse 400 (Detail "File must be an image")
  /\ status (fst (serve Sample.loads Sample.env
                        (POST_evaluate "" "P1" Sample.png) Sample.s_number))
     = 422
  /\ uploads (snd (serve Sample.loads
                     (mkEnv "P2" (Some (WriteFails "No space left on device"))
                            None None None Sample.texts)
                     (POST_evaluate "R1" "P1" Sample.png) Sample.s_number))
       !! saved_path Sample.s_number Sample.png
     = Some []
  /\ uploads (snd (serve Sample.loads Sample.env_remove_fails
                     (POST_evaluate "R1" "P1" Sample.png) Sample.s_number))
       !! saved_path Sample.s_number Sample.png
     = Some [].
Proof.
  repeat split; vm_compute; reflexivity.
Qed.

(** C10 (amended): a mapping that has the keys [questions] and [answers]
    passes validation whatever the values under them are, and such a
    paper is created with 201 (when the commit and the refresh work and
    the uuid is new).  When the value under [questions] has no length,
    every call of [evaluate_omr] for that paper raises the 500 made from
    the [TypeError] of [len] and has run [cleanup_file] on the file it
    was given; no evaluation request for that paper changes the
    committed rows, and a request with a roll number and a paper id that
    are not empty, whose file is declared an image and is saved, is
    answered with that 500; it leaves no saved file behind when the
    removal works, and the saved file when the removal fails. *)
Theorem untyped_questions_created_then_evaluation_fails :
  (forall (json_loads : string -> option json) (m : gmap string json),
      is_Some (m !! "questions") -> is_Some (m !! "answers") ->
      Schemas.QuestionPaperCreate json_loads (JObj m) = inr (JObj m))
  /\ (forall (json_loads : string -> option json) (e : Env)
        (m : gmap string json) (s : St),
      is_Some (m !! "questions") -> is_Some (m !! "answers") ->
      flush_fault e = None ->
      refresh_fault e = None ->
      Session.first_paper (uuid4 e) (durable s) = None ->
      let r := serve json_loads e (POST_questions (JObj m)) s in
      let p := QuestionPaper.mk (uuid4 e) (JObj m) in
      fst r = mkResponse 201 (Paper p)
      /\ question_papers (durable (snd r))
         = (question_papers (durable s) ++ [p])%list)
  /\ (forall (e : Env) (path qp : string) (s : St)
        (p : QuestionPaper.t) (m : gmap string json) (v : json)
        (msg : string),
      Session.first_paper qp (txn s) = Some p ->
      QuestionPaper.details p = JObj m ->
      m !! "questions" = Some v ->
      len v = inl msg ->
      evaluate_omr e path qp s
      = (inl (HTTPException 500 ("Error processing OMR sheet: " +:+ msg)),
         snd (cleanup_file e path s)))
  /\ (forall (json_loads : string -> option json) (e : Env)
        (roll qp : string) (sheet : UploadFile) (s : St)
        (p : QuestionPaper.t) (m : gmap string json) (v : json)
        (msg : string),
      Session.first_paper qp (durable s) = Some p ->
      QuestionPaper.details p = JObj m ->
      m !! "questions" = Some v ->
      len v = inl msg ->
      let r := serve json_loads e (POST_evaluate roll qp sheet) s in
      durable (snd r) = durable s
      /\ (forall ct,
            roll <> "" -> qp <> "" ->
            content_type sheet = Some ct ->
            String.prefix "image/" ct = true ->
            save_fault e = None ->
            fst r = mkResponse 500
                      (Detail ("Error processing OMR sheet: " +:+ msg))
            /\ (remove_fault e = None ->
                uploads (snd r) = delete (saved_path s sheet) (uploads s))
            /\ (forall rm, remove_fault e = Some rm ->
                  uploads (snd r)
                  = <[saved_path s sheet := file_content sheet]>
                      (uploads s)))).
Proof.
  split; [| split; [| split]].
  - intros json_loads m [q Hq] [a Ha]. unfold Schemas.QuestionPaperCreate.
    rewrite validate_details_mapping, Hq, Ha. reflexivity.
  - intros json_loads e m s [q Hq] [a Ha] Hf Hrf Hnone r p. subst r.
    unfold serve, dispatch, with_body, Schemas.QuestionPaperCreate.
    rewrite validate_details_mapping, Hq, Ha. unfold respond.
    rewrite create_question_paper_fresh by auto. cbn. auto.
  - exact evaluate_omr_no_len.
  - intros json_loads e roll qp sheet s p m v msg Hp Hd Hq Hlen r. subst r.
    unfold serve, dispatch.
    destruct (with_form_cases roll qp
                (respond HTTP_200_OK OneResult
                   (Evaluate.evaluate_omr_sheet e roll qp sheet))
                (Session.open s)) as [(Hroll & Hqp & E1) | (Hemp & E1)];
      rewrite E1; clear E1.
    2:{ split; [reflexivity |]. intros ct Hr' Hq'. exfalso. tauto. }
    unfold respond.
    destruct (content_type sheet) as [ct|] eqn:Hct.
    2:{ split; [| discriminate].
        unfold Evaluate.evaluate_omr_sheet, Evaluate.is_image.
        rewrite Hct. reflexivity. }
    destruct (String.prefix "image/" ct) eqn:Himg.
    2:{ split; [| intros ct' _ _ H; inversion H; subst; congruence].
        unfold Evaluate.evaluate_omr_sheet, Evaluate.is_image.
        rewrite Hct. unfold_monad. rewrite Himg. reflexivity. }
    rewrite (evaluate_omr_sheet_run e roll qp sheet ct) by auto.
    rewrite save_upload_file_run. cbv zeta.
    replace (saved_path (Session.open s) sheet) with (saved_path s sheet)
      by reflexivity.
    set (path := saved_path s sheet).
    set (s0 := set_rng _ (Session.open s)).
    destruct (save_fault e) as [[sm|sm]|] eqn:Hsave;
      [split; [reflexivity | discriminate]
      |split; [reflexivity | discriminate] |].
    set (s1 := set_uploads _ s0).
    rewrite (evaluate_omr_no_len e path qp s1 p m v msg Hp Hd Hq Hlen).
    rewrite cleanup_file_run.
    replace (uploads s1 !! path) with (Some (file_content sheet))
      by (subst s1; cbn; rewrite lookup_insert_eq; reflexivity).
    destruct (remove_fault e) as [rm|]; cbn.
    + split; [reflexivity |]. intros _ _ _ _ _ _.
      split; [reflexivity |]. split; [discriminate |].
      intros rm' _. reflexivity.
    + split; [reflexivity |]. intros _ _ _ _ _ _.
      split; [reflexivity |].
      split; [intros _; apply delete_insert_eq | discriminate].
Qed.

Lemma untyped_questions_created_then_evaluation_fails_witness :
  fst (serve Sample.loads Sample.env
             (POST_questions Sample.details_number) Sample.s0)
  = mkResponse 201 (Paper (QuestionPaper.mk "P1" Sample.details_number))
  /\ fst (serve Sample.loads Sample.env
                (POST_evaluate "R1" "P1" Sample.png) Sample.s_number)
     = mkResponse 500
         (Detail
            "Error processing OMR sheet: object of type 'int' has no len()")
  /\ uploads (snd (serve Sample.loads Sample.env
                         (POST_evaluate "R1" "P1" Sample.png)
                         Sample.s_number))
     = delete (saved_path Sample.s_number Sample.png)
              (uploads Sample.s_number).
Proof.
  split.
  - refine (proj1 (proj1 (proj2
              untyped_questions_created_then_evaluation_fails)
              Sample.loads Sample.env
              (<["questions" := JNum 5]> (<["answers" := JArr []]> ∅))
              Sample.s0 _ _ eq_refl eq_refl eq_refl)); eexists; reflexivity.
  - pose proof (proj2 (proj2 (proj2 (proj2
             untyped_questions_created_then_evaluation_fails))
             Sample.loads Sample.env "R1" "P1" Sample.png Sample.s_number
             (QuestionPaper.mk "P1" Sample.details_number) _ (JNum 5) _
             eq_refl eq_refl eq_refl eq_refl)
             "image/png") as H.
    cbv zeta in H.
    destruct H as (H1 & H2 & _);
      [discriminate | discriminate | reflexivity | reflexivity
       | reflexivity |].
    split; [exact H1 | exact (H2 eq_refl)].
Defined.


(** ** Request bodies that fail validation *)

Lemma QuestionPaperCreate_cases (json_loads : string -> option json)
    (raw : json) :
  (exists m, raw = JObj m
             /\ is_Some (m !! "questions") /\ is_Some (m !! "answers")
             /\ Schemas.QuestionPaperCreate json_loads raw = inr raw)
  \/ (exists msg,
        Schemas.QuestionPaperCreate json_loads raw
        = inl (Exception ValueError msg)).
Proof.
  destruct raw as [| | | | |m]; try (right; eexists; reflexivity).
  unfold Schemas.QuestionPaperCreate. rewrite validate_details_mapping.
  destruct (m !! "questions") eqn:Hq; [| right; eauto].
  destruct (m !! "answers") eqn:Ha; [| right; eauto].
  left. exists m. rewrite Hq, Ha. eauto.
Qed.

(** C3, as stated, fails on the status: a body whose details lack both
    keys is answered with 422, not with 400. *)
Lemma invalid_details_status_counterexample :
  ~ has_required_fields Sample.loads (JObj ∅)
  /\ status (fst (serve Sample.loads Sample.env (POST_questions (JObj ∅))
                        init)) = 422
  /\ status (fst (serve Sample.loads Sample.env (POST_questions (JObj ∅))
                        init)) <> 400.
Proof.
  split.
  - intros (m & Hm & [q Hq] & _). cbn in Hm. inversion Hm; subst m.
    rewrite lookup_empty in Hq. discriminate.
  - split; [reflexivity | vm_compute; discriminate].
Qed.

(** C3 (amended): when the details of a create or update request are not
    a mapping with the keys [questions] and [answers] (also counting a
    text that decodes to such a mapping), the request is answered with
    422 by the validation of the body, the endpoint is not called, and
    the committed rows are unchanged. *)
Theorem invalid_details_rejected
    (json_loads : string -> option json) (e : Env) (i : string)
    (raw : json) (s : St) :
  ~ has_required_fields json_loads raw ->
  (exists msg,
     serve json_loads e (POST_questions raw) s
     = (mkResponse 422 (Detail msg), Session.close (Session.open s)))
  /\ (exists msg,
        serve json_loads e (PUT_question i raw) s
        = (mkResponse 422 (Detail msg), Session.close (Session.open s)))
  /\ durable (Session.close (Session.open s)) = durable s.
Proof.
  intros Hbad.
  assert (Herr : exists msg,
             Schemas.QuestionPaperCreate json_loads raw
             = inl (Exception ValueError msg)).
  { destruct (QuestionPaperCreate_cases json_loads raw)
      as [(m & -> & Hq & Ha & _) | H]; [| exact H].
    exfalso. apply Hbad. exists m. auto. }
  destruct Herr as [msg Herr].
  split; [| split].
  - eexists. unfold serve, dispatch, with_body. rewrite Herr. reflexivity.
  - eexists. unfold serve, dispatch, with_body. rewrite Herr. reflexivity.
  - reflexivity.
Qed.

Lemma invalid_details_rejected_witness :
  exists msg,
    serve Sample.loads Sample.env (POST_questions (JObj ∅)) init
    = (mkResponse 422 (Detail msg), Session.close (Session.open init)).
Proof.
  apply (invalid_details_rejected Sample.loads Sample.env "P1" (JObj ∅) init).
  intros (m & Hm & [q Hq] & _). cbn in Hm. inversion Hm; subst m.
  rewrite lookup_empty in Hq. discriminate.
Defined.


(** ** A commit that raises *)

(** C4, as stated, fails on the kind of error for the three paper
    endpoints: a commit that raises during POST /questions is answered
    with 400, not with the 500 of a processing error. *)
Lemma commit_failure_status_counterexample :
  fst (serve Sample.loads Sample.env_commit_fails
             (POST_questions Sample.details) init)
  = mkResponse 400
      (Detail "Error creating question paper: database is locked")
  /\ In (EvCommitFailed (Exception OperationalError "database is locked"))
        (events (snd (serve Sample.loads Sample.env_commit_fails
                            (POST_questions Sample.details) init)))
  /\ status (fst (serve Sample.loads Sample.env_commit_fails
                        (POST_questions Sample.details) init)) <> 500.
Proof.
  split; [reflexivity |]. split; [left; reflexivity |].
  vm_compute. discriminate.
Qed.

Lemma guarded_commit_failed {A} (e : Env) (p : Pending) (rest : M A)
    (code : Z) (text : string) (s : St) (ex : exn) :
  events s = [] ->
  (forall s0, snd (rest s0) = s0) ->
  let r := try_except (Session.note p ;;; Session.commit e ;;; rest)
             (fun ex0 : exn =>
                Session.rollback ;;;
                raise (HTTPException code (text +:+ str_exn ex0))) s in
  In (EvCommitFailed ex) (events (snd r)) ->
  fst r = inl (HTTPException code (text +:+ str_exn ex))
  /\ durable (snd r) = durable s
  /\ txn (snd r) = durable s
  /\ pending (snd r) = []
  /\ events (snd r) = [EvCommitFailed ex; EvRollback].
Proof.
  intros Hev Hrest r. subst r. rewrite guarded_commit.
  destruct (Session.flush e _) as [[[ex'|] d'] rid]; cbn.
  - rewrite Hev. cbn. intros [H | [H | []]]; [| discriminate].
    inversion H; subst ex'. auto.
  - unfold try_except.
    set (s1 := set_session d' d' [] rid _ s).
    specialize (Hrest s1).
    destruct (rest s1) as [[ex'|a] s2]; cbn in Hrest; subst s2; cbn;
      rewrite Hev; cbn.
    + intros [H | [H | []]]; discriminate.
    + intros [H | []]; discriminate.
Qed.

Lemma refresh_paper_state (e : Env) (i : string) (s : St) :
  snd (Session.refresh_paper e i s) = s.
Proof.
  unfold Session.refresh_paper.
  destruct (refresh_fault e); [reflexivity |].
  destruct (Session.first_paper i (txn s)); reflexivity.
Qed.

Lemma update_question_paper_run (e : Env) (i : string) (details : json)
    (s : St) :
  Questions.update_question_paper e i details s =
  match Session.first_paper i (txn s) with
  | None => (inl (not_found "Question paper" i), s)
  | Some p =>
      try_except
        (Session.note (PDirtyPaper (QuestionPaper.id p) details) ;;;
         Session.commit e ;;;
         Session.refresh_paper e (QuestionPaper.id p))
        (fun ex =>
           Session.rollback ;;;
           raise (HTTPException HTTP_400_BAD_REQUEST
                    ("Error updating question paper: " +:+ str_exn ex))) s
  end.
Proof.
  unfold Questions.update_question_paper. unfold bind at 1.
  unfold get_state. destruct (Session.first_paper i (txn s)); reflexivity.
Qed.

Lemma delete_question_paper_run (e : Env) (i : string) (s : St) :
  Questions.delete_question_paper e i s =
  match Session.first_paper i (txn s) with
  | None => (inl (not_found "Question paper" i), s)
  | Some p =>
      try_except
        (Session.note (PDeletedPaper (QuestionPaper.id p)) ;;;
         Session.commit e ;;;
         ret ("Question paper " +:+ i +:+ " deleted successfully"))
        (fun ex =>
           Session.rollback ;;;
           raise (HTTPException HTTP_400_BAD_REQUEST
                    ("Error deleting question paper: " +:+ str_exn ex))) s
  end.
Proof.
  unfold Questions.delete_question_paper. unfold bind at 1.
  unfold get_state. destruct (Session.first_paper i (txn s)); reflexivity.
Qed.

(** C4 (amended): whenever the commit of a request raises, the endpoint
    has rolled the session back before it answers: the committed rows
    are those from before the request, the open transaction is back at
    them with nothing pending, the session did exactly a failed commit
    followed by a rollback, and the response is an error made from the
    exception: 400 for creating, updating and deleting a paper, 500 for
    an evaluation. *)
Theorem commit_failure_rolls_back
    (json_loads : string -> option json) (e : Env) (req : Request)
    (s : St) (ex : exn) :
  let r := dispatch json_loads e req (Session.open s) in
  In (EvCommitFailed ex) (events (snd r)) ->
  fst r = mkResponse (commit_error_status req)
            (Detail (commit_error_text req +:+ str_exn ex))
  /\ durable (snd r) = durable s
  /\ txn (snd r) = durable s
  /\ pending (snd r) = []
  /\ events (snd r) = [EvCommitFailed ex; EvRollback]
  /\ durable (snd (serve json_loads e req s)) = durable s.
Proof.
  intros r Hin.
  assert (Hserve : durable (snd (serve json_loads e req s)) = durable (snd r)).
  { unfold serve. fold r. destruct r. reflexivity. }
  rewrite Hserve.
  assert (Hgoal :
    fst r = mkResponse (commit_error_status req)
              (Detail (commit_error_text req +:+ str_exn ex))
    /\ durable (snd r) = durable s
    /\ txn (snd r) = durable s
    /\ pending (snd r) = []
    /\ events (snd r) = [EvCommitFailed ex; EvRollback]);
    [| tauto].
  clear Hserve. subst r. revert Hin.
  destruct req as [raw | skip limit | i | i raw | i | roll qp sheet
                  | roll qp skip limit | i]; cbn [dispatch].
  - (* POST /questions *)
    unfold with_body.
    destruct (Schemas.QuestionPaperCreate json_loads raw)
      as [[c d | [] msg] | details]; try (cbn; tauto).
    unfold respond, Questions.create_question_paper. cbv zeta.
    intros Hin.
    pose proof (guarded_commit_failed e
                  (PNewPaper (QuestionPaper.mk (uuid4 e) details))
                  (Session.refresh_paper e (uuid4 e))
                  HTTP_400_BAD_REQUEST "Error creating question paper: "
                  (Session.open s) ex eq_refl
                  (refresh_paper_state e (uuid4 e))) as H.
    cbv zeta in H. cbn [QuestionPaper.id] in Hin |- *.
    destruct (try_except _ _ (Session.open s)) as [[ex'|a] s'];
      cbn [fst snd] in *.
    + destruct (H Hin) as (H1 & H2); inversion H1; subst.
      split; [reflexivity | exact H2].
    + destruct (H Hin) as (H1 & _). discriminate.
  - unfold respond. rewrite get_question_papers_run.
    destruct (paged _ _ _); cbn; tauto.
  - unfold respond. rewrite get_question_paper_run.
    destruct (Session.first_paper i _); cbn; tauto.
  - (* PUT /questions/{id} *)
    unfold with_body.
    destruct (Schemas.QuestionPaperCreate json_loads raw)
      as [[c d | [] msg] | details]; try (cbn; tauto).
    unfold respond. rewrite update_question_paper_run.
    replace (txn (Session.open s)) with (durable s) by reflexivity.
    destruct (Session.first_paper i (durable s)) as [p|]; [| cbn; tauto].
    intros Hin.
    pose proof (guarded_commit_failed e
                  (PDirtyPaper (QuestionPaper.id p) details)
                  (Session.refresh_paper e (QuestionPaper.id p))
                  HTTP_400_BAD_REQUEST "Error updating question paper: "
                  (Session.open s) ex eq_refl
                  (refresh_paper_state e (QuestionPaper.id p))) as H.
    cbv zeta in H.
    destruct (try_except _ _ (Session.open s)) as [[ex'|a] s'];
      cbn [fst snd] in *.
    + destruct (H Hin) as (H1 & H2); inversion H1; subst.
      split; [reflexivity | exact H2].
    + destruct (H Hin) as (H1 & _). discriminate.
  - (* DELETE /questions/{id} *)
    unfold respond. rewrite delete_question_paper_run.
    replace (txn (Session.open s)) with (durable s) by reflexivity.
    destruct (Session.first_paper i (durable s)) as [p|]; [| cbn; tauto].
    intros Hin.
    pose proof (guarded_commit_failed e
                  (PDeletedPaper (QuestionPaper.id p))
                  (ret ("Question paper " +:+ i +:+ " deleted successfully"))
                  HTTP_400_BAD_REQUEST "Error deleting question paper: "
                  (Session.open s) ex eq_refl (fun _ => eq_refl)) as H.
    cbv zeta in H.
    destruct (try_except _ _ (Session.open s)) as [[ex'|a] s'];
      cbn [fst snd] in *.
    + destruct (H Hin) as (H1 & H2); inversion H1; subst.
      split; [reflexivity | exact H2].
    + destruct (H Hin) as (H1 & _). discriminate.
  - (* POST /evaluate *)
    destruct (with_form_cases roll qp
                (respond HTTP_200_OK OneResult
                   (Evaluate.evaluate_omr_sheet e roll qp sheet))
                (Session.open s)) as [(Hroll & Hqp & E1) | (Hemp & E1)];
      rewrite E1; clear E1; [| cbn; tauto].
    unfold respond.
    destruct (content_type sheet) as [ct|] eqn:Hct.
    2:{ unfold Evaluate.evaluate_omr_sheet, Evaluate.is_image.
        rewrite Hct. cbn. tauto. }
    destruct (String.prefix "image/" ct) eqn:Himg.
    2:{ unfold Evaluate.evaluate_omr_sheet, Evaluate.is_image.
        rewrite Hct. unfold_monad. rewrite Himg. cbn. tauto. }
    rewrite (evaluate_omr_sheet_run e roll qp sheet ct) by auto.
    pose proof (save_upload_file_session e sheet (Session.open s)) as Hs.
    cbv zeta in Hs.
    destruct (save_upload_file e sheet (Session.open s)) as [[ex'|path] s1].
    { cbn [fst snd] in *. destruct Hs as (_ & _ & _ & _ & Hev & _).
      rewrite Hev. cbn. tauto. }
    cbn [fst snd] in Hs.
    destruct Hs as (Hd1 & Ht1 & _ & _ & Hev1 & _).
    pose proof (evaluate_omr_session e path qp s1) as Hv. cbv zeta in Hv.
    destruct (evaluate_omr e path qp s1) as [[ex'|m] s2];
      cbn [fst snd] in Hv; destruct Hv as (Hd2 & Ht2 & _ & _ & Hev2).
    { cbn [fst snd]. rewrite Hev2, Hev1. cbn. tauto. }
    destruct (new_result_failure e (results (txn s2)) (lastrowid s2))
      as [[ex' rid]|]; cbn [fst snd].
    + cbn. rewrite Hev2, Hev1, Hd2, Hd1. cbn.
      intros [H | [H | []]]; [| discriminate].
      inversion H; subst ex. auto.
    + destruct (refresh_fault e); cbn; rewrite Hev2, Hev1; cbn.
      * intros [H | [H | []]]; discriminate.
      * intros [H | []]. discriminate.
  - unfold respond. rewrite get_results_run.
    destruct (paged _ _ _); cbn; tauto.
  - unfold respond. rewrite get_result_run.
    destruct (Session.bind_int i) as [ex'|i']; [cbn; tauto |].
    destruct (Session.first_result i' _); cbn; tauto.
Qed.

Lemma commit_failure_rolls_back_witness :
  durable (snd (serve Sample.loads Sample.env_commit_fails
                      (POST_evaluate "R1" "P1" Sample.png) Sample.s1))
  = durable Sample.s1.
Proof.
  apply (commit_failure_rolls_back Sample.loads Sample.env_commit_fails
           (POST_evaluate "R1" "P1" Sample.png) Sample.s1
           (Exception OperationalError "database is locked")).
  vm_compute. left. reflexivity.
Defined.

(** ** Deleting a paper takes its results along *)

Lemma flush_ok (e : Env) (s : St) (d' : Database) (rid : Z) :
  Session.flush e s = (None, d', rid) ->
  flush_fault e = None
  /\ Session.run_stmts (orm_text e) None 0
       (flat_map (Session.unit_of_work (txn s)) (pending s))
       (txn s) (lastrowid s) = (None, d', rid).
Proof.
  unfold Session.flush.
  destruct (flush_fault e) as [[n msg]|] eqn:Hf.
  - destruct (Session.run_stmts _ _ _ _ _) as [[[ex|] d0] r0];
      discriminate.
  - destruct (Session.run_stmts _ _ _ _ _) as [[[ex|] d0] r0];
      [discriminate |]. intros H; inversion H; subst. auto.
Qed.

(** The DELETE statements of the cascade, run without a fault. *)
Lemma run_delete_results (text : exn_class -> string)
    (rs : list Result.t) (rest : list Session.Stmt) :
  forall (k : nat) (d : Database) (rid : Z),
  exists d',
    Session.run_stmts text None k
      (map (fun r => Session.DELETE_result (Result.id r)) rs ++ rest) d rid
    = Session.run_stmts text None (k + List.length rs) rest d' rid
    /\ question_papers d' = question_papers d
    /\ (forall r, In r (results d') <->
                  In r (results d)
                  /\ ~ In (Result.id r) (map Result.id rs)).
Proof.
  induction rs as [|r0 rs IH]; intros k d rid.
  - exists d. cbn. rewrite Nat.add_0_r. split; [reflexivity |].
    split; [reflexivity | tauto].
  - cbn [map app Session.run_stmts Session.fault_at Session.exec_stmt
         default from_option].
    set (d1 := mkDatabase (question_papers d) _).
    destruct (IH (S k) d1 rid) as (d' & Hrun & Hp & Hr).
    exists d'. split.
    { cbn [List.length]. rewrite Nat.add_succ_r. exact Hrun. }
    split; [exact Hp |].
    intros r. rewrite Hr. subst d1. cbn [results map In].
    rewrite filter_In, negb_true_iff, bool_decide_eq_false.
    intuition congruence.
Qed.

Lemma results_of_spec (i : string) (d : Database) (r : Result.t) :
  In r (Session.results_of i d)
  <-> In r (results d) /\ Result.question_paper_id r = i.
Proof.
  unfold Session.results_of. rewrite filter_In, bool_decide_eq_true.
  reflexivity.
Qed.

(** What a committed cascade leaves. *)
Lemma flush_delete_paper (e : Env) (i : string) (s : St)
    (d' : Database) (rid : Z) :
  pending s = [PDeletedPaper i] ->
  Session.flush e s = (None, d', rid) ->
  question_papers d'
    = List.filter (fun p => negb (bool_decide (QuestionPaper.id p = i)))
                  (question_papers (txn s))
  /\ (forall r, In r (results d') <->
                In r (results (txn s))
                /\ ~ In (Result.id r)
                        (map Result.id (Session.results_of i (txn s)))).
Proof.
  intros Hp Hflush. apply flush_ok in Hflush. destruct Hflush as [_ Hrun].
  rewrite Hp in Hrun. cbn [flat_map Session.unit_of_work] in Hrun.
  rewrite app_nil_r in Hrun.
  destruct (run_delete_results (orm_text e) (Session.results_of i (txn s))
              [Session.DELETE_paper i] 0%nat (txn s) (lastrowid s))
    as (d1 & Hrun1 & Hp1 & Hr1).
  rewrite Hrun1 in Hrun. cbn in Hrun. inversion Hrun; subst d' rid.
  cbn. rewrite Hp1. split; [reflexivity | exact Hr1].
Qed.

Lemma first_paper_id (i : string) (d : Database) (p : QuestionPaper.t) :
  Session.first_paper i d = Some p ->
  In p (question_papers d) /\ QuestionPaper.id p = i.
Proof.
  unfold Session.first_paper. intros H. apply find_some in H.
  rewrite bool_decide_eq_true in H. exact H.
Qed.

(** A successful DELETE /questions/{id}, from a fresh session. *)
Lemma delete_question_paper_ok (e : Env) (i : string) (s : St)
    (msg : string) (s' : St) :
  pending s = [] ->
  Questions.delete_question_paper e i s = (inr msg, s') ->
  question_papers (durable s')
    = List.filter (fun p => negb (bool_decide (QuestionPaper.id p = i)))
                  (question_papers (txn s))
  /\ (forall r, In r (results (durable s')) <->
                In r (results (txn s))
                /\ Result.question_paper_id r <> i
                /\ ~ In (Result.id r)
                        (map Result.id (Session.results_of i (txn s)))).
Proof.
  intros Hp. rewrite delete_question_paper_run.
  destruct (Session.first_paper i (txn s)) as [p|] eqn:Hfind;
    [| discriminate].
  apply first_paper_id in Hfind. destruct Hfind as [_ Hid].
  rewrite guarded_commit.
  destruct (Session.flush e _) as [[[ex|] d'] rid] eqn:Hflush;
    [discriminate |].
  unfold try_except, ret. intros H; inversion H; subst s' msg. cbn.
  apply flush_delete_paper with (i := i) in Hflush;
    [| cbn; rewrite Hp, Hid; reflexivity].
  cbn in Hflush. destruct Hflush as [Hps Hrs].
  split; [exact Hps |].
  intros r. rewrite Hrs. split; [| tauto].
  intros [Hin Hnot]. split; [exact Hin |]. split; [| exact Hnot].
  intros Hqp. apply Hnot. apply in_map. apply results_of_spec. auto.
Qed.

(** *** Every result keeps a stored paper *)

Lemma guarded_commit_durable {A} (e : Env) (p : Pending) (rest : M A)
    (code : Z) (text : string) (s : St) :
  (forall s0, snd (rest s0) = s0) ->
  let r := try_except (Session.note p ;;; Session.commit e ;;; rest)
             (fun ex0 : exn =>
                Session.rollback ;;;
                raise (HTTPException code (text +:+ str_exn ex0))) s in
  durable (snd r) = durable s
  \/ (exists d' rid,
        Session.flush e
          (set_session (durable s) (txn s) (pending s ++ [p]) (lastrowid s)
                       (events s) s) = (None, d', rid)
        /\ durable (snd r) = d').
Proof.
  intros Hrest r. subst r. rewrite guarded_commit.
  destruct (Session.flush e _) as [[[ex'|] d'] rid]; cbn; [auto |].
  right. exists d', rid. split; [reflexivity |].
  unfold try_except.
  set (s1 := set_session d' d' [] rid _ s).
  specialize (Hrest s1).
  destruct (rest s1) as [[ex'|a] s2]; cbn in Hrest; subst s2; reflexivity.
Qed.

Lemma references_more_papers (d d' : Database) :
  references_ok d ->
  results d' = results d ->
  (forall p, In p (question_papers d) ->
     exists p', In p' (question_papers d')
                /\ QuestionPaper.id p' = QuestionPaper.id p) ->
  references_ok d'.
Proof.
  intros Hok Hr Hp r Hin. rewrite Hr in Hin.
  destruct (Hok r Hin) as (p & Hpin & Hid).
  destruct (Hp p Hpin) as (p' & Hin' & Hid'). exists p'. split; congruence.
Qed.

Lemma create_keeps_references (e : Env) (details : json) (s : St) :
  pending s = [] -> txn s = durable s -> references_ok (durable s) ->
  references_ok
    (durable (snd (Questions.create_question_paper e details s))).
Proof.
  intros Hp Ht Hok. unfold Questions.create_question_paper. cbv zeta.
  cbn [QuestionPaper.id].
  destruct (guarded_commit_durable e
              (PNewPaper (QuestionPaper.mk (uuid4 e) details))
              (Session.refresh_paper e (uuid4 e))
              HTTP_400_BAD_REQUEST "Error creating question paper: " s
              (refresh_paper_state e (uuid4 e)))
    as [H | (d' & rid & Hflush & H)]; rewrite H; clear H; [exact Hok |].
  apply flush_ok in Hflush. destruct Hflush as [_ Hrun].
  cbn in Hrun. rewrite Hp in Hrun. cbn in Hrun.
  destruct (Session.first_paper (uuid4 e) (txn s)); [discriminate |].
  cbn in Hrun. inversion Hrun; subst d' rid.
  apply (references_more_papers (durable s)); [exact Hok | |].
  - cbn. rewrite Ht. reflexivity.
  - intros p Hin. exists p. cbn. rewrite Ht, in_app_iff. auto.
Qed.

Lemma update_keeps_references (e : Env) (i : string) (details : json)
    (s : St) :
  pending s = [] -> txn s = durable s -> references_ok (durable s) ->
  references_ok
    (durable (snd (Questions.update_question_paper e i details s))).
Proof.
  intros Hp Ht Hok. rewrite update_question_paper_run.
  destruct (Session.first_paper i (txn s)) as [p0|]; [| exact Hok].
  destruct (guarded_commit_durable e
              (PDirtyPaper (QuestionPaper.id p0) details)
              (Session.refresh_paper e (QuestionPaper.id p0))
              HTTP_400_BAD_REQUEST "Error updating question paper: " s
              (refresh_paper_state e (QuestionPaper.id p0)))
    as [H | (d' & rid & Hflush & H)]; rewrite H; clear H; [exact Hok |].
  apply flush_ok in Hflush. destruct Hflush as [_ Hrun].
  cbn in Hrun. rewrite Hp in Hrun. cbn in Hrun.
  destruct (Session.first_paper (QuestionPaper.id p0) (txn s));
    [| discriminate].
  cbn in Hrun. inversion Hrun; subst d' rid.
  apply (references_more_papers (durable s)); [exact Hok | |].
  - cbn. rewrite Ht. reflexivity.
  - intros p Hin. cbn. rewrite Ht.
    eexists. split; [apply in_map; exact Hin |]. cbv beta.
    destruct (bool_decide (QuestionPaper.id p = QuestionPaper.id p0))
      eqn:E; [| reflexivity].
    apply bool_decide_eq_true_1 in E. cbn. congruence.
Qed.

Lemma delete_keeps_references (e : Env) (i : string) (s : St) :
  pending s = [] -> txn s = durable s -> references_ok (durable s) ->
  references_ok (durable (snd (Questions.delete_question_paper e i s))).
Proof.
  intros Hp Ht Hok.
  destruct (Questions.delete_question_paper e i s) as [[ex|msg] s'] eqn:E.
  - (* no commit happened *)
    rewrite delete_question_paper_run in E.
    destruct (Session.first_paper i (txn s)) as [p0|];
      [| inversion E; subst; exact Hok].
    pose proof (guarded_commit_durable e
              (PDeletedPaper (QuestionPaper.id p0))
              (ret ("Question paper " +:+ i +:+ " deleted successfully"))
              HTTP_400_BAD_REQUEST "Error deleting question paper: " s
              (fun _ => eq_refl)) as H.
    cbv zeta in H. rewrite E in H. cbn [snd] in H.
    destruct H as [H | (d' & rid & Hflush & H)]; [cbn; rewrite H; exact Hok |].
    exfalso. rewrite guarded_commit, Hflush in E. discriminate.
  - destruct (delete_question_paper_ok e i s msg s' Hp E) as [Hps Hrs].
    cbn [snd]. intros r Hin. apply Hrs in Hin.
    destruct Hin as (Hin & Hne & _). rewrite Ht in Hin.
    destruct (Hok r Hin) as (p & Hpin & Hid).
    exists p. split; [| exact Hid].
    rewrite Hps, Ht. apply filter_In. split; [exact Hpin |].
    apply negb_true_iff, bool_decide_eq_false. congruence.
Qed.

Lemma evaluate_omr_marks_paper (e : Env) (path qp : string) (s : St) (m : Z) :
  fst (evaluate_omr e path qp s) = inr m ->
  exists p, Session.first_paper qp (txn s) = Some p.
Proof.
  rewrite evaluate_omr_run.
  destruct (Session.first_paper qp (txn s)) as [p|]; [eauto |].
  cbn. discriminate.
Qed.

Lemma evaluate_keeps_references (e : Env) (roll qp : string)
    (sheet : UploadFile) (s : St) :
  pending s = [] -> txn s = durable s -> references_ok (durable s) ->
  references_ok
    (durable (snd (Evaluate.evaluate_omr_sheet e roll qp sheet s))).
Proof.
  intros Hp Ht Hok.
  destruct (content_type sheet) as [ct|] eqn:Hct.
  2:{ unfold Evaluate.evaluate_omr_sheet, Evaluate.is_image.
      rewrite Hct. exact Hok. }
  destruct (String.prefix "image/" ct) eqn:Himg.
  2:{ unfold Evaluate.evaluate_omr_sheet, Evaluate.is_image.
      rewrite Hct. unfold_monad. rewrite Himg. exact Hok. }
  rewrite (evaluate_omr_sheet_run e roll qp sheet ct) by auto.
  pose proof (save_upload_file_session e sheet s) as Hs. cbv zeta in Hs.
  destruct (save_upload_file e sheet s) as [[ex|path] s1];
    cbn [fst snd] in Hs; destruct Hs as (Hd1 & Ht1 & _).
  { cbn. rewrite Hd1. exact Hok. }
  pose proof (evaluate_omr_session e path qp s1) as Hv. cbv zeta in Hv.
  pose proof (evaluate_omr_marks_paper e path qp s1) as Hm.
  destruct (evaluate_omr e path qp s1) as [[ex|m] s2];
    cbn [fst snd] in Hv, Hm; destruct Hv as (Hd2 & Ht2 & _).
  { cbn. rewrite Hd2, Hd1. exact Hok. }
  destruct (Hm m eq_refl) as [p Hfind].
  apply first_paper_id in Hfind. destruct Hfind as [Hpin Hid].
  destruct (new_result_failure e (results (txn s2)) (lastrowid s2))
    as [[ex rid]|]; cbn.
  { rewrite Hd2, Hd1. exact Hok. }
  assert (Hnew : references_ok
            (mkDatabase (question_papers (txn s2))
               (results (txn s2)
                ++ [Result.mk (Session.next_rowid (results (txn s2)))
                              roll qp m]))).
  { rewrite Ht2, Ht1, Ht. intros r. cbn. rewrite in_app_iff.
    intros [Hin | [<- | []]].
    - exact (Hok r Hin).
    - exists p. cbn. rewrite Ht1, Ht in Hpin. auto. }
  destruct (refresh_fault e); exact Hnew.
Qed.

Lemma serve_keeps_references (json_loads : string -> option json)
    (e : Env) (req : Request) (s : St) :
  references_ok (durable s) ->
  references_ok (durable (snd (serve json_loads e req s))).
Proof.
  intros Hok. unfold serve.
  assert (Hd : durable (Session.open s) = durable s) by reflexivity.
  assert (Hgoal :
    references_ok
      (durable (snd (dispatch json_loads e req (Session.open s))))).
  2:{ destruct (dispatch json_loads e req (Session.open s)). exact Hgoal. }
  destruct req as [raw | skip limit | i | i raw | i | roll qp sheet
                  | roll qp skip limit | i]; cbn [dispatch].
  - unfold with_body.
    destruct (Schemas.QuestionPaperCreate json_loads raw)
      as [[c d | [] msg] | details]; try exact Hok.
    unfold respond.
    pose proof (create_keeps_references e details (Session.open s)
                  eq_refl eq_refl Hok) as H.
    destruct (Questions.create_question_paper e details (Session.open s))
      as [[ex|a] s']; exact H.
  - unfold respond. rewrite get_question_papers_run.
    destruct (paged _ _ _); exact Hok.
  - unfold respond. rewrite get_question_paper_run.
    destruct (Session.first_paper i _); exact Hok.
  - unfold with_body.
    destruct (Schemas.QuestionPaperCreate json_loads raw)
      as [[c d | [] msg] | details]; try exact Hok.
    unfold respond.
    pose proof (update_keeps_references e i details (Session.open s)
                  eq_refl eq_refl Hok) as H.
    destruct (Questions.update_question_paper e i details (Session.open s))
      as [[ex|a] s']; exact H.
  - unfold respond.
    pose proof (delete_keeps_references e i (Session.open s)
                  eq_refl eq_refl Hok) as H.
    destruct (Questions.delete_question_paper e i (Session.open s))
      as [[ex|a] s']; exact H.
  - destruct (with_form_cases roll qp
                (respond HTTP_200_OK OneResult
                   (Evaluate.evaluate_omr_sheet e roll qp sheet))
                (Session.open s)) as [(Hroll & Hqp & E1) | (Hemp & E1)];
      rewrite E1; clear E1; [| exact Hok].
    unfold respond.
    pose proof (evaluate_keeps_references e roll qp sheet (Session.open s)
                  eq_refl eq_refl Hok) as H.
    destruct (Evaluate.evaluate_omr_sheet e roll qp sheet (Session.open s))
      as [[ex|a] s']; exact H.
  - unfold respond. rewrite get_results_run.
    destruct (paged _ _ _); exact Hok.
  - unfold respond. rewrite get_result_run.
    destruct (Session.bind_int i) as [ex|i']; [exact Hok |].
    destruct (Session.first_result i' _); exact Hok.
Qed.

Lemma reachable_references (json_loads : string -> option json) (s : St) :
  reachable json_loads s -> references_ok (durable s).
Proof.
  induction 1 as [g | e req s Hreach IH].
  - intros r [].
  - apply serve_keeps_references. exact IH.
Qed.


(** * Further properties of the endpoints *)

(** ** How each writing endpoint can end *)

Lemma flush_new_paper (e : Env) (p : QuestionPaper.t) (s : St) :
  pending s = [PNewPaper p] ->
  let d' := mkDatabase (question_papers (txn s) ++ [p]) (results (txn s)) in
  let taken :=
    (Some (Exception IntegrityError (orm_text e IntegrityError)),
     txn s, lastrowid s) in
  Session.flush e s =
  match flush_fault e with
  | Some (O, msg) =>
      (Some (Exception OperationalError msg), txn s, lastrowid s)
  | Some (S _, msg) =>
      match Session.first_paper (QuestionPaper.id p) (txn s) with
      | Some _ => taken
      | None => (Some (Exception OperationalError msg), d', lastrowid s)
      end
  | None =>
      match Session.first_paper (QuestionPaper.id p) (txn s) with
      | Some _ => taken
      | None => (None, d', lastrowid s)
      end
  end.
Proof.
  intros Hp d' taken. unfold Session.flush. rewrite Hp. cbn.
  destruct (flush_fault e) as [[[|n] msg]|]; cbn; [reflexivity | |];
    destruct (Session.first_paper (QuestionPaper.id p) (txn s));
    reflexivity.
Qed.

Lemma create_question_paper_run (e : Env) (details : json) (s : St) :
  pending s = [] ->
  let p := QuestionPaper.mk (uuid4 e) details in
  Questions.create_question_paper e details s =
  match Session.flush e
          (set_session (durable s) (txn s) [PNewPaper p] (lastrowid s)
                       (events s) s) with
  | (Some ex, _, rid) =>
      (inl (HTTPException 400
              ("Error creating question paper: " +:+ str_exn ex)),
       set_session (durable s) (durable s) [] rid
                   (events s ++ [EvCommitFailed ex; EvRollback]) s)
  | (None, d', rid) =>
      match refresh_fault e with
      | None => (inr p, set_session d' d' [] rid (events s ++ [EvCommit]) s)
      | Some msg =>
          (inl (HTTPException 400
                  ("Error creating question paper: " +:+ msg)),
           set_session d' d' [] rid (events s ++ [EvCommit; EvRollback]) s)
      end
  end.
Proof.
  intros Hp p. subst p. unfold Questions.create_question_paper. cbv zeta.
  cbn [QuestionPaper.id]. rewrite guarded_commit. rewrite Hp. cbn [app].
  set (p := QuestionPaper.mk (uuid4 e) details).
  set (s1 := set_session _ _ [PNewPaper p] _ _ s).
  pose proof (flush_new_paper e p s1 eq_refl) as Hf. cbv zeta in Hf.
  destruct (Session.flush e s1) as [[[ex|] d'] rid]; [reflexivity |].
  assert (Hd : Session.first_paper (uuid4 e) (txn s) = None
               /\ d' = mkDatabase (question_papers (txn s) ++ [p])
                                  (results (txn s))).
  { cbn in Hf. destruct (flush_fault e) as [[[|n] msg]|];
      [discriminate | |];
      destruct (Session.first_paper (uuid4 e) (txn s));
      try discriminate; inversion Hf; auto. }
  destruct Hd as [Hnone ->].
  unfold try_except, Session.refresh_paper. cbn [txn set_session].
  destruct (refresh_fault e) as [msg|].
  { unfold Session.rollback. unfold_monad. cbn. rewrite <- app_assoc.
    reflexivity. }
  pose proof (first_paper_app_fresh p (txn s) Hnone) as Hr.
  change (QuestionPaper.id p) with (uuid4 e) in Hr. rewrite Hr.
  reflexivity.
Qed.

Lemma first_paper_updated (i : string) (details : json) (d : Database)
    (p0 : QuestionPaper.t) :
  Session.first_paper i d = Some p0 ->
  Session.first_paper i
    (mkDatabase
       (map (fun p => if bool_decide (QuestionPaper.id p = i)
                      then QuestionPaper.mk i details else p)
            (question_papers d))
       (results d))
  = Some (QuestionPaper.mk i details).
Proof.
  unfold Session.first_paper. cbn.
  induction (question_papers d) as [|q qs IH]; cbn; [discriminate |].
  destruct (bool_decide (QuestionPaper.id q = i)) eqn:E; cbn.
  - intros _. rewrite bool_decide_eq_true_2; reflexivity.
  - rewrite E. exact IH.
Qed.

Lemma flush_dirty_paper (e : Env) (i : string) (details : json) (s : St)
    (p0 : QuestionPaper.t) :
  pending s = [PDirtyPaper i details] ->
  Session.first_paper i (txn s) = Some p0 ->
  let d' :=
    mkDatabase
      (map (fun p => if bool_decide (QuestionPaper.id p = i)
                     then QuestionPaper.mk i details else p)
           (question_papers (txn s)))
      (results (txn s)) in
  Session.flush e s =
  match flush_fault e with
  | Some (O, msg) =>
      (Some (Exception OperationalError msg), txn s, lastrowid s)
  | Some (S _, msg) =>
      (Some (Exception OperationalError msg), d', lastrowid s)
  | None => (None, d', lastrowid s)
  end.
Proof.
  intros Hp Hfind d'. unfold Session.flush. rewrite Hp. cbn.
  destruct (flush_fault e) as [[[|n] msg]|]; cbn; [reflexivity | |];
    rewrite Hfind; reflexivity.
Qed.

(** PUT /questions/{id} on a stored paper, in one piece. *)
Lemma update_question_paper_found (e : Env) (i : string) (details : json)
    (s : St) (p0 : QuestionPaper.t) :
  pending s = [] ->
  Session.first_paper i (txn s) = Some p0 ->
  let d' :=
    mkDatabase
      (map (fun p => if bool_decide (QuestionPaper.id p = i)
                     then QuestionPaper.mk i details else p)
           (question_papers (txn s)))
      (results (txn s)) in
  Questions.update_question_paper e i details s =
  match flush_fault e with
  | Some (n, msg) =>
      (inl (HTTPException 400 ("Error updating question paper: " +:+ msg)),
       set_session (durable s) (durable s) [] (lastrowid s)
         (events s ++ [EvCommitFailed (Exception OperationalError msg);
                       EvRollback]) s)
  | None =>
      match refresh_fault e with
      | None =>
          (inr (QuestionPaper.mk i details),
           set_session d' d' [] (lastrowid s) (events s ++ [EvCommit]) s)
      | Some msg =>
          (inl (HTTPException 400
                  ("Error updating question paper: " +:+ msg)),
           set_session d' d' [] (lastrowid s)
                       (events s ++ [EvCommit; EvRollback]) s)
      end
  end.
Proof.
  intros Hp Hfind d'. rewrite update_question_paper_run, Hfind.
  destruct (first_paper_id i (txn s) p0 Hfind) as [_ Hid]. rewrite Hid.
  rewrite guarded_commit. rewrite Hp. cbn [app].
  rewrite (flush_dirty_paper e i details
             (set_session (durable s) (txn s) [PDirtyPaper i details]
                          (lastrowid s) (events s) s)
             p0 eq_refl Hfind).
  cbv zeta.
  cbn [txn lastrowid set_session].
  destruct (flush_fault e) as [[[|n] msg]|]; try reflexivity.
  unfold try_except, Session.refresh_paper. cbn [txn set_session].
  destruct (refresh_fault e) as [msg|].
  { unfold Session.rollback. unfold_monad. cbn. rewrite <- app_assoc.
    reflexivity. }
  rewrite (first_paper_updated i details (txn s) p0 Hfind). reflexivity.
Qed.

(** POST /questions with validated details, in one piece. *)
Lemma create_question_paper_closed (e : Env) (details : json) (s : St) :
  pending s = [] ->
  let p := QuestionPaper.mk (uuid4 e) details in
  let d' := mkDatabase (question_papers (txn s) ++ [p]) (results (txn s)) in
  let fail := fun ex : exn =>
    (@inl exn QuestionPaper.t
       (HTTPException 400
          ("Error creating question paper: " +:+ str_exn ex)),
     set_session (durable s) (durable s) [] (lastrowid s)
                 (events s ++ [EvCommitFailed ex; EvRollback]) s) in
  let taken := Exception IntegrityError (orm_text e IntegrityError) in
  Questions.create_question_paper e details s =
  match flush_fault e, Session.first_paper (uuid4 e) (txn s) with
  | Some (O, msg), _ => fail (Exception OperationalError msg)
  | Some (S _, msg), None => fail (Exception OperationalError msg)
  | Some (S _, _), Some _ => fail taken
  | None, Some _ => fail taken
  | None, None =>
      match refresh_fault e with
      | None =>
          (inr p,
           set_session d' d' [] (lastrowid s) (events s ++ [EvCommit]) s)
      | Some msg =>
          (inl (HTTPException 400
                  ("Error creating question paper: " +:+ msg)),
           set_session d' d' [] (lastrowid s)
                       (events s ++ [EvCommit; EvRollback]) s)
      end
  end.
Proof.
  intros Hp. cbv zeta.
  rewrite (create_question_paper_run e details s Hp). cbv zeta.
  rewrite (flush_new_paper e (QuestionPaper.mk (uuid4 e) details)
             (set_session (durable s) (txn s)
                          [PNewPaper (QuestionPaper.mk (uuid4 e) details)]
                          (lastrowid s) (events s) s) eq_refl).
  cbv zeta. cbn [QuestionPaper.id txn lastrowid set_session].
  destruct (flush_fault e) as [[[|n] msg]|]; [reflexivity | |];
    destruct (Session.first_paper (uuid4 e) (txn s)); reflexivity.
Qed.

Lemma filter_filter_and {A} (f g : A -> bool) (l : list A) :
  List.filter g (List.filter f l) = List.filter (fun x => f x && g x) l.
Proof.
  induction l as [|x l IH]; cbn; [reflexivity |].
  destruct (f x); cbn; [destruct (g x) |]; rewrite IH; reflexivity.
Qed.

Lemma filter_all {A} (l : list A) : List.filter (fun _ => true) l = l.
Proof. induction l as [|x l IH]; cbn; [| rewrite IH]; reflexivity. Qed.

(** The DELETE statements of the cascade without a fault, in closed form. *)
Lemma run_delete_results_closed (text : exn_class -> string)
    (rs : list Result.t) (rest : list Session.Stmt) :
  forall (k : nat) (d : Database) (rid : Z),
    Session.run_stmts text None k
      (map (fun r => Session.DELETE_result (Result.id r)) rs ++ rest) d rid
    = Session.run_stmts text None (k + List.length rs) rest
        (mkDatabase (question_papers d)
           (List.filter
              (fun r => negb (existsb
                                (fun r' => bool_decide
                                             (Result.id r = Result.id r'))
                                rs))
              (results d)))
        rid.
Proof.
  induction rs as [|r0 rs IH]; intros k d rid.
  - cbn. rewrite Nat.add_0_r, filter_all. destruct d; reflexivity.
  - cbn [map app Session.run_stmts Session.fault_at Session.exec_stmt
         default from_option].
    rewrite IH. cbn [question_papers results List.length].
    rewrite Nat.add_succ_r, filter_filter_and. cbn [existsb].
    f_equal. f_equal. apply filter_ext. intros r.
    rewrite negb_orb. reflexivity.
Qed.

(** A flush of DELETE statements only raises what was injected. *)
Lemma run_deletes_fault (text : exn_class -> string) (n : nat)
    (msg : string) (ss : list Session.Stmt) :
  Forall (fun st => match st with
                    | Session.DELETE_paper _ | Session.DELETE_result _ => True
                    | _ => False
                    end) ss ->
  forall (k : nat) (d : Database) (rid : Z),
    exists d',
      Session.run_stmts text (Some (n, msg)) k ss d rid
        = (Some (Exception OperationalError msg), d', rid)
      \/ Session.run_stmts text (Some (n, msg)) k ss d rid = (None, d', rid).
Proof.
  induction 1 as [|st ss Hst Hall IH]; intros k d rid.
  - exists d. right. reflexivity.
  - cbn [Session.run_stmts Session.fault_at].
    destruct (Nat.eqb n k); [exists d; left; reflexivity |].
    destruct st; try contradiction; cbn; apply IH.
Qed.

(** DELETE /questions/{id} on a stored paper, in one piece. *)
Lemma delete_question_paper_found (e : Env) (i : string) (s : St)
    (p0 : QuestionPaper.t) :
  pending s = [] ->
  Session.first_paper i (txn s) = Some p0 ->
  Questions.delete_question_paper e i s =
  match flush_fault e with
  | Some (n, msg) =>
      (inl (HTTPException 400 ("Error deleting question paper: " +:+ msg)),
       set_session (durable s) (durable s) [] (lastrowid s)
         (events s ++ [EvCommitFailed (Exception OperationalError msg);
                       EvRollback]) s)
  | None =>
      let d' := mkDatabase (papers_after_delete i (txn s))
                           (results_after_delete i (txn s)) in
      (inr ("Question paper " +:+ i +:+ " deleted successfully"),
       set_session d' d' [] (lastrowid s) (events s ++ [EvCommit]) s)
  end.
Proof.
  intros Hp Hfind. rewrite delete_question_paper_run, Hfind.
  destruct (first_paper_id i (txn s) p0 Hfind) as [_ Hid]. rewrite Hid.
  rewrite guarded_commit. rewrite Hp. cbn [app].
  unfold Session.flush. cbn [pending txn lastrowid set_session flat_map
                             Session.unit_of_work].
  rewrite app_nil_r.
  destruct (flush_fault e) as [[n msg]|] eqn:Hf.
  - assert (Hall : Forall (fun st => match st with
                    | Session.DELETE_paper _ | Session.DELETE_result _ => True
                    | _ => False
                    end)
              (map (fun r => Session.DELETE_result (Result.id r))
                   (Session.results_of i (txn s))
               ++ [Session.DELETE_paper i])).
    { apply Forall_app. split.
      - induction (Session.results_of i (txn s)); cbn; constructor; auto.
      - repeat constructor. }
    destruct (run_deletes_fault (orm_text e) n msg _ Hall 0%nat (txn s)
                (lastrowid s))
      as (d' & [H | H]); rewrite H; reflexivity.
  - rewrite run_delete_results_closed. cbn. reflexivity.
Qed.

(** ** One request as a step on the committed rows *)

Lemma evaluate_omr_marks_nonneg (e : Env) (path qp : string) (s : St)
    (m : Z) :
  fst (evaluate_omr e path qp s) = inr m -> 0 <= m.
Proof.
  rewrite evaluate_omr_run.
  destruct (Session.first_paper qp (txn s)) as [p|]; [| cbn; discriminate].
  destruct (QuestionPaper.details p) as [| | | | |mp]; try (cbn; discriminate).
  destruct (len _) as [msg|n] eqn:Hlen; [cbn; discriminate |].
  pose proof (len_nonneg _ _ Hlen) as Hn.
  pose proof (randint_range n (rng s) Hn) as Hr.
  destruct (randint 0 n (rng s)) as [marks g]. cbn in *.
  intros H; inversion H; subst. lia.
Qed.

(** What POST /evaluate does to the committed rows. *)
Lemma evaluate_omr_sheet_step (json_loads : string -> option json)
    (e : Env) (roll qp : string) (sheet : UploadFile) (s : St) :
  pending s = [] -> txn s = durable s ->
  db_step json_loads (durable s)
    (durable (snd (Evaluate.evaluate_omr_sheet e roll qp sheet s))).
Proof.
  intros Hp Ht.
  destruct (content_type sheet) as [ct|] eqn:Hct.
  2:{ unfold Evaluate.evaluate_omr_sheet, Evaluate.is_image.
      rewrite Hct. constructor. }
  destruct (String.prefix "image/" ct) eqn:Himg.
  2:{ unfold Evaluate.evaluate_omr_sheet, Evaluate.is_image.
      rewrite Hct. unfold_monad. rewrite Himg. constructor. }
  rewrite (evaluate_omr_sheet_run e roll qp sheet ct) by auto.
  pose proof (save_upload_file_session e sheet s) as Hs. cbv zeta in Hs.
  destruct (save_upload_file e sheet s) as [[ex|path] s1];
    cbn [fst snd] in Hs; destruct Hs as (Hd1 & Ht1 & _).
  { cbn. rewrite Hd1. constructor. }
  pose proof (evaluate_omr_session e path qp s1) as Hv. cbv zeta in Hv.
  pose proof (evaluate_omr_marks_paper e path qp s1) as Hm.
  pose proof (evaluate_omr_marks_nonneg e path qp s1) as Hn.
  destruct (evaluate_omr e path qp s1) as [[ex|m] s2];
    cbn [fst snd] in Hv, Hm, Hn; destruct Hv as (Hd2 & Ht2 & _).
  { cbn. rewrite Hd2, Hd1. constructor. }
  destruct (Hm m eq_refl) as [p Hfind]. specialize (Hn m eq_refl).
  destruct (new_result_failure e (results (txn s2)) (lastrowid s2))
    as [[ex rid]|] eqn:Hfail; cbn.
  { rewrite Hd2, Hd1. constructor. }
  apply new_result_failure_none in Hfail. destruct Hfail as [_ Hfits].
  rewrite Ht2, Ht1, Ht in Hfits |- *. rewrite Ht1, Ht in Hfind.
  pose proof (step_evaluate json_loads (durable s) roll qp m p Hfind Hn
                Hfits) as Hstep.
  destruct (refresh_fault e); exact Hstep.
Qed.

(** Every request is one step of [db_step] on the committed rows. *)
Lemma serve_db_step (json_loads : string -> option json) (e : Env)
    (req : Request) (s : St) :
  db_step json_loads (durable s)
    (durable (snd (serve json_loads e req s))).
Proof.
  unfold serve.
  assert (Hgoal : db_step json_loads (durable s)
            (durable (snd (dispatch json_loads e req (Session.open s))))).
  2:{ destruct (dispatch json_loads e req (Session.open s)). exact Hgoal. }
  destruct req as [raw | skip limit | i | i raw | i | roll qp sheet
                  | roll qp skip limit | i]; cbn [dispatch].
  - unfold with_body.
    destruct (Schemas.QuestionPaperCreate json_loads raw)
      as [[c d | [] msg] | details] eqn:Hv; try constructor.
    unfold respond.
    rewrite (create_question_paper_closed e details (Session.open s) eq_refl).
    cbv zeta.
    replace (txn (Session.open s)) with (durable s) by reflexivity.
    destruct (Session.first_paper (uuid4 e) (durable s)) eqn:Hf;
      destruct (flush_fault e) as [[[|n] msg]|]; cbn; try constructor.
    pose proof (step_create json_loads (durable s) raw details (uuid4 e)
                  Hv Hf) as Hstep.
    destruct (refresh_fault e); exact Hstep.
  - unfold respond. rewrite get_question_papers_run.
    destruct (paged _ _ _); constructor.
  - unfold respond. rewrite get_question_paper_run.
    destruct (Session.first_paper i _); constructor.
  - unfold with_body.
    destruct (Schemas.QuestionPaperCreate json_loads raw)
      as [[c d | [] msg] | details] eqn:Hv; try constructor.
    unfold respond.
    destruct (Session.first_paper i (durable s)) as [p0|] eqn:Hf.
    + rewrite (update_question_paper_found e i details (Session.open s) p0
                 eq_refl Hf).
      destruct (flush_fault e) as [[n msg]|]; cbn; [constructor |].
      pose proof (step_update json_loads (durable s) raw details i p0
                    Hv Hf) as Hstep.
      destruct (refresh_fault e); exact Hstep.
    + rewrite update_question_paper_run.
      replace (txn (Session.open s)) with (durable s) by reflexivity.
      rewrite Hf. constructor.
  - unfold respond.
    destruct (Session.first_paper i (durable s)) as [p0|] eqn:Hf.
    + rewrite (delete_question_paper_found e i (Session.open s) p0
                 eq_refl Hf).
      destruct (flush_fault e) as [[n msg]|]; cbn; [constructor |].
      exact (step_delete json_loads (durable s) i p0 Hf).
    + rewrite delete_question_paper_run.
      replace (txn (Session.open s)) with (durable s) by reflexivity.
      rewrite Hf. constructor.
  - destruct (with_form_cases roll qp
                (respond HTTP_200_OK OneResult
                   (Evaluate.evaluate_omr_sheet e roll qp sheet))
                (Session.open s)) as [(Hroll & Hqp & E1) | (Hemp & E1)];
      rewrite E1; clear E1; [| constructor].
    unfold respond.
    pose proof (evaluate_omr_sheet_step json_loads e roll qp sheet
                  (Session.open s) eq_refl eq_refl) as H.
    destruct (Evaluate.evaluate_omr_sheet e roll qp sheet (Session.open s))
      as [[ex|a] s']; exact H.
  - unfold respond. rewrite get_results_run.
    destruct (paged _ _ _); constructor.
  - unfold respond. rewrite get_result_run.
    destruct (Session.bind_int i) as [ex|i']; [constructor |].
    destruct (Session.first_result i' _); constructor.
Qed.

(** ** Invariants of the stored rows *)

Lemma first_paper_none (i : string) (d : Database) :
  Session.first_paper i d = None ->
  ~ In i (map QuestionPaper.id (question_papers d)).
Proof.
  unfold Session.first_paper. intros Hnone Hin.
  apply in_map_iff in Hin. destruct Hin as (p & Hid & Hin).
  apply (find_none _ _ Hnone) in Hin.
  rewrite bool_decide_eq_true_2 in Hin by exact Hid. discriminate.
Qed.

Lemma NoDup_map_filter {A B} (f : A -> B) (g : A -> bool) (l : list A) :
  NoDup (map f l) -> NoDup (map f (List.filter g l)).
Proof.
  induction l as [|x l IH]; cbn; [auto |].
  intros H. apply NoDup_cons in H. destruct H as [Hx Hl].
  destruct (g x); cbn; [| auto].
  apply NoDup_cons. split; [| auto].
  intros Hin. apply Hx. apply list_elem_of_In in Hin.
  apply list_elem_of_In. apply in_map_iff in Hin.
  destruct Hin as (y & Hy & Hin). apply filter_In in Hin.
  apply in_map_iff. exists y. tauto.
Qed.

Lemma update_keeps_ids (i : string) (details : json) (d : Database) :
  map QuestionPaper.id (papers_after_update i details d)
  = map QuestionPaper.id (question_papers d).
Proof.
  unfold papers_after_update. rewrite map_map. apply map_ext. intros p.
  destruct (bool_decide (QuestionPaper.id p = i)) eqn:E; [| reflexivity].
  apply bool_decide_eq_true_1 in E. cbn. congruence.
Qed.

Lemma next_rowid_not_in (rs : list Result.t) :
  ~ In (Session.next_rowid rs) (map Result.id rs).
Proof.
  intros Hin. apply in_map_iff in Hin. destruct Hin as (r & Hid & Hin).
  pose proof (next_rowid_fresh rs r Hin). lia.
Qed.

Lemma db_step_unique_ids (json_loads : string -> option json)
    (d d' : Database) :
  db_step json_loads d d' -> unique_ids d -> unique_ids d'.
Proof.
  intros Hstep [Hp Hr].
  destruct Hstep as [d | d raw details i Hv Hf | d raw details i p0 Hv Hf | d i p0 Hf
                   | d roll qp marks p0 Hf Hm Hfits];
    split; cbn; try assumption.
  - rewrite map_app. cbn. apply NoDup_app. split; [exact Hp |].
    split; [| apply NoDup_singleton].
    intros x Hx Hx'. apply list_elem_of_In in Hx.
    apply list_elem_of_singleton in Hx'. subst x.
    exact (first_paper_none _ _ Hf Hx).
  - rewrite update_keeps_ids. exact Hp.
  - apply NoDup_map_filter. exact Hp.
  - apply NoDup_map_filter. exact Hr.
  - rewrite map_app. cbn. apply NoDup_app. split; [exact Hr |].
    split; [| apply NoDup_singleton].
    intros x Hx Hx'. apply list_elem_of_In in Hx.
    apply list_elem_of_singleton in Hx'. subst x.
    exact (next_rowid_not_in _ Hx).
Qed.

Lemma validated_is_mapping (json_loads : string -> option json)
    (raw details : json) :
  Schemas.QuestionPaperCreate json_loads raw = inr details ->
  exists m, details = JObj m
            /\ is_Some (m !! "questions") /\ is_Some (m !! "answers").
Proof.
  intros Hv.
  destruct (QuestionPaperCreate_cases json_loads raw)
    as [(m & -> & Hq & Ha & Heq) | (msg & Herr)]; [| congruence].
  rewrite Heq in Hv. inversion Hv; subst. eauto.
Qed.

Lemma db_step_details_ok (json_loads : string -> option json)
    (d d' : Database) :
  db_step json_loads d d' -> details_ok d -> details_ok d'.
Proof.
  intros Hstep Hok.
  destruct Hstep as [d | d raw details i Hv Hf | d raw details i p0 Hv Hf | d i p0 Hf
                   | d roll qp marks p0 Hf Hm Hfits];
    intros p; cbn; try apply Hok.
  - rewrite in_app_iff. intros [Hin | [<- | []]]; [auto |].
    exact (validated_is_mapping _ _ _ Hv).
  - unfold papers_after_update. rewrite in_map_iff.
    intros (q & <- & Hin).
    destruct (bool_decide (QuestionPaper.id q = i)); [| auto].
    exact (validated_is_mapping _ _ _ Hv).
  - unfold papers_after_delete. rewrite filter_In. intros [Hin _]. auto.
Qed.

Lemma db_step_marks_ok (json_loads : string -> option json)
    (d d' : Database) :
  db_step json_loads d d' -> marks_ok d -> marks_ok d'.
Proof.
  intros Hstep Hok.
  destruct Hstep as [d | d raw details i Hv Hf | d raw details i p0 Hv Hf | d i p0 Hf
                   | d roll qp marks p0 Hf Hm Hfits];
    intros r; cbn; try apply Hok.
  - unfold results_after_delete. rewrite filter_In. intros [Hin _]. auto.
  - rewrite in_app_iff. intros [Hin | [<- | []]]; [auto | exact Hm].
Qed.

Lemma db_step_ids_fit (json_loads : string -> option json)
    (d d' : Database) :
  db_step json_loads d d' -> ids_fit d -> ids_fit d'.
Proof.
  intros Hstep Hok.
  destruct Hstep as [d | d raw details i Hv Hf | d raw details i p0 Hv Hf | d i p0 Hf
                   | d roll qp marks p0 Hf Hm Hfits];
    intros r; cbn; try apply Hok.
  - unfold results_after_delete. rewrite filter_In. intros [Hin _]. auto.
  - rewrite in_app_iff. intros [Hin | [<- | []]]; [auto | exact Hfits].
Qed.

Lemma reachable_invariant (json_loads : string -> option json)
    (P : Database -> Prop) :
  P empty_db ->
  (forall d d', db_step json_loads d d' -> P d -> P d') ->
  forall s, reachable json_loads s -> P (durable s).
Proof.
  intros Hinit Hstep s Hreach.
  induction Hreach as [g | e req s Hreach IH]; [exact Hinit |].
  exact (Hstep _ _ (serve_db_step json_loads e req s) IH).
Qed.

(** Every stored result id is one SQLite can hold, and so one that can
    be bound as a parameter. *)
Lemma reachable_ids_fit (json_loads : string -> option json) (s : St) :
  reachable json_loads s -> ids_fit (durable s).
Proof.
  apply (reachable_invariant json_loads ids_fit).
  - intros r [].
  - apply db_step_ids_fit.
Qed.

Lemma sample_s3_reachable : reachable Sample.loads Sample.s3.
Proof.
  unfold Sample.s3, Sample.s2, Sample.s1, Sample.s0.
  repeat apply reach_serve. apply reach_init.
Qed.

(** X1: primary keys stay unique.  In every state the service can
    reach, no two stored papers have the same id and no two stored
    results have the same id: a new paper is only inserted when its uuid
    is not taken, and a new result gets an id above all ids in use. *)
Theorem stored_ids_are_unique (json_loads : string -> option json) (s : St) :
  reachable json_loads s -> unique_ids (durable s).
Proof.
  apply (reachable_invariant json_loads unique_ids).
  - split; constructor.
  - apply db_step_unique_ids.
Qed.

Lemma stored_ids_are_unique_witness : unique_ids (durable Sample.s3).
Proof.
  apply (stored_ids_are_unique Sample.loads). exact sample_s3_reachable.
Defined.

(** X2: every stored paper holds a mapping with the keys [questions]
    and [answers].  Papers are only written by POST and PUT /questions,
    which both go through the validation of the body, and nothing else
    changes the details of a stored paper. *)
Theorem stored_details_are_valid (json_loads : string -> option json)
    (s : St) :
  reachable json_loads s -> details_ok (durable s).
Proof.
  apply (reachable_invariant json_loads details_ok).
  - intros p [].
  - apply db_step_details_ok.
Qed.

Lemma stored_details_are_valid_witness : details_ok (durable Sample.s3).
Proof.
  apply (stored_details_are_valid Sample.loads). exact sample_s3_reachable.
Defined.

(** X3: the marks of every stored result are non-negative, in every
    state the service can reach. *)
Theorem stored_marks_are_nonnegative (json_loads : string -> option json)
    (s : St) :
  reachable json_loads s -> marks_ok (durable s).
Proof.
  apply (reachable_invariant json_loads marks_ok).
  - intros r [].
  - apply db_step_marks_ok.
Qed.

Lemma stored_marks_are_nonnegative_witness : marks_ok (durable Sample.s3).
Proof.
  apply (stored_marks_are_nonnegative Sample.loads).
  exact sample_s3_reachable.
Defined.

(** ** Deleting a paper: what is left of its results *)

(** C1: in every state the service can reach, each result belongs to a
    stored paper.  After a DELETE /questions/{id} that succeeds in such
    a state, reading any result that belonged to the paper by its id is
    answered with 404, no stored result names the paper, and the paper
    is gone. *)
Theorem delete_paper_deletes_its_results :
  (forall (json_loads : string -> option json) (s : St),
      reachable json_loads s -> references_ok (durable s))
  /\ (forall (json_loads : string -> option json) (e e' : Env) (i : string)
        (code : Z) (msg : string) (s : St),
      reachable json_loads s ->
      fst (serve json_loads e (DELETE_question i) s)
        = mkResponse code (Message msg) ->
      let s' := snd (serve json_loads e (DELETE_question i) s) in
      (forall r, In r (results (durable s)) ->
         Result.question_paper_id r = i ->
         fst (serve json_loads e' (GET_result (Result.id r)) s')
         = mkResponse 404
             (Detail ("Result with id " +:+ show_Z (Result.id r)
                      +:+ " not found")))
      /\ (forall r, In r (results (durable s')) ->
            Result.question_paper_id r <> i)
      /\ Session.first_paper i (durable s') = None).
Proof.
  split; [exact reachable_references |].
  intros json_loads e e' i code msg s Hreach. unfold serve at 1 2.
  cbn [dispatch]. unfold respond.
  destruct (Questions.delete_question_paper e i (Session.open s))
    as [[ex|m] s1] eqn:E.
  { destruct ex; cbn; discriminate. }
  cbn [fst snd]. intros _.
  destruct (delete_question_paper_ok e i (Session.open s) m s1 eq_refl E)
    as [Hps Hrs].
  replace (txn (Session.open s)) with (durable s) in Hps, Hrs by reflexivity.
  replace (durable (Session.close s1)) with (durable s1) by reflexivity.
  split; [| split].
  - intros r Hin Hqp. unfold serve, dispatch, respond.
    rewrite get_result_run.
    rewrite bind_int_fits by (apply (reachable_ids_fit json_loads s Hreach);
                              exact Hin).
    replace (txn (Session.open (Session.close s1))) with (durable s1)
      by reflexivity.
    destruct (Session.first_result (Result.id r) (durable s1)) as [r'|] eqn:F;
      [| reflexivity].
    exfalso. unfold Session.first_result in F. apply find_some in F.
    destruct F as [Hin' Heq]. apply bool_decide_eq_true_1 in Heq.
    apply Hrs in Hin'. destruct Hin' as (_ & _ & Hnot). apply Hnot.
    rewrite Heq. apply in_map. apply results_of_spec. auto.
  - intros r Hin. apply Hrs in Hin. tauto.
  - unfold Session.first_paper. rewrite Hps.
    destruct (find _ _) as [p|] eqn:F; [| reflexivity].
    apply find_some in F. destruct F as [Hin Heq].
    apply filter_In in Hin. destruct Hin as [_ Hne].
    rewrite Heq in Hne. discriminate.
Qed.

Lemma delete_paper_deletes_its_results_witness :
  (forall r, In r (results (durable Sample.s3)) ->
     Result.question_paper_id r = "P1" ->
     fst (serve Sample.loads Sample.env (GET_result (Result.id r))
            (snd (serve Sample.loads Sample.env (DELETE_question "P1")
                        Sample.s3)))
     = mkResponse 404
         (Detail ("Result with id " +:+ show_Z (Result.id r)
                  +:+ " not found")))
  /\ List.length (results (durable Sample.s3)) = 2%nat
  /\ references_ok (durable Sample.s3).
Proof.
  assert (Hreach : reachable Sample.loads Sample.s3).
  { unfold Sample.s3, Sample.s2, Sample.s1, Sample.s0.
    repeat apply reach_serve. apply reach_init. }
  split; [| split].
  - apply (proj2 delete_paper_deletes_its_results Sample.loads Sample.env
             Sample.env "P1" 200 "Question paper P1 deleted successfully"
             Sample.s3 Hreach).
    reflexivity.
  - reflexivity.
  - apply (proj1 delete_paper_deletes_its_results Sample.loads).
    exact Hreach.
Defined.

(** ** The question-paper endpoints *)

Lemma serve_create_valid (json_loads : string -> option json) (e : Env)
    (raw details : json) (s : St) :
  Schemas.QuestionPaperCreate json_loads raw = inr details ->
  serve json_loads e (POST_questions raw) s =
  (let (r, s') := Questions.create_question_paper e details (Session.open s)
   in (match r with
       | inr p => mkResponse 201 (Paper p)
       | inl ex => exception_response ex
       end, Session.close s')).
Proof.
  intros Hv. unfold serve, dispatch, with_body, respond. rewrite Hv.
  destruct (Questions.create_question_paper e details (Session.open s))
    as [[ex|p] s']; reflexivity.
Qed.

Lemma validated_is_raw (json_loads : string -> option json)
    (raw details : json) :
  Schemas.QuestionPaperCreate json_loads raw = inr details -> details = raw.
Proof.
  intros Hv.
  destruct (QuestionPaperCreate_cases json_loads raw)
    as [(m & -> & Hq & Ha & Heq) | (msg & Herr)]; congruence.
Qed.

(** X4: a paper that POST /questions answers with can be read back.
    When the response carries a paper, the status is 201, the paper has
    the fresh uuid and exactly the details that were sent, it is the last
    row of the table, the results are untouched, and GET
    /questions/{id} on the new state answers 200 with the same paper. *)
Theorem created_paper_is_read_back
    (json_loads : string -> option json) (e e' : Env) (raw : json)
    (s : St) (code : Z) (p : QuestionPaper.t) :
  fst (serve json_loads e (POST_questions raw) s)
    = mkResponse code (Paper p) ->
  let s' := snd (serve json_loads e (POST_questions raw) s) in
  code = 201
  /\ p = QuestionPaper.mk (uuid4 e) raw
  /\ question_papers (durable s') = (question_papers (durable s) ++ [p])%list
  /\ results (durable s') = results (durable s)
  /\ fst (serve json_loads e' (GET_question (QuestionPaper.id p)) s')
     = mkResponse 200 (Paper p).
Proof.
  destruct (Schemas.QuestionPaperCreate json_loads raw)
    as [ex | details] eqn:Hv.
  { unfold serve, dispatch, with_body. rewrite Hv.
    destruct ex as [c d | [] msg]; cbn; discriminate. }
  pose proof (validated_is_raw _ _ _ Hv) as ->.
  rewrite (serve_create_valid json_loads e raw raw s Hv).
  rewrite (create_question_paper_closed e raw (Session.open s) eq_refl).
  cbv zeta.
  replace (txn (Session.open s)) with (durable s) by reflexivity.
  destruct (Session.first_paper (uuid4 e) (durable s)) eqn:Hf;
    destruct (flush_fault e) as [[[|n] msg]|]; cbn; try discriminate.
  destruct (refresh_fault e); cbn; [discriminate |].
  intros H; inversion H; subst code p; clear H.
  repeat split.
  unfold serve, dispatch, respond. rewrite get_question_paper_run. cbn.
  pose proof (first_paper_app_fresh (QuestionPaper.mk (uuid4 e) raw)
                (durable s) Hf) as Hr.
  unfold Session.first_paper in Hr |- *. cbn in Hr |- *. rewrite Hr.
  reflexivity.
Qed.

Lemma created_paper_is_read_back_witness :
  fst (serve Sample.loads Sample.env (GET_question "P1") Sample.s1)
  = mkResponse 200 (Paper (QuestionPaper.mk "P1" Sample.details)).
Proof.
  exact (proj2 (proj2 (proj2 (proj2
           (created_paper_is_read_back Sample.loads Sample.env Sample.env
              Sample.details Sample.s0 201
              (QuestionPaper.mk "P1" Sample.details) eq_refl))))).
Defined.

(** X5: a uuid that is already the id of a stored paper is refused.
    POST /questions with valid details is then answered with 400 and
    the committed rows are unchanged (the stored paper is not
    overwritten); without an injected fault the detail is the prefix of
    the endpoint followed by what [str()] gives for the IntegrityError
    of the primary key. *)
Theorem create_with_taken_id_changes_nothing
    (json_loads : string -> option json) (e : Env) (raw details : json)
    (s : St) (p0 : QuestionPaper.t) :
  Schemas.QuestionPaperCreate json_loads raw = inr details ->
  Session.first_paper (uuid4 e) (durable s) = Some p0 ->
  let r := serve json_loads e (POST_questions raw) s in
  status (fst r) = 400
  /\ durable (snd r) = durable s
  /\ (flush_fault e = None ->
      fst r = mkResponse 400
                (Detail ("Error creating question paper: "
                         +:+ orm_text e IntegrityError))).
Proof.
  intros Hv Hf r. subst r.
  rewrite (serve_create_valid json_loads e raw details s Hv).
  rewrite (create_question_paper_closed e details (Session.open s) eq_refl).
  cbv zeta.
  replace (txn (Session.open s)) with (durable s) by reflexivity.
  rewrite Hf.
  destruct (flush_fault e) as [[[|n] msg]|]; cbn;
    repeat split; try reflexivity; discriminate.
Qed.

Lemma create_with_taken_id_changes_nothing_witness :
  durable (snd (serve Sample.loads Sample.env (POST_questions Sample.details)
                      Sample.s1))
  = durable Sample.s1.
Proof.
  apply (create_with_taken_id_changes_nothing Sample.loads Sample.env
           Sample.details Sample.details Sample.s1
           (QuestionPaper.mk "P1" Sample.details)); reflexivity.
Defined.



Lemma papers_after_update_other (i : string) (details : json) (d : Database)
    (q : QuestionPaper.t) :
  In q (question_papers d) -> QuestionPaper.id q <> i ->
  In q (papers_after_update i details d).
Proof.
  intros Hin Hne. unfold papers_after_update. apply in_map_iff.
  exists q. split; [| exact Hin].
  rewrite bool_decide_eq_false_2 by exact Hne. reflexivity.
Qed.

(** X7: PUT /questions/{id} replaces the details and nothing else.
    When the response carries a paper, that paper has the id of the
    request and exactly the details that were sent; the ids of the
    stored papers are the same list as before, papers with another id
    are still stored as they were, the results are untouched, and GET
    /questions/{id} answers with the new paper. *)
Theorem update_replaces_details_only
    (json_loads : string -> option json) (e e' : Env) (i : string)
    (raw : json) (s : St) (code : Z) (p : QuestionPaper.t) :
  fst (serve json_loads e (PUT_question i raw) s)
    = mkResponse code (Paper p) ->
  let s' := snd (serve json_loads e (PUT_question i raw) s) in
  code = 200
  /\ p = QuestionPaper.mk i raw
  /\ map QuestionPaper.id (question_papers (durable s'))
     = map QuestionPaper.id (question_papers (durable s))
  /\ (forall q, In q (question_papers (durable s)) ->
        QuestionPaper.id q <> i -> In q (question_papers (durable s')))
  /\ results (durable s') = results (durable s)
  /\ fst (serve json_loads e' (GET_question i) s')
     = mkResponse 200 (Paper p).
Proof.
  destruct (Schemas.QuestionPaperCreate json_loads raw)
    as [ex | details] eqn:Hv.
  { unfold serve, dispatch, with_body. rewrite Hv.
    destruct ex as [c d | [] msg]; cbn; discriminate. }
  pose proof (validated_is_raw _ _ _ Hv) as ->.
  unfold serve at 1 2. unfold dispatch, with_body, respond. rewrite Hv.
  destruct (Session.first_paper i (durable s)) as [p0|] eqn:Hf.
  2:{ rewrite update_question_paper_run.
      replace (txn (Session.open s)) with (durable s) by reflexivity.
      rewrite Hf. cbn. discriminate. }
  rewrite (update_question_paper_found e i raw (Session.open s) p0
             eq_refl Hf).
  destruct (flush_fault e) as [[n msg]|]; cbn; [discriminate |].
  destruct (refresh_fault e); cbn; [discriminate |].
  intros H; inversion H; subst code p; clear H.
  split; [reflexivity |]. split; [reflexivity |].
  split; [apply update_keeps_ids |].
  split; [intros q; apply papers_after_update_other |].
  split; [reflexivity |].
  unfold serve, dispatch, respond. rewrite get_question_paper_run. cbn.
  pose proof (first_paper_updated i raw (durable s) p0 Hf) as Hr.
  unfold Session.first_paper in Hr |- *. cbn in Hr |- *.
  rewrite Hr. reflexivity.
Qed.

Lemma update_replaces_details_only_witness :
  fst (serve Sample.loads Sample.env (GET_question "P1")
         (snd (serve Sample.loads Sample.env
                     (PUT_question "P1" Sample.details_number) Sample.s1)))
  = mkResponse 200 (Paper (QuestionPaper.mk "P1" Sample.details_number)).
Proof.
  exact (proj2 (proj2 (proj2 (proj2 (proj2
           (update_replaces_details_only Sample.loads Sample.env Sample.env
              "P1" Sample.details_number Sample.s1 200
              (QuestionPaper.mk "P1" Sample.details_number) eq_refl)))))).
Defined.

Lemma NoDup_map_inj {A B} (f : A -> B) (l : list A) (x y : A) :
  NoDup (map f l) -> In x l -> In y l -> f x = f y -> x = y.
Proof.
  induction l as [|z l IH]; cbn; [tauto |].
  intros H. apply NoDup_cons in H. destruct H as [Hz Hl].
  intros [-> | Hx] [-> | Hy] Heq; auto.
  - exfalso. apply Hz. apply list_elem_of_In. rewrite Heq.
    apply in_map. exact Hy.
  - exfalso. apply Hz. apply list_elem_of_In. rewrite <- Heq.
    apply in_map. exact Hx.
Qed.

(** With unique result ids the cascade removes the results of the paper
    and no other row. *)
Lemma results_after_delete_unique (i : string) (d : Database) :
  NoDup (map Result.id (results d)) ->
  results_after_delete i d
  = List.filter (fun r => negb (bool_decide (Result.question_paper_id r = i)))
                (results d).
Proof.
  intros Hnd. unfold results_after_delete. apply filter_ext_in.
  intros r Hin. f_equal.
  destruct (bool_decide (Result.question_paper_id r = i)) eqn:E.
  - apply bool_decide_eq_true_1 in E. apply existsb_exists. exists r.
    split; [apply results_of_spec; auto |].
    apply bool_decide_eq_true_2. reflexivity.
  - apply bool_decide_eq_false_1 in E.
    destruct (existsb _ _) eqn:Ex; [| reflexivity].
    exfalso. apply existsb_exists in Ex. destruct Ex as (r' & Hin' & Heq).
    apply bool_decide_eq_true_1 in Heq.
    apply results_of_spec in Hin'. destruct Hin' as [Hin' Hqp].
    apply E. rewrite (NoDup_map_inj Result.id (results d) r r' Hnd Hin Hin' Heq).
    exact Hqp.
Qed.

Lemma find_filter_agree {A} (f g : A -> bool) (l : list A) :
  (forall x, f x = true -> g x = true) ->
  find f (List.filter g l) = find f l.
Proof.
  intros H. induction l as [|x l IH]; cbn; [reflexivity |].
  destruct (g x) eqn:Eg; cbn.
  - destruct (f x); [reflexivity | exact IH].
  - destruct (f x) eqn:Ef; [| exact IH].
    rewrite (H x Ef) in Eg. discriminate.
Qed.

(** X8: DELETE /questions/{id} removes the paper and its results and
    leaves every other row.  From a reachable state, when the response
    carries the confirmation message, the status is 200 and the message
    names the id; the stored papers are the former ones without that id,
    in the same order; the stored results are the former ones that
    belong to other papers, in the same order; every other paper is
    found as before, and the deleted one is answered with 404. *)
Theorem delete_leaves_other_rows
    (json_loads : string -> option json) (e e' : Env) (i : string)
    (s : St) (code : Z) (msg : string) :
  reachable json_loads s ->
  fst (serve json_loads e (DELETE_question i) s)
    = mkResponse code (Message msg) ->
  let s' := snd (serve json_loads e (DELETE_question i) s) in
  code = 200
  /\ msg = "Question paper " +:+ i +:+ " deleted successfully"
  /\ question_papers (durable s')
     = List.filter (fun p => negb (bool_decide (QuestionPaper.id p = i)))
                   (question_papers (durable s))
  /\ results (durable s')
     = List.filter
         (fun r => negb (bool_decide (Result.question_paper_id r = i)))
         (results (durable s))
  /\ (forall j, j <> i ->
        Session.first_paper j (durable s') = Session.first_paper j (durable s))
  /\ fst (serve json_loads e' (GET_question i) s')
     = mkResponse 404
         (Detail ("Question paper with id " +:+ i +:+ " not found")).
Proof.
  intros Hreach.
  pose proof (reachable_invariant json_loads unique_ids
                (conj (NoDup_nil_2 : NoDup (map QuestionPaper.id []))
                      (NoDup_nil_2 : NoDup (map Result.id [])))
                (db_step_unique_ids json_loads) s Hreach) as [_ Hnd].
  unfold serve at 1 2. unfold dispatch, respond.
  destruct (Session.first_paper i (durable s)) as [p0|] eqn:Hf.
  2:{ rewrite delete_question_paper_run.
      replace (txn (Session.open s)) with (durable s) by reflexivity.
      rewrite Hf. cbn. discriminate. }
  rewrite (delete_question_paper_found e i (Session.open s) p0 eq_refl Hf).
  destruct (flush_fault e) as [[n m]|]; cbn; [discriminate |].
  intros H; inversion H; subst code msg; clear H.
  split; [reflexivity |]. split; [reflexivity |].
  split; [reflexivity |].
  split; [apply results_after_delete_unique; exact Hnd |].
  split.
  - intros j Hne. unfold Session.first_paper, papers_after_delete. cbn.
    apply find_filter_agree. intros p Hp.
    apply bool_decide_eq_true_1 in Hp.
    apply negb_true_iff, bool_decide_eq_false_2. congruence.
  - unfold serve, dispatch, respond. rewrite get_question_paper_run.
    unfold Session.first_paper. cbn.
    destruct (find _ (papers_after_delete i (durable s))) as [p|] eqn:F;
      [| reflexivity].
    exfalso. apply find_some in F. destruct F as [Hin Heq].
    apply filter_In in Hin. destruct Hin as [_ Hne].
    rewrite Heq in Hne. discriminate.
Qed.

Lemma delete_leaves_other_rows_witness :
  results (durable (snd (serve Sample.loads Sample.env
                               (DELETE_question "P1") Sample.s3)))
  = List.filter
      (fun r => negb (bool_decide (Result.question_paper_id r = "P1")))
      (results (durable Sample.s3)).
Proof.
  exact (proj1 (proj2 (proj2 (proj2
           (delete_leaves_other_rows Sample.loads Sample.env Sample.env "P1"
              Sample.s3 200 "Question paper P1 deleted successfully"
              sample_s3_reachable eq_refl))))).
Defined.

(** ** Responses and what they say about the state *)

Lemma evaluate_omr_sheet_outcome (e : Env) (roll qp : string)
    (sheet : UploadFile) (s : St) :
  pending s = [] ->
  let r := Evaluate.evaluate_omr_sheet e roll qp sheet s in
  (exists row, fst r = inr row)
  \/ ((refresh_fault e = None -> durable (snd r) = durable s)
      /\ ((exists c d, fst r = inl (HTTPException c d)
                       /\ (c = 400 \/ c = 404 \/ c = 500))
          \/ (exists cls m, fst r = inl (Exception cls m)))).
Proof.
  intros Hp r. subst r.
  destruct (content_type sheet) as [ct|] eqn:Hct.
  2:{ right. unfold Evaluate.evaluate_omr_sheet, Evaluate.is_image.
      rewrite Hct. cbn. eauto. }
  destruct (String.prefix "image/" ct) eqn:Himg.
  2:{ right. unfold Evaluate.evaluate_omr_sheet, Evaluate.is_image.
      rewrite Hct. unfold_monad. rewrite Himg. cbn. split; [reflexivity |].
      left. exists 400, "File must be an image". auto. }
  rewrite (evaluate_omr_sheet_run e roll qp sheet ct) by auto.
  pose proof (save_upload_file_session e sheet s) as Hs. cbv zeta in Hs.
  pose proof (save_upload_file_run e sheet s) as Hrun. cbv zeta in Hrun.
  destruct (save_upload_file e sheet s) as [[ex|path] s1];
    cbn [fst snd] in Hs; destruct Hs as (Hd1 & _).
  { right. cbn. split; [intros _; exact Hd1 |]. left.
    destruct (save_fault e) as [[m|m]|]; inversion Hrun; subst; eauto 10. }
  pose proof (evaluate_omr_session e path qp s1) as Hv. cbv zeta in Hv.
  pose proof (evaluate_omr_exits e path qp s1) as Hx.
  destruct (evaluate_omr e path qp s1) as [[ex|m] s2];
    cbn [fst snd] in Hv, Hx; destruct Hv as (Hd2 & _).
  { right. cbn. split; [intros _; congruence |]. left.
    destruct Hx as [[m Hm] | [Hm | [d Hm]]]; inversion Hm; subst;
      unfold not_found; eauto 10. }
  destruct (new_result_failure e (results (txn s2)) (lastrowid s2))
    as [[ex rid]|]; cbn.
  - right. split; [intros _; congruence |]. left. eauto 10.
  - destruct (refresh_fault e) as [msg|]; cbn.
    + right. split; [discriminate |]. left. eauto 10.
    + left. eauto.
Qed.

Ltac settle :=
  repeat split;
  first [ reflexivity | discriminate | intros; discriminate
        | intros;
          unfold HTTP_200_OK, HTTP_201_CREATED, HTTP_400_BAD_REQUEST,
            HTTP_404_NOT_FOUND, HTTP_422_UNPROCESSABLE_ENTITY,
            HTTP_500_INTERNAL_SERVER_ERROR in *;
          first [ reflexivity | discriminate | assumption | lia ] ].

(** What every request guarantees about its response and its effect. *)
Lemma serve_facts (json_loads : string -> option json) (e : Env)
    (req : Request) (s : St) :
  let r := serve json_loads e req s in
  known_status (status (fst r)) = true
  /\ (refresh_fault e = None ->
      400 <= status (fst r) -> durable (snd r) = durable s)
  /\ (is_evaluate req = false -> session_only s (snd r))
  /\ (is_read req = true -> snd r = Session.close (Session.open s)).
Proof.
  unfold session_only.
  destruct req as [raw | skip limit | i | i raw | i | roll qp sheet
                  | roll qp skip limit | i]; cbv zeta.
  - (* POST /questions *)
    destruct (QuestionPaperCreate_cases json_loads raw)
      as [(m & -> & _ & _ & Hv) | (msg & Hv)].
    2:{ unfold serve, dispatch, with_body. rewrite Hv. cbn. settle. }
    set (details := JObj m) in *.
    rewrite (serve_create_valid json_loads e details details s Hv).
    rewrite (create_question_paper_closed e details (Session.open s)
               eq_refl).
    cbv zeta.
    destruct (Session.first_paper (uuid4 e) (txn (Session.open s)));
      destruct (flush_fault e) as [[[|n] msg]|]; cbn;
      try destruct (refresh_fault e); cbn;
      settle.
  - unfold serve, dispatch, respond. rewrite get_question_papers_run.
    destruct (paged_cases (skip_or_default skip) (limit_or_default limit)
                (question_papers (txn (Session.open s))))
      as [-> | [page ->]]; cbn; settle.
  - unfold serve, dispatch, respond. rewrite get_question_paper_run.
    destruct (Session.first_paper i _); cbn;
      settle.
  - (* PUT /questions/{id} *)
    unfold serve, dispatch, with_body, respond.
    destruct (QuestionPaperCreate_cases json_loads raw)
      as [(m & -> & _ & _ & Hv) | (msg & Hv)]; rewrite Hv;
      [| cbn; settle].
    set (details := JObj m) in *.
    destruct (Session.first_paper i (durable s)) as [p0|] eqn:Hf.
    + rewrite (update_question_paper_found e i details (Session.open s) p0
                 eq_refl Hf).
      destruct (flush_fault e) as [[n msg]|]; cbn;
        try destruct (refresh_fault e); cbn;
        settle.
    + rewrite update_question_paper_run.
      replace (txn (Session.open s)) with (durable s) by reflexivity.
      rewrite Hf. cbn. settle.
  - (* DELETE /questions/{id} *)
    unfold serve, dispatch, respond.
    destruct (Session.first_paper i (durable s)) as [p0|] eqn:Hf.
    + rewrite (delete_question_paper_found e i (Session.open s) p0
                 eq_refl Hf).
      destruct (flush_fault e) as [[n msg]|]; cbn;
        settle.
    + rewrite delete_question_paper_run.
      replace (txn (Session.open s)) with (durable s) by reflexivity.
      rewrite Hf. cbn. settle.
  - (* POST /evaluate *)
    unfold serve, dispatch.
    destruct (with_form_cases roll qp
                (respond HTTP_200_OK OneResult
                   (Evaluate.evaluate_omr_sheet e roll qp sheet))
                (Session.open s)) as [(Hroll & Hqp & E1) | (Hemp & E1)];
      rewrite E1; clear E1; [| cbn; settle].
    unfold respond.
    pose proof (evaluate_omr_sheet_outcome e roll qp sheet (Session.open s)
                  eq_refl) as H.
    cbv zeta in H.
    destruct (Evaluate.evaluate_omr_sheet e roll qp sheet (Session.open s))
      as [[ex|row] s']; cbn [fst snd] in *.
    + destruct H as [[row H] | [Hd [(c & d & H & Hc) | (cls & m & H)]]];
        inversion H; subst; cbn.
      * split; [destruct Hc as [-> | [-> | ->]]; reflexivity |].
        split; [intros Hrf _; exact (Hd Hrf) |]. settle.
      * split; [reflexivity |].
        split; [intros Hrf _; exact (Hd Hrf) |]. settle.
    + cbn. settle.
  - unfold serve, dispatch, respond. rewrite get_results_run.
    destruct (paged_cases (skip_or_default skip) (limit_or_default limit)
                (Evaluate.filtered_results roll qp (txn (Session.open s))))
      as [-> | [page ->]]; cbn; settle.
  - unfold serve, dispatch, respond. rewrite get_result_run.
    destruct (bind_int_cases i) as [-> | ->]; [cbn; settle |].
    destruct (Session.first_result i _); cbn;
      settle.
Qed.

(** X9: an error response means nothing was written, unless it comes
    from the refresh.  Whatever the request and the faults it meets, as
    long as [db.refresh] does not fail, a response with a status of 400
    or more leaves the committed rows exactly as they were.  When
    [db.refresh] fails after a commit that worked, the endpoint answers
    with its error although the row is written: POST /questions with
    valid details and a new uuid is answered with 400 and the paper is
    stored. *)
Theorem error_response_leaves_rows
    (json_loads : string -> option json) (e : Env) (s : St) :
  (forall req,
      refresh_fault e = None ->
      400 <= status (fst (serve json_loads e req s)) ->
      durable (snd (serve json_loads e req s)) = durable s)
  /\ (forall raw details msg,
        Schemas.QuestionPaperCreate json_loads raw = inr details ->
        Session.first_paper (uuid4 e) (durable s) = None ->
        flush_fault e = None ->
        refresh_fault e = Some msg ->
        let r := serve json_loads e (POST_questions raw) s in
        fst r = mkResponse 400
                  (Detail ("Error creating question paper: " +:+ msg))
        /\ question_papers (durable (snd r))
           = (question_papers (durable s)
              ++ [QuestionPaper.mk (uuid4 e) details])%list).
Proof.
  split.
  - intros req. apply (serve_facts json_loads e req s).
  - intros raw details msg Hv Hnone Hf Hrf r. subst r.
    rewrite (serve_create_valid json_loads e raw details s Hv).
    rewrite (create_question_paper_closed e details (Session.open s)
               eq_refl).
    cbv zeta.
    replace (txn (Session.open s)) with (durable s) by reflexivity.
    rewrite Hnone, Hf, Hrf. cbn. split; reflexivity.
Qed.

Lemma error_response_leaves_rows_witness :
  durable (snd (serve Sample.loads Sample.env_commit_fails
                      (DELETE_question "P1") Sample.s3))
  = durable Sample.s3
  /\ (fst (serve Sample.loads Sample.env_refresh_fails
                 (POST_questions Sample.details) Sample.s0)
      = mkResponse 400
          (Detail "Error creating question paper: database is locked")
      /\ question_papers
           (durable (snd (serve Sample.loads Sample.env_refresh_fails
                                (POST_questions Sample.details) Sample.s0)))
         = [QuestionPaper.mk "P1" Sample.details]).
Proof.
  split.
  - apply (proj1 (error_response_leaves_rows Sample.loads
                    Sample.env_commit_fails Sample.s3)
             (DELETE_question "P1")).
    + reflexivity.
    + vm_compute. discriminate.
  - exact (proj2 (error_response_leaves_rows Sample.loads
                    Sample.env_refresh_fails Sample.s0)
             Sample.details Sample.details "database is locked"
             eq_refl eq_refl eq_refl eq_refl).
Defined.

(** X10: the four GET endpoints only read.  The state after such a
    request is the one a session that did nothing leaves (same committed
    rows, uploads directory, output and generator), and the response
    does not depend on the faults or the uuid of the request. *)
Theorem read_requests_change_nothing
    (json_loads : string -> option json) (e e' : Env) (req : Request)
    (s : St) :
  is_read req = true ->
  snd (serve json_loads e req s) = Session.close (Session.open s)
  /\ durable (snd (serve json_loads e req s)) = durable s
  /\ uploads (snd (serve json_loads e req s)) = uploads s
  /\ rng (snd (serve json_loads e req s)) = rng s
  /\ fst (serve json_loads e req s) = fst (serve json_loads e' req s).
Proof.
  intros Hread.
  destruct (serve_facts json_loads e req s) as (_ & _ & _ & H).
  specialize (H Hread). rewrite H.
  split; [reflexivity |]. split; [reflexivity |].
  split; [reflexivity |]. split; [reflexivity |].
  destruct req; try discriminate; reflexivity.
Qed.

Lemma read_requests_change_nothing_witness :
  snd (serve Sample.loads Sample.env (GET_results (Some "R1") None None None)
             Sample.s3)
  = Session.close (Session.open Sample.s3).
Proof.
  apply (read_requests_change_nothing Sample.loads Sample.env Sample.env
           (GET_results (Some "R1") None None None) Sample.s3).
  reflexivity.
Defined.

(** X11: only POST /evaluate touches files and the generator.  Every
    other request leaves the uploads directory, the standard output and
    the state of the random generator as they were. *)
Theorem only_evaluate_touches_files
    (json_loads : string -> option json) (e : Env) (req : Request) (s : St) :
  is_evaluate req = false ->
  session_only s (snd (serve json_loads e req s)).
Proof. apply (serve_facts json_loads e req s). Qed.

Lemma only_evaluate_touches_files_witness :
  session_only Sample.s1
    (snd (serve Sample.loads Sample.env (DELETE_question "P1") Sample.s1)).
Proof.
  apply (only_evaluate_touches_files Sample.loads Sample.env
           (DELETE_question "P1") Sample.s1).
  reflexivity.
Defined.

(** X12: the application answers with one of six statuses: 200, 201,
    400, 404, 422 or 500, whatever the request, the state and the
    faults. *)
Theorem response_status_is_known
    (json_loads : string -> option json) (e : Env) (req : Request) (s : St) :
  known_status (status (fst (serve json_loads e req s))) = true.
Proof. apply (serve_facts json_loads e req s). Qed.

(** ** POST /evaluate: further cases *)

(** X13: a successful evaluation appends one result and changes nothing
    else.  When the response carries a result, the status is 200; the
    result has the roll number and the paper id of the request, marks
    that are not negative, and an id above every id in use; the paper it
    names is stored; the table is the former one with the new row at the
    end, the papers are untouched, and GET /evaluate/results/{id}
    answers with the same result. *)
Theorem evaluation_appends_one_result
    (json_loads : string -> option json) (e e' : Env) (roll qp : string)
    (sheet : UploadFile) (s : St) (code : Z) (r : Result.t) :
  fst (serve json_loads e (POST_evaluate roll qp sheet) s)
    = mkResponse code (OneResult r) ->
  let s' := snd (serve json_loads e (POST_evaluate roll qp sheet) s) in
  code = 200
  /\ Result.roll_number r = roll
  /\ Result.question_paper_id r = qp
  /\ 0 <= Result.marks r
  /\ (forall r0, In r0 (results (durable s)) -> Result.id r0 < Result.id r)
  /\ (exists p, Session.first_paper qp (durable s) = Some p)
  /\ results (durable s') = (results (durable s) ++ [r])%list
  /\ question_papers (durable s') = question_papers (durable s)
  /\ fst (serve json_loads e' (GET_result (Result.id r)) s')
     = mkResponse 200 (OneResult r).
Proof.
  unfold serve at 1 2. unfold dispatch.
  destruct (with_form_cases roll qp
              (respond HTTP_200_OK OneResult
                 (Evaluate.evaluate_omr_sheet e roll qp sheet))
              (Session.open s)) as [(Hroll & Hqp & E1) | (Hemp & E1)];
    rewrite E1; clear E1; [| cbn; discriminate].
  unfold respond.
  destruct (content_type sheet) as [ct|] eqn:Hct.
  2:{ unfold Evaluate.evaluate_omr_sheet, Evaluate.is_image.
      rewrite Hct. cbn. discriminate. }
  destruct (String.prefix "image/" ct) eqn:Himg.
  2:{ unfold Evaluate.evaluate_omr_sheet, Evaluate.is_image.
      rewrite Hct. unfold_monad. rewrite Himg. cbn. discriminate. }
  rewrite (evaluate_omr_sheet_run e roll qp sheet ct) by auto.
  pose proof (save_upload_file_session e sheet (Session.open s)) as Hs.
  cbv zeta in Hs.
  pose proof (save_upload_file_run e sheet (Session.open s)) as Hrun.
  cbv zeta in Hrun.
  destruct (save_upload_file e sheet (Session.open s)) as [[ex|path] s1];
    cbn [fst snd] in Hs; destruct Hs as (Hd1 & Ht1 & _).
  { destruct (save_fault e) as [[m|m]|]; inversion Hrun; subst; cbn;
      discriminate. }
  pose proof (evaluate_omr_session e path qp s1) as Hv. cbv zeta in Hv.
  pose proof (evaluate_omr_marks_paper e path qp s1) as Hm.
  pose proof (evaluate_omr_marks_nonneg e path qp s1) as Hn.
  pose proof (evaluate_omr_raises_http e path qp s1) as Hh.
  destruct (evaluate_omr e path qp s1) as [[ex|m] s2];
    cbn [fst snd] in Hv, Hm, Hn, Hh; destruct Hv as (Hd2 & Ht2 & _).
  { destruct (Hh ex eq_refl) as (c & d & ->). cbn. discriminate. }
  destruct (Hm m eq_refl) as [p Hfind]. specialize (Hn m eq_refl).
  rewrite Ht1 in Hfind.
  replace (txn (Session.open s)) with (durable s) in Hfind, Ht1
    by reflexivity.
  destruct (new_result_failure e (results (txn s2)) (lastrowid s2))
    as [[ex rid]|] eqn:Hfail; cbn; [discriminate |].
  apply new_result_failure_none in Hfail. destruct Hfail as [_ Hfits].
  destruct (refresh_fault e); cbn; [discriminate |].
  rewrite Ht2, Ht1 in Hfits |- *.
  intros H; inversion H; subst code r; clear H. cbn.
  split; [reflexivity |]. split; [reflexivity |]. split; [reflexivity |].
  split; [exact Hn |].
  split; [intros r0 Hin; apply next_rowid_fresh; exact Hin |].
  split; [eauto |]. split; [reflexivity |]. split; [reflexivity |].
  unfold serve, dispatch, respond. rewrite get_result_run.
  rewrite bind_int_fits by exact Hfits. cbn.
  pose proof (first_result_app_fresh
                (Result.mk (Session.next_rowid (results (durable s)))
                           roll qp m)
                (durable s) eq_refl) as Hr.
  unfold Session.first_result in Hr |- *. cbn in Hr |- *. rewrite Hr.
  reflexivity.
Qed.

Lemma evaluation_appends_one_result_witness :
  fst (serve Sample.loads Sample.env (GET_result 1) Sample.s2)
  = mkResponse 200 (OneResult (Result.mk 1 "R1" "P1" 2)).
Proof.
  exact (proj2 (proj2 (proj2 (proj2 (proj2 (proj2 (proj2 (proj2
           (evaluation_appends_one_result Sample.loads Sample.env Sample.env
              "R1" "P1" Sample.png Sample.s1 200
              (Result.mk 1 "R1" "P1" 2) eq_refl))))))))).
Defined.

(** X14: an upload without a declared content type, in a request whose
    roll number and paper id are not empty.  The test
    [content_type.startswith] raises outside every [try], the general
    handler answers 500 with its fixed text, and nothing was done: no
    name drawn, no file written, no row added. *)
Theorem missing_content_type_is_500
    (json_loads : string -> option json) (e : Env) (roll qp : string)
    (sheet : UploadFile) (s : St) :
  roll <> "" -> qp <> "" ->
  content_type sheet = None ->
  serve json_loads e (POST_evaluate roll qp sheet) s
  = (mkResponse 500 (Detail "Internal server error"),
     Session.close (Session.open s)).
Proof.
  intros Hroll Hqp Hct. unfold serve, dispatch.
  rewrite with_form_filled by assumption. unfold respond.
  unfold Evaluate.evaluate_omr_sheet, Evaluate.is_image. rewrite Hct.
  reflexivity.
Qed.

Lemma missing_content_type_is_500_witness :
  serve Sample.loads Sample.env
        (POST_evaluate "R1" "P1" (mkUploadFile "sheet.png" None []))
        Sample.s1
  = (mkResponse 500 (Detail "Internal server error"),
     Session.close (Session.open Sample.s1)).
Proof.
  apply (missing_content_type_is_500 Sample.loads Sample.env "R1" "P1"
           (mkUploadFile "sheet.png" None []) Sample.s1);
    [discriminate | discriminate | reflexivity].
Defined.

(** X15: when saving the image of a request with a roll number and a
    paper id that are not empty fails, the request is answered with 500
    "Error saving file: ..." and the scoring step is not reached: the
    committed rows and the output are unchanged and one random name was
    drawn.  If the file could not be created the uploads directory is
    unchanged; if it was created and the write failed, the empty file
    stays, because only the scoring step removes the upload. *)
Theorem save_failure_is_500
    (json_loads : string -> option json) (e : Env) (roll qp : string)
    (sheet : UploadFile) (ct : string) (s : St) (f : SaveFault) :
  roll <> "" -> qp <> "" ->
  content_type sheet = Some ct ->
  String.prefix "image/" ct = true ->
  save_fault e = Some f ->
  let r := serve json_loads e (POST_evaluate roll qp sheet) s in
  let msg := match f with OpenFails m | WriteFails m => m end in
  fst r = mkResponse 500 (Detail ("Error saving file: " +:+ msg))
  /\ durable (snd r) = durable s
  /\ stdout (snd r) = stdout s
  /\ rng (snd r) = snd (randbytes 8 (rng s))
  /\ uploads (snd r)
     = match f with
       | OpenFails _ => uploads s
       | WriteFails _ => <[saved_path s sheet := []]> (uploads s)
       end.
Proof.
  intros Hroll Hqp Hct Himg Hsave r msg. subst r msg.
  unfold serve, dispatch. rewrite with_form_filled by assumption.
  unfold respond.
  rewrite (evaluate_omr_sheet_run e roll qp sheet ct) by auto.
  rewrite save_upload_file_run, Hsave. cbv zeta.
  destruct f as [m|m]; cbn; repeat split; reflexivity.
Qed.

Lemma save_failure_is_500_witness :
  fst (serve Sample.loads
             (mkEnv "P1" (Some (WriteFails "No space left on device"))
                    None None None Sample.texts)
             (POST_evaluate "R1" "P1" Sample.png) Sample.s1)
  = mkResponse 500
      (Detail "Error saving file: No space left on device").
Proof.
  apply (save_failure_is_500 Sample.loads
           (mkEnv "P1" (Some (WriteFails "No space left on device"))
                  None None None Sample.texts)
           "R1" "P1" Sample.png "image/png" Sample.s1
           (WriteFails "No space left on device"));
    [discriminate | discriminate | reflexivity | reflexivity | reflexivity].
Defined.

(** X26: the form fields of POST /evaluate are required.  A request
    whose roll number or paper id is empty is answered with 422 before
    the endpoint is called: no name is drawn, no file is written, no row
    is added, whatever the file declares and whatever the faults. *)
Theorem empty_form_field_is_422
    (json_loads : string -> option json) (e : Env) (roll qp : string)
    (sheet : UploadFile) (s : St) :
  roll = "" \/ qp = "" ->
  let r := serve json_loads e (POST_evaluate roll qp sheet) s in
  status (fst r) = 422
  /\ snd r = Session.close (Session.open s)
  /\ durable (snd r) = durable s
  /\ uploads (snd r) = uploads s
  /\ rng (snd r) = rng s.
Proof.
  intros Hempty r. subst r. unfold serve, dispatch.
  rewrite with_form_empty by exact Hempty. repeat split; reflexivity.
Qed.

Lemma empty_form_field_is_422_witness :
  status (fst (serve Sample.loads Sample.env
                     (POST_evaluate "" "P1" Sample.png) Sample.s1))
  = 422
  /\ durable (snd (serve Sample.loads Sample.env
                         (POST_evaluate "R1" "" Sample.png) Sample.s1))
     = durable Sample.s1.
Proof.
  split.
  - apply (empty_form_field_is_422 Sample.loads Sample.env "" "P1"
             Sample.png Sample.s1).
    left. reflexivity.
  - apply (empty_form_field_is_422 Sample.loads Sample.env "R1" ""
             Sample.png Sample.s1).
    right. reflexivity.
Defined.

(** X27: a refresh that fails after the commit of an evaluation.  When
    the request passed every check, the scoring step returned marks and
    the commit worked, a failure of [db.refresh] is answered like a
    failed commit, with 500 "Error processing evaluation: ...", although
    the new result is stored: the table is the former one with one more
    row, which has the roll number, the paper id and the marks of the
    scoring step. *)
Theorem refresh_failure_keeps_result
    (json_loads : string -> option json) (e : Env) (roll qp : string)
    (sheet : UploadFile) (ct : string) (s : St) (marks : Z) (msg : string) :
  roll <> "" -> qp <> "" ->
  content_type sheet = Some ct ->
  String.prefix "image/" ct = true ->
  save_fault e = None ->
  fst (evaluate_omr e (saved_path s sheet) qp
         (snd (save_upload_file e sheet (Session.open s)))) = inr marks ->
  flush_fault e = None ->
  fits64 (Session.next_rowid (results (durable s))) = true ->
  refresh_fault e = Some msg ->
  let r := serve json_loads e (POST_evaluate roll qp sheet) s in
  fst r = mkResponse 500 (Detail ("Error processing evaluation: " +:+ msg))
  /\ results (durable (snd r))
     = (results (durable s)
        ++ [Result.mk (Session.next_rowid (results (durable s)))
                      roll qp marks])%list
  /\ question_papers (durable (snd r)) = question_papers (durable s).
Proof.
  intros Hroll Hqp Hct Himg Hsave Hscore Hflush Hfits Hrefresh r. subst r.
  unfold serve, dispatch. rewrite with_form_filled by assumption.
  unfold respond.
  rewrite (evaluate_omr_sheet_run e roll qp sheet ct) by auto.
  revert Hscore. rewrite save_upload_file_run. cbv zeta. rewrite Hsave.
  replace (saved_path (Session.open s) sheet) with (saved_path s sheet)
    by reflexivity.
  set (path := saved_path s sheet).
  set (s1 := set_uploads _ _). cbn [snd].
  pose proof (evaluate_omr_session e path qp s1) as Hs. cbn zeta in Hs.
  destruct (evaluate_omr e path qp s1) as [rr s2].
  cbn [fst snd] in Hs |- *. intros ->.
  destruct Hs as (Hs1 & Hs2 & _).
  assert (Hnone : new_result_failure e (results (txn s2)) (lastrowid s2)
                  = None).
  { apply new_result_failure_none. rewrite Hs2. auto. }
  rewrite Hnone, Hrefresh. cbn. rewrite Hs2. cbn. auto.
Qed.

Lemma refresh_failure_keeps_result_witness :
  fst (serve Sample.loads Sample.env_refresh_fails
             (POST_evaluate "R1" "P1" Sample.png) Sample.s1)
  = mkResponse 500
      (Detail "Error processing evaluation: database is locked")
  /\ results (durable (snd (serve Sample.loads Sample.env_refresh_fails
                                  (POST_evaluate "R1" "P1" Sample.png)
                                  Sample.s1)))
     = [Result.mk 1 "R1" "P1" 2].
Proof.
  pose proof (refresh_failure_keeps_result Sample.loads
                Sample.env_refresh_fails "R1" "P1" Sample.png "image/png"
                Sample.s1 2 "database is locked") as H.
  cbv zeta in H.
  destruct H as (H1 & H2 & _);
    [discriminate | discriminate | reflexivity | reflexivity | reflexivity
     | reflexivity | reflexivity | reflexivity | reflexivity |].
  split; [exact H1 | exact H2].
Defined.

(** ** The upload service *)




(** X17: [cleanup_file] never raises and only ever touches the one
    path.  It returns normally whatever the faults; every other path of
    the uploads directory keeps its content; when the file does not
    exist the state is unchanged; and when the removal works, the file
    is gone and a second call changes nothing more. *)
Theorem cleanup_file_is_safe (e : Env) (path : string) (s : St) :
  let s' := snd (cleanup_file e path s) in
  fst (cleanup_file e path s) = inr tt
  /\ (forall other, other <> path ->
        uploads s' !! other = uploads s !! other)
  /\ (uploads s !! path = None -> s' = s)
  /\ (remove_fault e = None ->
      uploads s' !! path = None
      /\ cleanup_file e path s' = (inr tt, s')).
Proof.
  cbv zeta. rewrite cleanup_file_run. cbn [fst snd].
  split; [reflexivity |].
  destruct (uploads s !! path) as [bytes|] eqn:Hfile.
  - destruct (remove_fault e) as [msg|] eqn:Hrm.
    + split; [reflexivity |]. split; discriminate.
    + split; [intros other Hne; cbn; apply lookup_delete_ne; congruence |].
      split; [discriminate |]. intros _.
      split; [cbn; apply lookup_delete_eq |].
      rewrite cleanup_file_run. cbn. rewrite lookup_delete_eq. reflexivity.
  - split; [reflexivity |]. split; [reflexivity |]. intros _.
    split; [exact Hfile |]. rewrite cleanup_file_run, Hfile. reflexivity.
Qed.

Lemma cleanup_file_is_safe_witness :
  uploads (snd (cleanup_file Sample.env "uploads/a"
                  (set_uploads {["uploads/a" := []]} Sample.s1)))
    !! "uploads/a" = None.
Proof.
  apply (cleanup_file_is_safe Sample.env "uploads/a"
           (set_uploads {["uploads/a" := []]} Sample.s1)).
  reflexivity.
Defined.



(** ** The list endpoints *)

Lemma in_page {A} (k n : Z) (rows : list A) (x : A) :
  In x (page k n rows) -> In x rows.
Proof.
  unfold page. intros H.
  destruct (n <? 0).
  - rewrite <- (firstn_skipn (Z.to_nat k) rows).
    apply in_or_app. right. exact H.
  - rewrite <- (firstn_skipn (Z.to_nat k) rows). apply in_or_app. right.
    rewrite <- (firstn_skipn (Z.to_nat n) (skipn (Z.to_nat k) rows)).
    apply in_or_app. left. exact H.
Qed.

Lemma paged_page {A} (k n : Z) (rows : list A) :
  fits64 k = true -> fits64 n = true -> paged k n rows = inr (page k n rows).
Proof. intros Hk Hn. rewrite paged_fits by assumption. reflexivity. Qed.

Lemma paged_in {A} (k n : Z) (rows pg : list A) (x : A) :
  paged k n rows = inr pg -> In x pg -> In x rows.
Proof.
  intros H Hin. destruct (fits64 k && fits64 n) eqn:E.
  - apply andb_true_iff in E. destruct E as [Hk Hn].
    rewrite paged_page in H by assumption. inversion H; subst pg.
    exact (in_page _ _ _ _ Hin).
  - rewrite paged_overflow in H by exact E. discriminate.
Qed.

Lemma in_filter_by {A} (field : A -> string) (o : option string)
    (rows : list A) (x : A) :
  In x (Evaluate.filter_by field o rows)
  <-> In x rows
      /\ (forall v, o = Some v -> v <> "" -> field x = v).
Proof.
  unfold Evaluate.filter_by, Evaluate.truthy.
  destruct o as [[|c v]|]; cbn.
  - split; [intros H; split; [exact H | intros v Hv; inversion Hv; tauto]
           | tauto].
  - rewrite filter_In, bool_decide_eq_true. split.
    + intros [Hin Hf]. split; [exact Hin |].
      intros v' Hv _. inversion Hv; subst. exact Hf.
    + intros [Hin Hf]. split; [exact Hin |]. apply Hf; [reflexivity |].
      discriminate.
  - split; [intros H; split; [exact H | discriminate] | tauto].
Qed.

(** X19: the filters of GET /evaluate/results are exact matches, and an
    empty string does not filter.  Whenever the response carries
    results, its status is 200 and every result in it is a stored result
    whose roll number and paper id equal the non-empty parameters given;
    it does carry results when skip and limit are numbers SQLite can
    hold (from -2^63 to 2^63 - 1); before paging, the rows considered
    are exactly the stored results that match; an empty parameter gives
    the same response as a missing one. *)
Theorem results_filters_match_exactly
    (json_loads : string -> option json) (e : Env)
    (roll qp : option string) (skip limit : option Z) (s : St) :
  (forall code rs,
     fst (serve json_loads e (GET_results roll qp skip limit) s)
       = mkResponse code (Results rs) ->
     code = 200
     /\ forall r, In r rs ->
          In r (results (durable s))
          /\ (forall v, roll = Some v -> v <> "" -> Result.roll_number r = v)
          /\ (forall v, qp = Some v -> v <> "" ->
                Result.question_paper_id r = v))
  /\ (INT64_MIN <= skip_or_default skip <= INT64_MAX ->
      INT64_MIN <= limit_or_default limit <= INT64_MAX ->
      exists rs,
        fst (serve json_loads e (GET_results roll qp skip limit) s)
        = mkResponse 200 (Results rs))
  /\ (forall r, In r (Evaluate.filtered_results roll qp (durable s)) <->
        In r (results (durable s))
        /\ (forall v, roll = Some v -> v <> "" -> Result.roll_number r = v)
        /\ (forall v, qp = Some v -> v <> "" ->
              Result.question_paper_id r = v))
  /\ serve json_loads e (GET_results (Some "") qp skip limit) s
     = serve json_loads e (GET_results None qp skip limit) s
  /\ serve json_loads e (GET_results roll (Some "") skip limit) s
     = serve json_loads e (GET_results roll None skip limit) s.
Proof.
  assert (Hfilter : forall r,
            In r (Evaluate.filtered_results roll qp (durable s)) <->
            In r (results (durable s))
            /\ (forall v, roll = Some v -> v <> "" ->
                  Result.roll_number r = v)
            /\ (forall v, qp = Some v -> v <> "" ->
                  Result.question_paper_id r = v)).
  { intros r. unfold Evaluate.filtered_results.
    rewrite !in_filter_by. tauto. }
  split; [| split; [| split; [exact Hfilter | split; reflexivity]]].
  - intros code rs. unfold serve, dispatch, respond.
    rewrite get_results_run.
    destruct (paged _ _ _) as [ex|pg] eqn:Hpg.
    { destruct ex; cbn; discriminate. }
    cbn. intros H; inversion H; subst code rs; clear H.
    split; [reflexivity |].
    intros r Hin. apply Hfilter.
    exact (paged_in _ _ _ _ _ Hpg Hin).
  - intros Hk Hn. unfold serve, dispatch, respond.
    rewrite get_results_run.
    rewrite paged_page by (apply fits64_spec; assumption).
    eexists. reflexivity.
Qed.

Lemma results_filters_match_exactly_witness :
  (INT64_MIN <= skip_or_default None <= INT64_MAX
   /\ INT64_MIN <= limit_or_default None <= INT64_MAX)
  /\ (exists rs,
        fst (serve Sample.loads Sample.env
                   (GET_results (Some "R1") None None None) Sample.s3)
        = mkResponse 200 (Results rs))
  /\ (forall r, In r [Result.mk 1 "R1" "P1" 2] ->
        In r (results (durable Sample.s3))
        /\ (forall v, Some "R1" = Some v -> v <> "" ->
              Result.roll_number r = v)
        /\ (forall v, @None string = Some v -> v <> "" ->
              Result.question_paper_id r = v)).
Proof.
  assert (H : INT64_MIN <= skip_or_default None <= INT64_MAX
              /\ INT64_MIN <= limit_or_default None <= INT64_MAX).
  { unfold limit_or_default, skip_or_default, INT64_MIN, INT64_MAX.
    simpl. lia. }
  split; [exact H |]. split.
  - exact (proj1 (proj2 (results_filters_match_exactly Sample.loads
                           Sample.env (Some "R1") None None None Sample.s3))
             (proj1 H) (proj2 H)).
  - exact (proj2 (proj1 (results_filters_match_exactly Sample.loads
                           Sample.env (Some "R1") None None None Sample.s3)
                    200 [Result.mk 1 "R1" "P1" 2] eq_refl)).
Defined.

Lemma firstn_app_skipn {A} (n m : nat) (l : list A) :
  (firstn n l ++ firstn m (skipn n l))%list = firstn (n + m) l.
Proof.
  revert l. induction n as [|n IH]; intros l; [reflexivity |].
  destruct l as [|x l]; cbn; [destruct m; reflexivity |].
  rewrite IH. reflexivity.
Qed.

Lemma page_concat {A} (k n m : Z) (rows : list A) :
  0 <= k -> 0 <= n -> 0 <= m ->
  (page k n rows ++ page (k + n) m rows)%list = page k (n + m) rows.
Proof.
  intros Hk Hn Hm. unfold page.
  destruct (n <? 0) eqn:En; [apply Z.ltb_lt in En; lia |].
  destruct (m <? 0) eqn:Em; [apply Z.ltb_lt in Em; lia |].
  destruct (n + m <? 0) eqn:Enm; [apply Z.ltb_lt in Enm; lia |].
  rewrite Z2Nat.inj_add by lia.
  rewrite (Nat.add_comm (Z.to_nat k)), <- skipn_skipn.
  rewrite firstn_app_skipn. rewrite Z2Nat.inj_add by lia. reflexivity.
Qed.

(** X20: consecutive pages fit together.  For non-negative parameters
    that SQLite can hold ([k + n] and [n + m] at most 2^63 - 1), the page
    [skip=k, limit=n] followed by the page [skip=k+n, limit=m] is the
    page [skip=k, limit=n+m], for GET /questions and, under the same
    filters, for GET /evaluate/results: paging neither loses nor repeats
    a row. *)
Theorem consecutive_pages_concatenate
    (json_loads : string -> option json) (e : Env)
    (roll qp : option string) (k n m : Z) (s : St) :
  0 <= k -> 0 <= n -> 0 <= m ->
  k + n <= INT64_MAX -> n + m <= INT64_MAX ->
  (exists p1 p2,
     fst (serve json_loads e (GET_questions (Some k) (Some n)) s)
       = mkResponse 200 (Papers p1)
     /\ fst (serve json_loads e (GET_questions (Some (k + n)) (Some m)) s)
        = mkResponse 200 (Papers p2)
     /\ fst (serve json_loads e (GET_questions (Some k) (Some (n + m))) s)
        = mkResponse 200 (Papers (p1 ++ p2)))
  /\ (exists r1 r2,
        fst (serve json_loads e (GET_results roll qp (Some k) (Some n)) s)
          = mkResponse 200 (Results r1)
        /\ fst (serve json_loads e
                      (GET_results roll qp (Some (k + n)) (Some m)) s)
           = mkResponse 200 (Results r2)
        /\ fst (serve json_loads e
                      (GET_results roll qp (Some k) (Some (n + m))) s)
           = mkResponse 200 (Results (r1 ++ r2))).
Proof.
  intros Hk Hn Hm Hkn Hnm.
  assert (Hfit : forall z, 0 <= z <= INT64_MAX -> fits64 z = true).
  { intros z Hz. apply fits64_spec. unfold INT64_MIN.
    change (2 ^ 63) with 9223372036854775808. lia. }
  assert (Hpaged : forall A (rows : list A),
            paged k n rows = inr (page k n rows)
            /\ paged (k + n) m rows = inr (page (k + n) m rows)
            /\ paged k (n + m) rows
               = inr (page k n rows ++ page (k + n) m rows)%list).
  { intros A rows. rewrite page_concat by assumption.
    repeat split; apply paged_page; apply Hfit; lia. }
  split.
  - exists (page k n (question_papers (durable s))),
           (page (k + n) m (question_papers (durable s))).
    unfold serve, dispatch, respond.
    change (skip_or_default (Some k)) with k.
    change (skip_or_default (Some (k + n))) with (k + n).
    change (limit_or_default (Some n)) with n.
    change (limit_or_default (Some m)) with m.
    change (limit_or_default (Some (n + m))) with (n + m).
    rewrite !get_question_papers_run.
    destruct (Hpaged _ (question_papers (txn (Session.open s))))
      as (-> & -> & ->).
    repeat split; reflexivity.
  - exists (page k n (Evaluate.filtered_results roll qp (durable s))),
           (page (k + n) m (Evaluate.filtered_results roll qp (durable s))).
    unfold serve, dispatch, respond.
    change (skip_or_default (Some k)) with k.
    change (skip_or_default (Some (k + n))) with (k + n).
    change (limit_or_default (Some n)) with n.
    change (limit_or_default (Some m)) with m.
    change (limit_or_default (Some (n + m))) with (n + m).
    rewrite !get_results_run.
    destruct (Hpaged _ (Evaluate.filtered_results roll qp
                          (txn (Session.open s))))
      as (-> & -> & ->).
    repeat split; reflexivity.
Qed.

Lemma consecutive_pages_concatenate_witness :
  exists r1 r2,
    fst (serve Sample.loads Sample.env
               (GET_results None None (Some 0) (Some 1)) Sample.s3)
      = mkResponse 200 (Results r1)
    /\ fst (serve Sample.loads Sample.env
                  (GET_results None None (Some (0 + 1)) (Some 1)) Sample.s3)
       = mkResponse 200 (Results r2)
    /\ fst (serve Sample.loads Sample.env
                  (GET_results None None (Some 0) (Some (1 + 1))) Sample.s3)
       = mkResponse 200 (Results (r1 ++ r2)).
Proof.
  apply (consecutive_pages_concatenate Sample.loads Sample.env None None
           0 1 1 Sample.s3); unfold INT64_MAX; simpl; lia.
Defined.



(** ** The validator of the details *)

(** X22: what the body validation accepts.  The details of a request
    pass exactly when they are a mapping that has both keys [questions]
    and [answers]; they are then handed to the endpoint unchanged,
    whatever the values and whatever other keys they hold.  A mapping
    that lacks [questions] is refused with the message for [questions],
    also when [answers] is missing too; one that lacks only [answers]
    with the message for [answers]. *)
Theorem validation_accepts_mappings_with_both_keys
    (json_loads : string -> option json) (raw : json) :
  (forall details,
      Schemas.QuestionPaperCreate json_loads raw = inr details <->
      details = raw
      /\ exists m, raw = JObj m
                   /\ is_Some (m !! "questions") /\ is_Some (m !! "answers"))
  /\ (forall m, raw = JObj m -> m !! "questions" = None ->
        Schemas.QuestionPaperCreate json_loads raw
        = inl (Exception ValueError "Missing required field: questions"))
  /\ (forall m, raw = JObj m -> is_Some (m !! "questions") ->
        m !! "answers" = None ->
        Schemas.QuestionPaperCreate json_loads raw
        = inl (Exception ValueError "Missing required field: answers")).
Proof.
  split; [| split].
  - intros details. split.
    + intros Hv. split; [exact (validated_is_raw _ _ _ Hv) |].
      destruct (QuestionPaperCreate_cases json_loads raw)
        as [(m & -> & Hq & Ha & Heq) | (msg & Herr)]; [eauto | congruence].
    + intros [-> (m & -> & [q Hq] & [a Ha])].
      unfold Schemas.QuestionPaperCreate.
      rewrite validate_details_mapping, Hq, Ha. reflexivity.
  - intros m -> Hq. unfold Schemas.QuestionPaperCreate.
    rewrite validate_details_mapping, Hq. reflexivity.
  - intros m -> [q Hq] Ha. unfold Schemas.QuestionPaperCreate.
    rewrite validate_details_mapping, Hq, Ha. reflexivity.
Qed.

Lemma validation_accepts_mappings_with_both_keys_witness :
  Schemas.QuestionPaperCreate Sample.loads (JObj ∅)
  = inl (Exception ValueError "Missing required field: questions").
Proof.
  apply (proj1 (proj2 (validation_accepts_mappings_with_both_keys
                         Sample.loads (JObj ∅))) ∅); reflexivity.
Defined.

(** X23: [validate_details] on its own does not guarantee a mapping.
    Given text, it decodes it: text that does not decode is refused with
    "Invalid JSON format for details"; text that decodes to a mapping is
    checked like a mapping; but text that decodes to a list holding the
    two strings "questions" and "answers" is accepted and the list is
    returned, because the test is [field in v].  A value that is neither
    a mapping nor text raises a [TypeError], not the [ValueError] of a
    validation failure.  It is the annotation [Dict] of the field,
    checked before the validator, that keeps all of these out. *)
Theorem validator_alone_accepts_lists
    (json_loads : string -> option json) :
  (forall text, json_loads text = None ->
     Schemas.validate_details json_loads (JStr text)
     = inl (Exception ValueError "Invalid JSON format for details"))
  /\ (forall text m, json_loads text = Some (JObj m) ->
        Schemas.validate_details json_loads (JStr text)
        = Schemas.validate_details json_loads (JObj m))
  /\ (forall text l, json_loads text = Some (JArr l) ->
        In (JStr "questions") l -> In (JStr "answers") l ->
        Schemas.validate_details json_loads (JStr text) = inr (JArr l))
  /\ (forall v, (forall s, v <> JStr s) -> (forall m, v <> JObj m) ->
        exists msg,
          Schemas.validate_details json_loads v
          = inl (Exception TypeError msg))
  /\ (forall v, (forall m, v <> JObj m) ->
        exists msg,
          Schemas.QuestionPaperCreate json_loads v
          = inl (Exception ValueError msg)).
Proof.
  split; [| split; [| split; [| split]]].
  - intros text H. unfold Schemas.validate_details. rewrite H. reflexivity.
  - intros text m H. unfold Schemas.validate_details. rewrite H.
    reflexivity.
  - intros text l H Hq Ha. unfold Schemas.validate_details. rewrite H.
    unfold Schemas.required_fields. cbn [Schemas.check_fields Schemas.contains].
    assert (Hex : forall f, In (JStr f) l ->
              existsb (fun x => match x with
                                | JStr s => bool_decide (s = f)
                                | _ => false
                                end) l = true).
    { intros f Hin. apply existsb_exists. exists (JStr f).
      split; [exact Hin | apply bool_decide_eq_true_2; reflexivity]. }
    rewrite (Hex "questions" Hq), (Hex "answers" Ha). reflexivity.
  - intros v Hs Hm. destruct v; try (eexists; reflexivity).
    + exfalso. exact (Hs _ eq_refl).
    + exfalso. exact (Hm _ eq_refl).
  - intros v Hm. destruct v; try (eexists; reflexivity).
    exfalso. exact (Hm _ eq_refl).
Qed.

Lemma validator_alone_accepts_lists_witness :
  Schemas.validate_details sample_loads_names (JStr "names.json")
  = inr (JArr [JStr "questions"; JStr "answers"]).
Proof.
  apply (proj1 (proj2 (proj2 (validator_alone_accepts_lists
                                sample_loads_names)))
           "names.json" [JStr "questions"; JStr "answers"]).
  - reflexivity.
  - left. reflexivity.
  - right. left. reflexivity.
Defined.

(** ** Requests one after the other *)

Lemma evaluate_unknown_paper_response
    (json_loads : string -> option json) (e : Env) (roll qp : string)
    (sheet : UploadFile) (ct : string) (s : St) :
  roll <> "" -> qp <> "" ->
  Session.first_paper qp (durable s) = None ->
  content_type sheet = Some ct ->
  String.prefix "image/" ct = true ->
  save_fault e = None ->
  fst (serve json_loads e (POST_evaluate roll qp sheet) s)
  = mkResponse 404
      (Detail ("Question paper with id " +:+ qp +:+ " not found"))
  /\ durable (snd (serve json_loads e (POST_evaluate roll qp sheet) s))
     = durable s.
Proof.
  intros Hroll Hqp Hnone Hct Himg Hsave. unfold serve, dispatch.
  rewrite with_form_filled by assumption. unfold respond.
  rewrite (evaluate_omr_sheet_run e roll qp sheet ct) by auto.
  rewrite save_upload_file_run, Hsave. cbv beta iota zeta.
  rewrite evaluate_unknown_paper by exact Hnone.
  rewrite cleanup_file_run. cbn.
  destruct (_ !! _); [destruct (remove_fault e) |]; cbn; auto.
Qed.

(** X24: a deleted paper cannot be evaluated against.  Right after a
    DELETE /questions/{id} that succeeded, an evaluation request for
    that id with a roll number that is not empty (the id is not empty
    either), whose image is saved, is answered with 404 and adds no
    result. *)
Theorem deleted_paper_cannot_be_evaluated
    (json_loads : string -> option json) (e e' : Env) (i roll : string)
    (sheet : UploadFile) (ct : string) (s : St) (code : Z) (msg : string) :
  fst (serve json_loads e (DELETE_question i) s)
    = mkResponse code (Message msg) ->
  roll <> "" -> i <> "" ->
  content_type sheet = Some ct ->
  String.prefix "image/" ct = true ->
  save_fault e' = None ->
  let s' := snd (serve json_loads e (DELETE_question i) s) in
  fst (serve json_loads e' (POST_evaluate roll i sheet) s')
  = mkResponse 404
      (Detail ("Question paper with id " +:+ i +:+ " not found"))
  /\ durable (snd (serve json_loads e' (POST_evaluate roll i sheet) s'))
     = durable s'.
Proof.
  intros Hdel Hroll Hi Hct Himg Hsave s'.
  apply evaluate_unknown_paper_response with (ct := ct); try assumption.
  subst s'. revert Hdel. unfold serve. cbn [dispatch]. unfold respond.
  destruct (Session.first_paper i (durable s)) as [p0|] eqn:Hf.
  2:{ rewrite delete_question_paper_run.
      replace (txn (Session.open s)) with (durable s) by reflexivity.
      rewrite Hf. cbn. discriminate. }
  rewrite (delete_question_paper_found e i (Session.open s) p0 eq_refl Hf).
  destruct (flush_fault e) as [[n m]|]; cbn; [discriminate |].
  intros _. unfold Session.first_paper. cbn.
  destruct (find _ (papers_after_delete i (durable s))) as [p|] eqn:F;
    [| reflexivity].
  exfalso. apply find_some in F. destruct F as [Hin Heq].
  apply filter_In in Hin. destruct Hin as [_ Hne].
  rewrite Heq in Hne. discriminate.
Qed.

Lemma deleted_paper_cannot_be_evaluated_witness :
  fst (serve Sample.loads Sample.env (POST_evaluate "R3" "P1" Sample.png)
         (snd (serve Sample.loads Sample.env (DELETE_question "P1")
                     Sample.s3)))
  = mkResponse 404 (Detail "Question paper with id P1 not found").
Proof.
  apply (deleted_paper_cannot_be_evaluated Sample.loads Sample.env
           Sample.env "P1" "R3" Sample.png "image/png" Sample.s3 200
           "Question paper P1 deleted successfully");
    [reflexivity | discriminate | discriminate
     | reflexivity | reflexivity | reflexivity].
Defined.

Lemma evaluation_marks_bound
    (json_loads : string -> option json) (e : Env) (roll qp : string)
    (sheet : UploadFile) (s : St) (p : QuestionPaper.t)
    (m : gmap string json) (n code : Z) (r : Result.t) :
  Session.first_paper qp (durable s) = Some p ->
  QuestionPaper.details p = JObj m ->
  len (default (JArr []) (m !! "questions")) = inr n ->
  fst (serve json_loads e (POST_evaluate roll qp sheet) s)
    = mkResponse code (OneResult r) ->
  0 <= Result.marks r <= n.
Proof.
  intros Hp Hd Hlen. unfold serve, dispatch.
  destruct (with_form_cases roll qp
              (respond HTTP_200_OK OneResult
                 (Evaluate.evaluate_omr_sheet e roll qp sheet))
              (Session.open s)) as [(Hroll & Hqp & E1) | (Hemp & E1)];
    rewrite E1; clear E1; [| cbn; discriminate].
  unfold respond.
  destruct (content_type sheet) as [ct|] eqn:Hct.
  2:{ unfold Evaluate.evaluate_omr_sheet, Evaluate.is_image.
      rewrite Hct. cbn. discriminate. }
  destruct (String.prefix "image/" ct) eqn:Himg.
  2:{ unfold Evaluate.evaluate_omr_sheet, Evaluate.is_image.
      rewrite Hct. unfold_monad. rewrite Himg. cbn. discriminate. }
  rewrite (evaluate_omr_sheet_run e roll qp sheet ct) by auto.
  rewrite save_upload_file_run. cbv zeta.
  destruct (save_fault e) as [[sm|sm]|]; try (cbn; discriminate).
  set (s1 := set_uploads _ _). cbv beta iota.
  rewrite evaluate_omr_run.
  replace (txn s1) with (durable s) by reflexivity.
  rewrite Hp, Hd, Hlen.
  pose proof (randint_range n (rng s1) (len_nonneg _ _ Hlen)) as Hr.
  destruct (randint 0 n (rng s1)) as [marks g]. cbn [fst snd] in *.
  destruct (new_result_failure e _ _) as [[ex rid]|]; cbn; [discriminate |].
  destruct (refresh_fault e); cbn; [discriminate |].
  intros H; inversion H; subst. cbn. exact Hr.
Qed.

(** X25: evaluation counts the questions of the details as they are
    now.  Right after a PUT /questions/{id} that succeeded with details
    whose [questions] is a list of [N] entries, a successful evaluation
    against that id gives marks between 0 and [N], whatever the paper
    held before. *)
Theorem evaluation_uses_updated_details
    (json_loads : string -> option json) (e e' : Env) (i roll : string)
    (sheet : UploadFile) (m : gmap string json) (l : list json) (s : St)
    (code code' : Z) (p : QuestionPaper.t) (r : Result.t) :
  fst (serve json_loads e (PUT_question i (JObj m)) s)
    = mkResponse code (Paper p) ->
  m !! "questions" = Some (JArr l) ->
  let s' := snd (serve json_loads e (PUT_question i (JObj m)) s) in
  fst (serve json_loads e' (POST_evaluate roll i sheet) s')
    = mkResponse code' (OneResult r) ->
  0 <= Result.marks r <= Z.of_nat (List.length l).
Proof.
  intros Hput Hq s' Heval.
  apply (evaluation_marks_bound json_loads e' roll i sheet s'
           (QuestionPaper.mk i (JObj m)) m (Z.of_nat (List.length l))
           code' r); try assumption; try reflexivity.
  2:{ rewrite Hq. reflexivity. }
  clear Heval. subst s'. revert Hput.
  unfold serve. cbn [dispatch]. unfold with_body, respond.
  destruct (QuestionPaperCreate_cases json_loads (JObj m))
    as [(m' & Hm & _ & _ & Hv) | (msg & Hv)]; rewrite Hv;
    [| cbn; discriminate].
  destruct (Session.first_paper i (durable s)) as [p0|] eqn:Hf.
  2:{ rewrite update_question_paper_run.
      replace (txn (Session.open s)) with (durable s) by reflexivity.
      rewrite Hf. cbn. discriminate. }
  rewrite (update_question_paper_found e i (JObj m) (Session.open s) p0
             eq_refl Hf).
  destruct (flush_fault e) as [[n msg]|]; cbn; [discriminate |].
  destruct (refresh_fault e); cbn; [discriminate |].
  intros _. exact (first_paper_updated i (JObj m) (durable s) p0 Hf).
Qed.

Lemma evaluation_uses_updated_details_witness :
  fst (serve Sample.loads Sample.env (POST_evaluate "R1" "P1" Sample.png)
         Sample.s_number)
  = mkResponse 500
      (Detail "Error processing OMR sheet: object of type 'int' has no len()")
  /\ fst (serve Sample.loads Sample.env (POST_evaluate "R1" "P1" Sample.png)
            (snd (serve Sample.loads Sample.env
                        (PUT_question "P1" Sample.details) Sample.s_number)))
     = mkResponse 200 (OneResult (Result.mk 1 "R1" "P1" 2))
  /\ 0 <= Result.marks (Result.mk 1 "R1" "P1" 2) <= 3.
Proof.
  split; [reflexivity |]. split; [reflexivity |].
  apply (evaluation_uses_updated_details Sample.loads Sample.env Sample.env
           "P1" "R1" Sample.png
           (<["questions" := JArr [JNum 1; JNum 2; JNum 3]]>
              (<["answers" := JArr [JNum 1; JNum 2; JNum 1]]> ∅))
           [JNum 1; JNum 2; JNum 3] Sample.s_number 200 200
           (QuestionPaper.mk "P1" Sample.details)
           (Result.mk 1 "R1" "P1" 2)); reflexivity.
Defined.
